(** * Voicemail ingestion backend: a shallow embedding of the Go server

    The development follows the layout of the Go program: byte strings
    and the helpers of package [strings] it calls, the phone regular
    expression and [extractPhoneNumber], base64 and [saveAttachment],
    the world the handlers run in (file system, recordings table, local
    collaborators), [transcribeAudio], [generateTitle], [webhookHandler],
    [playHandler] with the part of [http.ServeFile] it relies on,
    [recordingsHandler] and [corsMiddleware]; the first version of the
    extractor in backend/main.go and the escaping of the mail script
    come with them.

    Go strings are byte sequences: they are modelled by [string], whose
    characters are the 256 byte values of [ascii].  A handler is a
    function from the world to a result and a new world.  What the
    program cannot decide (random bytes, the clock, failing system
    calls, the dates of files, the external commands, the completion
    service, the JSON decoder of the standard library) is a field of
    the record [Env],
    and the statements hold for every value of it.  Log lines are not
    part of the model, and neither are the start of the server in
    [main] and [initDuckDB] and the routing of the requests. *)

From Stdlib Require Import String Ascii List ZArith Lia Bool DecimalString Sorted.
From stdpp Require Import base option gmap strings.

Local Open Scope string_scope.

(** ** Results of Go code that may panic *)

Inductive exec (A : Type) : Type :=
| Done (a : A)
| Panicked (msg : string).
Arguments Done {A} a.
Arguments Panicked {A} msg.

Definition exec_bind {A B} (m : exec A) (f : A -> exec B) : exec B :=
  match m with
  | Done a => f a
  | Panicked msg => Panicked msg
  end.

Notation "'do!' x <- m ; k" := (exec_bind m (fun x => k))
  (at level 10, x name, m at level 100, k at level 200).

(** ** Byte strings and package strings *)

Module GoStrings.

Definition len (s : string) : nat := String.length s.

Fixpoint drop (n : nat) (s : string) : string :=
  match n, s with
  | O, _ => s
  | S n', String _ s' => drop n' s'
  | S _, EmptyString => EmptyString
  end.

Fixpoint take (n : nat) (s : string) : string :=
  match n, s with
  | O, _ => EmptyString
  | S n', String a s' => String a (take n' s')
  | S _, EmptyString => EmptyString
  end.

(** [s[n:]]: slicing past the end of a string panics. *)
Definition slice_from (s : string) (n : nat) : exec string :=
  if (n <=? len s)%nat then Done (drop n s)
  else Panicked "slice bounds out of range".

(** [xs[i]]: indexing out of range panics. *)
Definition index {A} (xs : list A) (i : nat) : exec A :=
  match nth_error xs i with
  | Some x => Done x
  | None => Panicked "index out of range"
  end.

Fixpoint HasPrefix (s p : string) : bool :=
  match p, s with
  | EmptyString, _ => true
  | String b p', String a s' => Ascii.eqb a b && HasPrefix s' p'
  | String _ _, EmptyString => false
  end.

Definition HasSuffix (s p : string) : bool :=
  (len p <=? len s)%nat && String.eqb (drop (len s - len p) s) p.

Definition TrimPrefix (s p : string) : string :=
  if HasPrefix s p then drop (len p) s else s.

Definition TrimSuffix (s p : string) : string :=
  if HasSuffix s p then take (len s - len p) s else s.

Fixpoint contains_byte (cutset : string) (a : ascii) : bool :=
  match cutset with
  | EmptyString => false
  | String b cs => Ascii.eqb a b || contains_byte cs a
  end.

Fixpoint trim_left_bytes (cutset s : string) : string :=
  match s with
  | String a s' => if contains_byte cutset a then trim_left_bytes cutset s' else s
  | EmptyString => EmptyString
  end.

(** The right trim walks the string once: a byte of the cut set is
    dropped when everything after it has been dropped. *)
Fixpoint trim_right_bytes (cutset s : string) : string :=
  match s with
  | String a s' =>
      match trim_right_bytes cutset s' with
      | EmptyString => if contains_byte cutset a then EmptyString else String a EmptyString
      | t => String a t
      end
  | EmptyString => EmptyString
  end.

(** [strings.Trim] with a cut set of ASCII bytes. *)
Definition Trim (s cutset : string) : string :=
  trim_right_bytes cutset (trim_left_bytes cutset s).

(** Strings given by their bytes. *)
Definition bytes1 (a : ascii) : string := String a EmptyString.
Definition bytes2 (a b : ascii) : string := String a (String b EmptyString).
Definition bytes3 (a b c : ascii) : string :=
  String a (String b (String c EmptyString)).

(** The double quote, as a string. *)
Definition dquote : string := bytes1 "034".

(** The white space of [unicode.IsSpace], as UTF-8 byte sequences:
    the six ASCII ones, U+0085, U+00A0, U+1680, U+2000..U+200A,
    U+2028, U+2029, U+202F, U+205F and U+3000. *)
Definition unicode_spaces : list string :=
  [ bytes1 "009"; bytes1 "010"; bytes1 "011"; bytes1 "012"; bytes1 "013";
    bytes1 " "; bytes2 "194" "133"; bytes2 "194" "160";
    bytes3 "225" "154" "128" ]
  ++ map (fun n => bytes3 "226" "128" (ascii_of_nat (128 + n))) (seq 0 11)
  ++ [ bytes3 "226" "128" "168"; bytes3 "226" "128" "169";
       bytes3 "226" "128" "175"; bytes3 "226" "129" "159";
       bytes3 "227" "128" "128" ].

Fixpoint strip_one_prefix (ps : list string) (s : string) : option string :=
  match ps with
  | [] => None
  | p :: ps' => if HasPrefix s p then Some (drop (len p) s) else strip_one_prefix ps' s
  end.

Fixpoint trim_left_space (fuel : nat) (s : string) : string :=
  match fuel with
  | O => s
  | S fuel' =>
      match strip_one_prefix unicode_spaces s with
      | Some s' => trim_left_space fuel' s'
      | None => s
      end
  end.

Fixpoint strip_one_suffix (ps : list string) (s : string) : option string :=
  match ps with
  | [] => None
  | p :: ps' => if HasSuffix s p then Some (take (len s - len p) s) else strip_one_suffix ps' s
  end.

Fixpoint trim_right_space (fuel : nat) (s : string) : string :=
  match fuel with
  | O => s
  | S fuel' =>
      match strip_one_suffix unicode_spaces s with
      | Some s' => trim_right_space fuel' s'
      | None => s
      end
  end.

(** [strings.TrimSpace]: every step removes at least one byte, so the
    length of the string is fuel enough. *)
Definition TrimSpace (s : string) : string :=
  let l := trim_left_space (len s) s in
  trim_right_space (len l) l.

Definition lower_byte (a : ascii) : ascii :=
  if (Ascii.leb "A" a && Ascii.leb a "Z")%bool
  then ascii_of_nat (nat_of_ascii a + 32) else a.

(** [strings.ToLower] on the ASCII letters.  The handler only compares
    the lowered name with an ASCII suffix, and no rune outside ASCII
    lowers to one of the bytes of that suffix. *)
Fixpoint ToLower (s : string) : string :=
  match s with
  | EmptyString => EmptyString
  | String a s' => String (lower_byte a) (ToLower s')
  end.

End GoStrings.

(** ** Regular expressions with capture groups

    Package [regexp] finds the leftmost match and, among the matches that
    start there, the one a backtracking matcher tries first (greedy [?]
    and [*] prefer to consume).  The matcher below is that backtracking
    search, written with a continuation for the rest of the pattern; it
    covers the operators the two patterns of the program use.  The
    patterns only name ASCII bytes, which are runes of their own in
    every byte string, so matching byte by byte is matching rune by
    rune. *)

Module Regexp.
Import GoStrings.

Inductive re : Type :=
| Lit (a : ascii)            (* one literal byte *)
| Cls (p : ascii -> bool)    (* one byte of a class: \d, \s, [-.\s] *)
| Opt (r : re)               (* r?, greedy *)
| Star (p : ascii -> bool)   (* class*, greedy *)
| Rep (n : nat) (r : re)     (* r{n} *)
| Grp (i : nat) (r : re)     (* capture group number i *)
| Cat (r1 r2 : re).          (* r1 r2 *)

Infix ">>>" := Cat (at level 60, right associativity).

(** The text matched between two suffixes [s] and [s'] of the input. *)
Definition consumed (s s' : string) : string := take (len s - len s') s.

Fixpoint star {A} (p : ascii -> bool) (s : string) (k : string -> option A)
  : option A :=
  match s with
  | String b s' =>
      if p b then
        match star p s' k with
        | Some x => Some x
        | None => k s
        end
      else k s
  | EmptyString => k s
  end.

Fixpoint run {A} (r : re) (s : string) (c : gmap nat string)
    (k : string -> gmap nat string -> option A) : option A :=
  match r with
  | Lit a =>
      match s with
      | String b s' => if Ascii.eqb b a then k s' c else None
      | EmptyString => None
      end
  | Cls p =>
      match s with
      | String b s' => if p b then k s' c else None
      | EmptyString => None
      end
  | Opt r1 =>
      match run r1 s c k with
      | Some x => Some x
      | None => k s c
      end
  | Star p => star p s (fun s' => k s' c)
  | Rep n r1 =>
      (fix rep (n : nat) (s : string) (c : gmap nat string) : option A :=
         match n with
         | O => k s c
         | S n' => run r1 s c (fun s' c' => rep n' s' c')
         end) n s c
  | Grp i r1 => run r1 s c (fun s' c' => k s' (<[i := consumed s s']> c'))
  | Cat r1 r2 => run r1 s c (fun s' c' => run r2 s' c' k)
  end.

(** A match anchored at the start of [s]: the matched text and the groups. *)
Definition match_here (r : re) (s : string) : option (string * gmap nat string) :=
  run r s ∅ (fun s' c => Some (consumed s s', c)).

(** The leftmost match: the start offsets are tried from left to right. *)
Fixpoint search (r : re) (s : string) : option (string * gmap nat string) :=
  match match_here r s with
  | Some m => Some m
  | None =>
      match s with
      | String _ s' => search r s'
      | EmptyString => None
      end
  end.

(** [FindStringSubmatch] of a pattern with [ngroups] groups: nil when
    there is no match, else the whole match followed by the text of
    each group (empty for a group that took no part). *)
Definition FindStringSubmatch (r : re) (ngroups : nat) (s : string) : list string :=
  match search r s with
  | None => []
  | Some (whole, c) => whole :: map (fun i => default "" (c !! i)) (seq 1 ngroups)
  end.

Definition digit (a : ascii) : bool := Ascii.leb "0" a && Ascii.leb a "9".

(** [\s] of the RE2 syntax: tab, newline, form feed, carriage return, space. *)
Definition space (a : ascii) : bool :=
  contains_byte (String "009" (String "010" (String "012" (String "013" " ")))) a.

(** [[-.\s]] *)
Definition sep (a : ascii) : bool := Ascii.eqb a "-" || Ascii.eqb a "." || space a.

(** The declarative reading of a pattern: [matches r s c s' c'] when
    [r] matches the part of [s] before its suffix [s'] and turns the
    groups [c] into [c']. *)
Inductive matches : re -> string -> gmap nat string -> string -> gmap nat string -> Prop :=
| M_Lit a s c : matches (Lit a) (String a s) c s c
| M_Cls p b s c : p b = true -> matches (Cls p) (String b s) c s c
| M_OptSome r s c s' c' : matches r s c s' c' -> matches (Opt r) s c s' c'
| M_OptNone r s c : matches (Opt r) s c s c
| M_StarNil p s c : matches (Star p) s c s c
| M_StarCons p b s c s' :
    p b = true -> matches (Star p) s c s' c -> matches (Star p) (String b s) c s' c
| M_RepO r s c : matches (Rep 0 r) s c s c
| M_RepS n r s c s1 c1 s2 c2 :
    matches r s c s1 c1 -> matches (Rep n r) s1 c1 s2 c2 ->
    matches (Rep (S n) r) s c s2 c2
| M_Grp i r s c s' c' :
    matches r s c s' c' -> matches (Grp i r) s c s' (<[i := consumed s s']> c')
| M_Cat r1 r2 s c s1 c1 s2 c2 :
    matches r1 s c s1 c1 -> matches r2 s1 c1 s2 c2 -> matches (r1 >>> r2) s c s2 c2.

(** Patterns without a capture group, and strings over a class. *)
Fixpoint no_group (r : re) : bool :=
  match r with
  | Lit _ | Cls _ | Star _ => true
  | Opt r1 | Rep _ r1 => no_group r1
  | Grp _ _ => false
  | Cat r1 r2 => no_group r1 && no_group r2
  end.

Fixpoint all_bytes (p : ascii -> bool) (s : string) : bool :=
  match s with
  | EmptyString => true
  | String a s' => p a && all_bytes p s'
  end.

End Regexp.

(** ** The phone number extractor *)

Import GoStrings Regexp.

(** [\+?1?\s*\(?(\d{3})\)?[-.\s]?(\d{3})[-.\s]?(\d{4})] *)
Definition phoneRegex : re :=
  Opt (Lit "+") >>> Opt (Lit "1") >>> Star space >>> Opt (Lit "(") >>>
  Grp 1 (Rep 3 (Cls digit)) >>> Opt (Lit ")") >>> Opt (Cls sep) >>>
  Grp 2 (Rep 3 (Cls digit)) >>> Opt (Cls sep) >>>
  Grp 3 (Rep 4 (Cls digit)).

Definition phoneRegex_groups : nat := 3.

Definition extractPhoneNumber (s : string) : exec string :=
  let matches := FindStringSubmatch phoneRegex phoneRegex_groups s in
  if (4 <=? length matches)%nat then
    do! m1 <- index matches 1;
    do! joke <-
      (if String.eqb m1 "704" then
         do! m3 <- index matches 3;
         do! tail <- slice_from m3 2;
         Done (String.eqb tail "90")
       else Done false);
    if joke : bool then Done "I HATE THIS MAN"
    else
      do! a <- index matches 1;
      do! b <- index matches 2;
      do! c <- index matches 3;
      Done ("(" +:+ a +:+ ") " +:+ b +:+ "-" +:+ c)
  else Done "".

(** ** Errors

    A Go [error] is kept with its structure: the text of a leaf, the
    offset of a corrupt base64 input, and the wrapping of [fmt.Errorf]
    with [%w]. *)

Inductive error : Type :=
| ErrText (msg : string)
| CorruptInputError (offset : nat)
| Wrapped (before : string) (cause : error) (after : string).

Definition itoa (z : Z) : string := NilZero.string_of_int (Z.to_int z).

Fixpoint Error (e : error) : string :=
  match e with
  | ErrText msg => msg
  | CorruptInputError n => "illegal base64 data at input byte " +:+ itoa (Z.of_nat n)
  | Wrapped before cause after => before +:+ Error cause +:+ after
  end.

(** ** Package encoding/base64 (RFC 4648, padded)

    Three bytes are regrouped into four 6-bit values, most significant
    bits first; a 6-bit value is kept as a byte whose two top bits are
    clear.  [Ascii] lists the bits of a byte from the least significant
    one. *)

Module Base64.

Definition encodeStd : string :=
  "ABCDEFGHIJKLMNOPQRSTUVWXYZabcdefghijklmnopqrstuvwxyz0123456789+/".
Definition encodeURL : string :=
  "ABCDEFGHIJKLMNOPQRSTUVWXYZabcdefghijklmnopqrstuvwxyz0123456789-_".
Definition padChar : ascii := "=".

(** [val>>18&0x3F], [val>>12&0x3F], [val>>6&0x3F], [val&0x3F] for
    [val = x<<16 | y<<8 | z]. *)
Definition split3 (x y z : ascii) : ascii * ascii * ascii * ascii :=
  let '(Ascii x0 x1 x2 x3 x4 x5 x6 x7) := x in
  let '(Ascii y0 y1 y2 y3 y4 y5 y6 y7) := y in
  let '(Ascii z0 z1 z2 z3 z4 z5 z6 z7) := z in
  (Ascii x2 x3 x4 x5 x6 x7 false false,
   Ascii y4 y5 y6 y7 x0 x1 false false,
   Ascii z6 z7 y0 y1 y2 y3 false false,
   Ascii z0 z1 z2 z3 z4 z5 false false).

(** [byte(val>>16)], [byte(val>>8)], [byte(val)] for
    [val = a<<18 | b<<12 | c<<6 | d]. *)
Definition join4 (a b c d : ascii) : ascii * ascii * ascii :=
  let '(Ascii a0 a1 a2 a3 a4 a5 _ _) := a in
  let '(Ascii b0 b1 b2 b3 b4 b5 _ _) := b in
  let '(Ascii c0 c1 c2 c3 c4 c5 _ _) := c in
  let '(Ascii d0 d1 d2 d3 d4 d5 _ _) := d in
  (Ascii b4 b5 a0 a1 a2 a3 a4 a5,
   Ascii c2 c3 c4 c5 b0 b1 b2 b3,
   Ascii d0 d1 d2 d3 d4 d5 c0 c1).

(** [enc.encode[v]] *)
Definition encode_at (alphabet : string) (v : ascii) : ascii :=
  match String.get (nat_of_ascii v) alphabet with
  | Some a => a
  | None => zero
  end.

Fixpoint index_of (a : ascii) (alphabet : string) (i : nat) : option ascii :=
  match alphabet with
  | EmptyString => None
  | String b rest => if Ascii.eqb a b then Some (ascii_of_nat i) else index_of a rest (S i)
  end.

(** [enc.decodeMap[a]], with [None] for the 0xff of an invalid byte. *)
Definition decodeMap (alphabet : string) (a : ascii) : option ascii :=
  index_of a alphabet 0.

Fixpoint EncodeToString (alphabet : string) (src : string) : string :=
  match src with
  | String x (String y (String z rest)) =>
      let '(a, b, c, d) := split3 x y z in
      String (encode_at alphabet a) (String (encode_at alphabet b)
        (String (encode_at alphabet c) (String (encode_at alphabet d)
           (EncodeToString alphabet rest))))
  | String x (String y EmptyString) =>
      let '(a, b, c, _) := split3 x y zero in
      String (encode_at alphabet a) (String (encode_at alphabet b)
        (String (encode_at alphabet c) (String padChar EmptyString)))
  | String x EmptyString =>
      let '(a, b, _, _) := split3 x zero zero in
      String (encode_at alphabet a) (String (encode_at alphabet b)
        (String padChar (String padChar EmptyString)))
  | EmptyString => EmptyString
  end.

Definition is_newline (a : ascii) : bool := Ascii.eqb a "010" || Ascii.eqb a "013".

Fixpoint skip_newlines (s : string) (si : nat) : string * nat :=
  match s with
  | String a s' => if is_newline a then skip_newlines s' (S si) else (s, si)
  | EmptyString => (s, si)
  end.

(** After the padding of a quantum: new lines may follow, anything
    else is trailing garbage. *)
Definition after_padding (rest : string) (si : nat) (out : string) : error + string :=
  match skip_newlines rest si with
  | (EmptyString, _) => inr out
  | (String _ _, si') => inl (CorruptInputError si')
  end.

(** The decoding loop, one input byte at a time: [si] is the offset of
    the next byte and [q] holds the 6-bit values of the quantum being
    read.  Carriage returns and new lines are skipped; the input must
    be padded to whole quanta. *)
Fixpoint decode (alphabet : string) (src : string) (si : nat) (q : list ascii)
  : error + string :=
  match src with
  | EmptyString =>
      match q with
      | [] => inr EmptyString
      | _ => inl (CorruptInputError (si - length q))
      end
  | String a rest =>
      match decodeMap alphabet a with
      | Some v =>
          match q with
          | [s0; s1; s2] =>
              let '(x, y, z) := join4 s0 s1 s2 v in
              match decode alphabet rest (S si) [] with
              | inr out => inr (String x (String y (String z out)))
              | inl e => inl e
              end
          | _ => decode alphabet rest (S si) (q ++ [v])
          end
      | None =>
          if is_newline a then decode alphabet rest (S si) q
          else if negb (Ascii.eqb a padChar) then inl (CorruptInputError si)
          else
            match q with
            | [s0; s1] =>
                let '(x, _, _) := join4 s0 s1 zero zero in
                match skip_newlines rest (S si) with
                | (EmptyString, _) => inl (CorruptInputError (S si + len rest))
                | (String b rest', si') =>
                    if Ascii.eqb b padChar
                    then after_padding rest' (S si') (String x EmptyString)
                    else inl (CorruptInputError (si' - 1))
                end
            | [s0; s1; s2] =>
                let '(x, y, _) := join4 s0 s1 s2 zero in
                after_padding rest (S si) (String x (String y EmptyString))
            | _ => inl (CorruptInputError si)
            end
      end
  end.

Definition DecodeString (alphabet : string) (s : string) : error + string :=
  decode alphabet s 0 [].

Module StdEncoding.
Definition EncodeToString := EncodeToString encodeStd.
Definition DecodeString := DecodeString encodeStd.
End StdEncoding.

Module URLEncoding.
Definition EncodeToString := EncodeToString encodeURL.
End URLEncoding.

End Base64.

(** ** Package path/filepath *)

Module Filepath.

Fixpoint split_on (sep : ascii -> bool) (s : string) (cur : string) : list string :=
  match s with
  | EmptyString => [cur]
  | String a s' =>
      if sep a then cur :: split_on sep s' EmptyString
      else split_on sep s' (cur +:+ String a EmptyString)
  end.

Definition is_slash (a : ascii) : bool := Ascii.eqb a "/".

(** The elements Clean keeps, last one first: empty and [.] elements
    go, [..] removes the element before it, stays in a relative path
    that has nothing left to remove and goes at the root. *)
Fixpoint clean_elems (rooted : bool) (elems : list string) (kept : list string)
  : list string :=
  match elems with
  | [] => kept
  | e :: rest =>
      if String.eqb e "" || String.eqb e "." then clean_elems rooted rest kept
      else if String.eqb e ".." then
        match kept with
        | k :: kept' =>
            if String.eqb k ".." then clean_elems rooted rest (e :: kept)
            else clean_elems rooted rest kept'
        | [] => if rooted then clean_elems rooted rest [] else clean_elems rooted rest [e]
        end
      else clean_elems rooted rest (e :: kept)
  end.

Fixpoint join_elems (elems : list string) : string :=
  match elems with
  | [] => EmptyString
  | [e] => e
  | e :: rest => e +:+ "/" +:+ join_elems rest
  end.

Definition Clean (path : string) : string :=
  let rooted := HasPrefix path "/" in
  let body := join_elems (rev (clean_elems rooted (split_on is_slash path EmptyString) [])) in
  if rooted then "/" +:+ body
  else if String.eqb body "" then "." else body.

(** [filepath.Join] of two elements. *)
Definition Join (dir name : string) : string :=
  if String.eqb dir "" && String.eqb name "" then ""
  else if String.eqb dir "" then Clean name
  else if String.eqb name "" then Clean dir
  else Clean (dir +:+ "/" +:+ name).

(** [filepath.Split]: the directory, up to and with the last slash, and
    the file behind it. *)
Fixpoint Split (path : string) : string * string :=
  match path with
  | EmptyString => (EmptyString, EmptyString)
  | String a rest =>
      let '(dir, file) := Split rest in
      if String.eqb dir "" then
        if is_slash a then (String a EmptyString, file) else (EmptyString, String a file)
      else (String a dir, file)
  end.

(** [filepath.Ext]: the suffix that starts at the last dot of the last
    element, empty without a dot. *)
Fixpoint Ext (path : string) : string :=
  match path with
  | EmptyString => EmptyString
  | String a rest =>
      match Ext rest with
      | EmptyString =>
          if Ascii.eqb a "." && negb (existsb is_slash (list_ascii_of_string rest))
          then path else EmptyString
      | e => e
      end
  end.

End Filepath.

(** ** The data of the program *)

Record Recording : Type := mkRecording {
  ID : string;
  PhoneNumber : string;
  ReceivedAt : string;
  MP3FileName : string;
  FilePath : string;
  FileSize : Z;
  Transcription : string;
  Title : string
}.

Record AttachmentData : Type := mkAttachmentData {
  FileName : string;
  Content : string;
  MimeType : string
}.

Record EmailData : Type := mkEmailData {
  Subject : string;
  Sender : string;
  EmailReceivedAt : string;
  Attachments : list AttachmentData
}.

Record Message : Type := mkMessage {
  Role : string;
  MessageContent : string
}.

Record OpenAIRequest : Type := mkOpenAIRequest {
  Model : string;
  Messages : list Message;
  Temperature : Z * Z;      (* 0.7 as the fraction 7/10 *)
  MaxTokens : Z
}.

Record Choice : Type := mkChoice {
  ChoiceMessage : Message;
  FinishReason : string;
  Index : Z
}.

Record Usage : Type := mkUsage {
  PromptTokens : Z;
  CompletionTokens : Z;
  TotalTokens : Z
}.

Record OpenAIResponse : Type := mkOpenAIResponse {
  ResponseID : string;
  Object : string;
  Created : Z;
  Choices : list Choice;
  ResponseUsage : Usage
}.

Definition dataDir : string := "./data".
Definition attachmentDir : string := "./data/mp3s".
Definition dbPath : string := "./data/recordings.duckdb".

(** The thin no-break space U+202F in UTF-8. *)
Definition nastyTime : string := bytes3 "226" "128" "175".

(** [nastyTimeRegex.ReplaceAll(body, repl)]: the pattern is the literal
    three bytes of [nastyTime], so the leftmost non-overlapping matches
    are its occurrences read from left to right. *)
Fixpoint nastyTimeRegex_ReplaceAll (body : string) (repl : string) : string :=
  match body with
  | EmptyString => EmptyString
  | String a rest =>
      match rest with
      | String b (String c rest') =>
          if Ascii.eqb a "226" && Ascii.eqb b "128" && Ascii.eqb c "175"
          then repl +:+ nastyTimeRegex_ReplaceAll rest' repl
          else String a (nastyTimeRegex_ReplaceAll rest repl)
      | _ => String a (nastyTimeRegex_ReplaceAll rest repl)
      end
  end.

(** ** The world around the handlers *)

Inductive errno : Type := ENOENT | EACCES | EIO | EMFILE | ENOSPC.

Definition errno_text (e : errno) : string :=
  match e with
  | ENOENT => "no such file or directory"
  | EACCES => "permission denied"
  | EIO => "input/output error"
  | EMFILE => "too many open files"
  | ENOSPC => "no space left on device"
  end.

(** An [*fs.PathError]. *)
Record PathError : Type := mkPathError {
  Op : string;
  Path : string;
  Errno : errno
}.

Definition PathError_text (e : PathError) : string :=
  Op e +:+ " " +:+ Path e +:+ ": " +:+ errno_text (Errno e).

Definition as_error (e : PathError) : error := ErrText (PathError_text e).

(** [os.IsNotExist] *)
Definition os_IsNotExist (e : PathError) : bool :=
  match Errno e with ENOENT => true | _ => false end.

Record CmdResult : Type := mkCmdResult {
  Stdout : string;
  Stderr : string;
  RunErr : option error
}.

Record HTTPResponse : Type := mkHTTPResponse {
  StatusCode : Z;
  ResponseBody : error + string       (* what io.ReadAll gives *)
}.

(** What the surroundings answer during one request. *)
Record Env : Type := mkEnv {
  rand_read : nat -> error + (nat -> ascii);   (* the k-th crypto/rand.Read *)
  now_unixnano : nat -> Z;
  now_text : string;                           (* time.Now() in the layout 2006-01-02 15:04:05 *)
  fs_fault : string -> string -> option errno; (* a system call failing: operation, path *)
  short_write : string -> nat;                 (* bytes that reach the file when a write fails *)
  db_fault : string -> option error;           (* the store failing: insert, select *)
  look_path : string -> option error;          (* exec.LookPath *)
  process : string -> list string -> gmap string string -> gmap string string * CmdResult;
  http_post : string -> OpenAIRequest -> error + HTTPResponse;
  json_EmailData : string -> error + EmailData;            (* json.Unmarshal *)
  json_OpenAIResponse : string -> error + OpenAIResponse;  (* json.Unmarshal *)
  mod_time : string -> option string;  (* a file's modification time as an HTTP date,
                                          nothing for the zero time *)
  utf8_names : bool                    (* the release of Go is one whose [http.Dir]
                                          refuses names that are not UTF-8 (1.23
                                          and later) *)
}.

Inductive Event : Type :=
| EvExec (name : string) (args : list string)
| EvHTTPPost (url : string) (request : OpenAIRequest).

Record World : Type := mkWorld {
  files : gmap string string;      (* path to content *)
  recordings : list Recording;     (* the rows of table recordings, oldest first *)
  rand_calls : nat;
  trace : list Event               (* calls to the collaborators, oldest first *)
}.

Definition set_files (f : gmap string string -> gmap string string) (w : World) : World :=
  mkWorld (f (files w)) (recordings w) (rand_calls w) (trace w).
Definition set_recordings (f : list Recording -> list Recording) (w : World) : World :=
  mkWorld (files w) (f (recordings w)) (rand_calls w) (trace w).
Definition set_rand_calls (f : nat -> nat) (w : World) : World :=
  mkWorld (files w) (recordings w) (f (rand_calls w)) (trace w).
Definition emit (e : Event) (w : World) : World :=
  mkWorld (files w) (recordings w) (rand_calls w) (trace w ++ [e]).

(** Computations of the handlers: they change the world and may panic. *)
Definition M (A : Type) : Type := World -> exec A * World.

Definition ret {A} (a : A) : M A := fun w => (Done a, w).

Definition bind {A B} (m : M A) (f : A -> M B) : M B :=
  fun w =>
    match m w with
    | (Done a, w') => f a w'
    | (Panicked msg, w') => (Panicked msg, w')
    end.

Definition lift {A} (e : exec A) : M A := fun w => (e, w).

Notation "'let*' x := m 'in' k" := (bind m (fun x => k))
  (at level 10, x name, m at level 100, k at level 200, format "'let*'  x  :=  m  'in'  '//' k").

(** ** HTTP requests and responses *)

Record Request : Type := mkRequest {
  Method : string;
  URLPath : string;
  Body : error + string             (* what io.ReadAll(r.Body) gives *)
}.

Inductive ResponseBody_t : Type :=
| BodyText (text : string)
| BodyJSON (fields : list (string * string))   (* an object of strings, keys sorted *)
| BodyFile (content : string).

Record Response : Type := mkResponse {
  Status : Z;
  Headers : list (string * string);
  Payload : ResponseBody_t
}.

Definition StatusOK : Z := 200.
Definition StatusCreated : Z := 201.
Definition StatusMovedPermanently : Z := 301.
Definition StatusBadRequest : Z := 400.
Definition StatusForbidden : Z := 403.
Definition StatusNotFound : Z := 404.
Definition StatusMethodNotAllowed : Z := 405.
Definition StatusInternalServerError : Z := 500.

(** [http.Error] *)
Definition http_Error (msg : string) (code : Z) : Response :=
  mkResponse code
    [("Content-Type", "text/plain; charset=utf-8"); ("X-Content-Type-Options", "nosniff")]
    (BodyText (msg +:+ bytes1 "010")).

(** ** The server *)

Section Server.

Variable env : Env.

(** *** System calls *)

Definition path_error (op path : string) (e : errno) : PathError := mkPathError op path e.

(** [os.Create]: the file is created or truncated. *)
Definition os_Create (path : string) : M (option PathError) := fun w =>
  match fs_fault env "open" path with
  | Some e => (Done (Some (path_error "open" path e)), w)
  | None => (Done None, set_files (insert path EmptyString) w)
  end.

(** [file.Write]: a failing write leaves part of the content behind. *)
Definition file_Write (path content : string) : M (option PathError) := fun w =>
  match fs_fault env "write" path with
  | Some e =>
      (Done (Some (path_error "write" path e)),
       set_files (insert path (take (short_write env path) content)) w)
  | None => (Done None, set_files (insert path content) w)
  end.

(** [os.Stat], of which the program reads the size. *)
Definition os_Stat (path : string) : M (PathError + Z) := fun w =>
  match fs_fault env "stat" path with
  | Some e => (Done (inl (path_error "stat" path e)), w)
  | None =>
      match files w !! path with
      | Some content => (Done (inr (Z.of_nat (len content))), w)
      | None => (Done (inl (path_error "stat" path ENOENT)), w)
      end
  end.

(** Opening a file and reading it whole: [os.ReadFile], and the read
    side of [http.ServeFile]. *)
Definition os_ReadFile (path : string) : M (PathError + string) := fun w =>
  match fs_fault env "open" path with
  | Some e => (Done (inl (path_error "open" path e)), w)
  | None =>
      match files w !! path with
      | Some content => (Done (inr content), w)
      | None => (Done (inl (path_error "open" path ENOENT)), w)
      end
  end.

(** [os.Remove], whose error the program ignores. *)
Definition os_Remove (path : string) : M unit := fun w =>
  match fs_fault env "remove" path with
  | Some _ => (Done tt, w)
  | None => (Done tt, set_files (delete path) w)
  end.

(** [exec.Command(name, args...).Run()] with captured output. *)
Definition cmd_Run (name : string) (args : list string) : M CmdResult := fun w =>
  let '(files', res) := process env name args (files w) in
  (Done res, emit (EvExec name args) (set_files (fun _ => files') w)).

(** [client.Do(req)] for the POST of a chat completion request. *)
Definition http_Do (url : string) (request : OpenAIRequest) : M (error + HTTPResponse) :=
  fun w => (Done (http_post env url request), emit (EvHTTPPost url request) w).

(** *** The recordings table *)

Definition ErrNoRows : error := ErrText "sql: no rows in result set".
Definition ErrDuplicateKey : error :=
  ErrText "Constraint Error: Duplicate key violates primary key constraint".

(** [INSERT INTO recordings ... VALUES (...)]; [id] is the primary key. *)
Definition db_insert (rec : Recording) : M (option error) := fun w =>
  match db_fault env "insert" with
  | Some e => (Done (Some e), w)
  | None =>
      if existsb (fun r => String.eqb (ID r) (ID rec)) (recordings w)
      then (Done (Some ErrDuplicateKey), w)
      else (Done None, set_recordings (fun rs => (rs ++ [rec])%list) w)
  end.

(** [SELECT file_path FROM recordings WHERE id = ?] read with [row.Scan]. *)
Definition db_select_file_path (id : string) : M (error + string) := fun w =>
  match db_fault env "select" with
  | Some e => (Done (inl e), w)
  | None =>
      match List.find (fun r => String.eqb (ID r) id) (recordings w) with
      | Some r => (Done (inr (FilePath r)), w)
      | None => (Done (inl ErrNoRows), w)
      end
  end.

(** *** Helper functions *)

Definition generateID : M string := fun w =>
  let k := rand_calls w in
  let w' := set_rand_calls S w in
  match rand_read env k with
  | inl _ => (Done (itoa (now_unixnano env k)), w')
  | inr b =>
      (Done (Base64.URLEncoding.EncodeToString (string_of_list_ascii (map b (seq 0 16)))), w')
  end.

Definition saveAttachment (attachment : AttachmentData) (filePath : string)
  : M (option error) :=
  match Base64.StdEncoding.DecodeString (Content attachment) with
  | inl err => ret (Some (Wrapped "base64 decode error: " err ""))
  | inr content =>
      let* created := os_Create filePath in
      match created with
      | Some err => ret (Some (Wrapped "file creation error: " (as_error err) ""))
      | None =>
          let* written := file_Write filePath content in
          match written with
          | Some err => ret (Some (Wrapped "file write error: " (as_error err) ""))
          | None => ret None
          end
      end
  end.

Definition whisper_cli : string := "../whisper.cpp/build/bin/whisper-cli".

Definition transcribeAudio (filePath : string) : M (string * option error) :=
  match look_path env whisper_cli with
  | Some err => ret ("", Some (Wrapped "whisper.cpp not found in PATH: " err ""))
  | None =>
      let wavPath := TrimSuffix filePath (Filepath.Ext filePath) +:+ ".wav" in
      let* ffmpeg :=
        cmd_Run "ffmpeg"
          ["-i"; filePath; "-ar"; "16000"; "-ac"; "1"; "-c:a"; "pcm_s16le"; wavPath] in
      match RunErr ffmpeg with
      | Some err => ret ("", Some (Wrapped "failed to convert MP3 to WAV: " err ""))
      | None =>
          (* from here on the deferred os.Remove(wavPath) runs at every return *)
          let* result :=
            (let* whisper :=
               cmd_Run whisper_cli
                 ["--model"; "../whisper.cpp/models/ggml-base.en.bin"; "--output-txt";
                  "-f"; wavPath] in
             match RunErr whisper with
             | Some err =>
                 ret ("", Some (Wrapped "whisper transcription failed: " err
                                  (bytes1 "010" +:+ "stderr: " +:+ Stderr whisper)))
             | None =>
                 let transcriptionFile :=
                   TrimSuffix wavPath (Filepath.Ext wavPath) +:+ ".txt" in
                 let* st := os_Stat transcriptionFile in
                 if match st with inl e => os_IsNotExist e | inr _ => false end
                 then ret (TrimSpace (Stdout whisper), None)
                 else
                   let* read := os_ReadFile transcriptionFile in
                   match read with
                   | inl err =>
                       ret ("", Some (Wrapped "failed to read transcription file: "
                                        (as_error err) ""))
                   | inr transcriptionBytes =>
                       let* _ := os_Remove transcriptionFile in
                       ret (TrimSpace transcriptionBytes, None)
                   end
             end) in
          let* _ := os_Remove wavPath in
          ret result
      end
  end.

Definition systemPrompt : string :=
  "You are a helpful assistant that generates very short, clear titles for voicemail transcriptions. Keep your titles under 8 words, be descriptive but concise, focusing on the main point. Don't use quotes in your response and only return the title, no other text preceded by a colon.".

Definition ollama_url : string := "http://localhost:11434/v1/chat/completions".

(** The clean-up at the end of [generateTitle]. *)
Definition clean_title (content : string) : string :=
  let title := TrimSpace content in
  let title := Trim title (String "034" "'") in
  let title := TrimPrefix title ":" in
  if String.eqb title "" then "Untitled Voicemail" else title.

(** [json.Marshal] of the request and [http.NewRequest] with a fixed
    method and URL do not fail, so their error branches are left out. *)
Definition generateTitle (transcription : string) : M (string * option error) :=
  let userPrompt :=
    "Please create a title for this voicemail transcription:"
      +:+ bytes2 "010" "010" +:+ transcription in
  let requestData :=
    mkOpenAIRequest "llama2"
      [mkMessage "system" systemPrompt; mkMessage "user" userPrompt] (7, 10)%Z 50 in
  let* sent := http_Do ollama_url requestData in
  match sent with
  | inl err =>
      ret ("Untitled Voicemail", Some (Wrapped "failed to send request to Ollama: " err ""))
  | inr resp =>
      match ResponseBody resp with
      | inl err =>
          ret ("Untitled Voicemail", Some (Wrapped "failed to read response body: " err ""))
      | inr body =>
          if negb (StatusCode resp =? StatusOK)%Z then
            ret ("Untitled Voicemail",
                 Some (ErrText ("Ollama API error (status " +:+ itoa (StatusCode resp)
                                  +:+ "): " +:+ body)))
          else
            match json_OpenAIResponse env body with
            | inl err =>
                ret ("Untitled Voicemail",
                     Some (Wrapped "failed to parse Ollama response: " err ""))
            | inr openAIResponse =>
                match Choices openAIResponse with
                | [] => ret ("Untitled Voicemail", Some (ErrText "no content in Ollama response"))
                | choice :: _ =>
                    ret (clean_title (MessageContent (ChoiceMessage choice)), None)
                end
            end
      end
  end.

(** *** Handler for /api/webhook *)

Definition is_mp3 (attachment : AttachmentData) : bool :=
  HasSuffix (ToLower (FileName attachment)) ".mp3".

(** [recording] after the assignments to its fields [Transcription]
    and [Title]. *)
Definition enriched (recording : Recording) (transcription title : string) : Recording :=
  mkRecording (ID recording) (PhoneNumber recording) (ReceivedAt recording)
    (MP3FileName recording) (FilePath recording) (FileSize recording) transcription title.

(** Transcription and title of a saved recording, as the handler
    fills them in. *)
Definition enrich (recording : Recording) : M Recording :=
  let* transcribed := transcribeAudio (FilePath recording) in
  match transcribed with
  | (_, Some err) =>
      ret (enriched recording ("Transcription failed: " +:+ Error err) "Untitled Voicemail")
  | (transcription, None) =>
      if negb (String.eqb transcription "") then
        let* generated := generateTitle transcription in
        match generated with
        | (_, Some err) => ret (enriched recording transcription "Untitled Voicemail")
        | (title, None) => ret (enriched recording transcription title)
        end
      else ret (enriched recording transcription "Untitled Voicemail")
  end.

(** The rest of the loop body once the file is on disk: the record is
    enriched and handed to the store, whose error is only logged. *)
Definition ingest (recording : Recording) : M unit :=
  let* recording := enrich recording in
  let* _ := db_insert recording in
  ret tt.

(** The loop over the attachments.  [recordingID] is the variable
    declared before the loop: it is assigned as soon as an MP3 name is
    seen, [continue] goes on with the next attachment and keeps it,
    [break] leaves the loop after the first recording that was saved. *)
Fixpoint process_attachments (receivedAt phoneNumber : string)
    (attachments : list AttachmentData) (recordingID : string) : M string :=
  match attachments with
  | [] => ret recordingID
  | attachment :: rest =>
      if is_mp3 attachment then
        let* recordingID := generateID in
        let filePath := Filepath.Join attachmentDir (recordingID +:+ ".mp3") in
        let* failed := saveAttachment attachment filePath in
        match failed with
        | Some _ => process_attachments receivedAt phoneNumber rest recordingID
        | None =>
            let* fileInfo := os_Stat filePath in
            match fileInfo with
            | inl _ => process_attachments receivedAt phoneNumber rest recordingID
            | inr size =>
                let recording :=
                  mkRecording recordingID phoneNumber receivedAt (FileName attachment)
                    filePath size "" "" in
                let* _ := ingest recording in
                ret recordingID
            end
        end
      else process_attachments receivedAt phoneNumber rest recordingID
  end.

(** The header set after [WriteHeader] comes too late to be sent. *)
Definition webhookHandler (r : Request) : M Response :=
  if negb (String.eqb (Method r) "POST") then
    ret (http_Error "Method not allowed" StatusMethodNotAllowed)
  else
    match Body r with
    | inl _ => ret (http_Error "Error reading request body" StatusInternalServerError)
    | inr body =>
        let body := nastyTimeRegex_ReplaceAll body " " in
        match json_EmailData env body with
        | inl _ => ret (http_Error "Error parsing JSON" StatusBadRequest)
        | inr email =>
            let receivedAt :=
              if String.eqb (EmailReceivedAt email) "" then now_text env
              else EmailReceivedAt email in
            let* phoneNumber := lift (extractPhoneNumber (Subject email)) in
            let phoneNumber :=
              if String.eqb phoneNumber "" then "Unknown" else phoneNumber in
            let* recordingID :=
              process_attachments receivedAt phoneNumber (Attachments email) "" in
            ret (mkResponse StatusCreated []
                   (BodyJSON [("id", recordingID);
                              ("message", "Recording data received");
                              ("status", "success")]))
        end
    end.

(** *** Handler for /api/play/:id *)

(** **** The header of a response

    The keys a handler has set and their values, in the order in which
    the keys came.  A Go header is a map: the order carries no meaning.
    The keys are written in their canonical form. *)

Definition Header_has (key : string) (h : list (string * string)) : bool :=
  existsb (fun kv => String.eqb (fst kv) key) h.

Definition Header_Get (key : string) (h : list (string * string)) : string :=
  match List.find (fun kv => String.eqb (fst kv) key) h with
  | Some kv => snd kv
  | None => ""
  end.

Definition Header_Set (key value : string) (h : list (string * string))
  : list (string * string) :=
  if Header_has key h
  then map (fun kv => if String.eqb (fst kv) key then (key, value) else kv) h
  else (h ++ [(key, value)])%list.

Definition Header_Del (key : string) (h : list (string * string))
  : list (string * string) :=
  List.filter (fun kv => negb (String.eqb (fst kv) key)) h.

(** [http.Error] on a writer whose header is [h]; [http_Error] above is
    the case of a writer on which nothing was set. *)
Definition http_Error_on (h : list (string * string)) (msg : string) (code : Z)
  : Response :=
  mkResponse code
    (Header_Set "X-Content-Type-Options" "nosniff"
       (Header_Set "Content-Type" "text/plain; charset=utf-8"
          (Header_Del "Content-Length" h)))
    (BodyText (msg +:+ bytes1 "010")).

(** **** [http.ServeFile]

    Package net/http, file fs.go, on a Unix system, for a request
    without query, range or conditional headers, on a writer whose
    header holds a Content-Type (so none is derived from the name or
    the content), and for a name that is a regular file or nothing.
    The world lists the regular files under the names the program uses;
    a directory is a path with a file below it.  Reading the opened
    file does not fail.  A [Response] holds what the handler wrote: the
    header lines the server adds when it sends the response are not
    part of it, nor is it told what the server leaves out of its answer
    to a HEAD request; the text [""] as payload stands for no body at
    all.  The releases of Go differ in [http.Error] and [serveError]
    (the newer ones delete header lines of a successful answer first);
    on the header of [playHandler] they agree. *)

Definition is_slash_rune (a : ascii) : bool := Ascii.eqb a "/" || Ascii.eqb a "\".

Definition containsDotDot (v : string) : bool :=
  existsb (fun ent => String.eqb ent "..") (Filepath.split_on is_slash_rune v EmptyString).

(** The error of [Dir.Open]: the one of [os.Open], [fs.ErrNotExist]
    put in its place by [mapOpenError], or the refusal of the name
    ("http: invalid or unsafe file path"). *)
Inductive OpenError : Type :=
| PathErr (e : PathError)
| fs_ErrNotExist
| ErrUnsafePath.

Definition toHTTPError (err : OpenError) : string * Z :=
  match err with
  | fs_ErrNotExist => ("404 page not found", StatusNotFound)
  | PathErr e =>
      match Errno e with
      | ENOENT => ("404 page not found", StatusNotFound)
      | EACCES => ("403 Forbidden", StatusForbidden)
      | _ => ("500 Internal Server Error", StatusInternalServerError)
      end
  | ErrUnsafePath => ("500 Internal Server Error", StatusInternalServerError)
  end.

(** [utf8.ValidString]: the text is made of well-formed UTF-8
    sequences, without overlong forms, surrogates and code points
    above U+10FFFF. *)
Definition between (lo hi a : ascii) : bool := Ascii.leb lo a && Ascii.leb a hi.

Definition continuation (a : ascii) : bool := between "128" "191" a.

Fixpoint utf8_ValidString (s : string) : bool :=
  match s with
  | EmptyString => true
  | String a s1 =>
      if Ascii.leb a "127" then utf8_ValidString s1
      else
        match s1 with
        | EmptyString => false
        | String b s2 =>
            if between "194" "223" a then continuation b && utf8_ValidString s2
            else
              match s2 with
              | EmptyString => false
              | String c s3 =>
                  if between "224" "239" a then
                    (if Ascii.eqb a "224" then between "160" "191" b
                     else if Ascii.eqb a "237" then between "128" "159" b
                     else continuation b)
                    && continuation c && utf8_ValidString s3
                  else
                    match s3 with
                    | EmptyString => false
                    | String d s4 =>
                        between "240" "244" a
                        && (if Ascii.eqb a "240" then between "144" "191" b
                            else if Ascii.eqb a "244" then between "128" "143" b
                            else continuation b)
                        && continuation c && continuation d && utf8_ValidString s4
                    end
              end
        end
  end.

(** The path [Dir.Open] makes of a name, and its check of that path: a
    NUL byte is refused, and so is, from release 1.23 on, a path that
    is not UTF-8.  (The earlier releases that do not check for NUL fail
    in [os.Open], with the same answer.) *)
Definition Dir_path (name : string) : string :=
  let path := drop 1 (Filepath.Clean ("/" +:+ name)) in
  if String.eqb path "" then "." else path.

Definition unsafe_path (path : string) : bool :=
  existsb (Ascii.eqb "000") (list_ascii_of_string path)
  || (utf8_names env && negb (utf8_ValidString path)).

(** [serveError]: the headers of a successful answer go, then [http.Error]. *)
Definition serveError (h : list (string * string)) (text : string) (code : Z)
  : Response :=
  http_Error_on
    (Header_Del "Last-Modified"
       (Header_Del "Etag" (Header_Del "Content-Encoding" (Header_Del "Cache-Control" h))))
    text code.

(** [localRedirect] *)
Definition localRedirect (h : list (string * string)) (newPath : string) : Response :=
  mkResponse StatusMovedPermanently (Header_Set "Location" newPath h) (BodyText "").

(** What [os.Stat] finds at a path, for [mapOpenError]. *)
Inductive FileKind : Type := RegularFile | Directory.

Definition is_dir (w : World) (path : string) : bool :=
  existsb (fun name => HasPrefix name (path +:+ "/")) (map fst (map_to_list (files w))).

Definition stat_kind (w : World) (path : string) : errno + FileKind :=
  match fs_fault env "stat" path with
  | Some e => inl e
  | None =>
      match files w !! path with
      | Some _ => inr RegularFile
      | None => if is_dir w path then inr Directory else inl ENOENT
      end
  end.

(** The loop of [mapOpenError] over the parts of the name; [joined] is
    [strings.Join(parts[:i], "/")] and [first] tells that [i] is 0. *)
Fixpoint mapOpenError_loop (w : World) (originalErr : PathError) (joined : string)
    (first : bool) (parts : list string) : OpenError :=
  match parts with
  | [] => PathErr originalErr
  | part :: rest =>
      let joined := if first then part else joined +:+ "/" +:+ part in
      if String.eqb part "" then mapOpenError_loop w originalErr joined false rest
      else
        match stat_kind w joined with
        | inl _ => PathErr originalErr
        | inr RegularFile => fs_ErrNotExist
        | inr Directory => mapOpenError_loop w originalErr joined false rest
        end
  end.

(** [mapOpenError]: an open error that is neither not-exist nor
    permission becomes not-exist when a leading part of the name is a
    file and no directory. *)
Definition mapOpenError (w : World) (originalErr : PathError) (name : string) : OpenError :=
  match Errno originalErr with
  | ENOENT | EACCES => PathErr originalErr
  | _ =>
      mapOpenError_loop w originalErr EmptyString true
        (Filepath.split_on Filepath.is_slash name EmptyString)
  end.

(** The name [Dir(dir).Open(name)] opens. *)
Definition Dir_fullName (dir name : string) : string :=
  let dir := if String.eqb dir "" then "." else dir in
  Filepath.Join dir (Dir_path name).

(** [Dir.Open]: the content behind the opened file, or the error. *)
Definition Dir_Open (dir name : string) : M (OpenError + string) := fun w =>
  if unsafe_path (Dir_path name) then (Done (inl ErrUnsafePath), w)
  else
    let fullName := Dir_fullName dir name in
    match os_ReadFile fullName w with
    | (Done (inl err), w') => (Done (inl (mapOpenError w' err fullName)), w')
    | (Done (inr content), w') => (Done (inr content), w')
    | (Panicked msg, w') => (Panicked msg, w')
    end.

(** [f.Stat()] on the opened file, of which the size is read. *)
Definition File_Stat (fullName content : string) : M (PathError + Z) := fun w =>
  match fs_fault env "fstat" fullName with
  | Some e => (Done (inl (path_error "stat" fullName e)), w)
  | None => (Done (inr (Z.of_nat (len content))), w)
  end.

(** [setLastModified] *)
Definition setLastModified (modtime : option string) (h : list (string * string))
  : list (string * string) :=
  match modtime with
  | Some t => Header_Set "Last-Modified" t h
  | None => h
  end.

(** [serveContent] of the whole content: status 200, and the body
    unless the method is HEAD. *)
Definition serveContent (h : list (string * string)) (r : Request)
    (modtime : option string) (size : Z) (content : string) : Response :=
  let h := setLastModified modtime h in
  let h := Header_Set "Accept-Ranges" "bytes" h in
  let h :=
    if String.eqb (Header_Get "Content-Encoding" h) ""
    then Header_Set "Content-Length" (itoa size) h
    else h in
  mkResponse StatusOK h
    (if String.eqb (Method r) "HEAD" then BodyText "" else BodyFile content).

(** [serveFile] without redirection to a canonical path. *)
Definition serveFile (h : list (string * string)) (r : Request) (dir name : string)
  : M Response :=
  if HasSuffix (URLPath r) "/index.html" then ret (localRedirect h "./")
  else
    let* f := Dir_Open dir name in
    match f with
    | inl err => let '(msg, code) := toHTTPError err in ret (serveError h msg code)
    | inr content =>
        let fullName := Dir_fullName dir name in
        let* d := File_Stat fullName content in
        match d with
        | inl err =>
            let '(msg, code) := toHTTPError (PathErr err) in ret (serveError h msg code)
        | inr size => ret (serveContent h r (mod_time env fullName) size content)
        end
    end.

Definition http_ServeFile (headers : list (string * string)) (r : Request)
    (name : string) : M Response :=
  if containsDotDot (URLPath r) then
    ret (serveError headers "invalid URL path" StatusBadRequest)
  else
    let '(dir, file) := Filepath.Split name in
    serveFile headers r dir file.

Definition playHandler (r : Request) : M Response :=
  let recordingID := TrimPrefix (URLPath r) "/api/play/" in
  if String.eqb recordingID "" then
    ret (http_Error "Recording ID required" StatusBadRequest)
  else
    let* row := db_select_file_path recordingID in
    match row with
    | inl _ => ret (http_Error "Recording not found" StatusNotFound)
    | inr filePath =>
        let* st := os_Stat filePath in
        if match st with inl e => os_IsNotExist e | inr _ => false end
        then ret (http_Error "MP3 file not found" StatusNotFound)
        else
          http_ServeFile
            [("Content-Type", "audio/mpeg"); ("Content-Disposition", "inline")]
            r filePath
    end.

End Server.

(** ** Vocabulary of the statements *)

(** Events that are runs of external commands. *)
Definition is_exec (e : Event) : bool :=
  match e with
  | EvExec _ _ => true
  | EvHTTPPost _ _ => false
  end.

Definition only_exec (es : list Event) : Prop := forallb is_exec es = true.

(** A computation that returns without panic and satisfies [Q]. *)
Definition returns {A : Type} (m : M A) (w : World) (Q : A -> World -> Prop) : Prop :=
  exists a w', m w = (Done a, w') /\ Q a w'.

(** Two worlds that differ in their files only. *)
Definition same_but_files (w w' : World) : Prop :=
  recordings w' = recordings w /\ rand_calls w' = rand_calls w /\ trace w' = trace w.

(** From [w] to [w'] only files changed and commands were run. *)
Definition ran_commands (w w' : World) : Prop :=
  recordings w' = recordings w /\ rand_calls w' = rand_calls w /\
  exists es, trace w' = (trace w ++ es)%list /\ only_exec es.

(** What one run of the attachment loop did, seen from the trace [tr]
    and the rows [rows] it started with: either no attachment reached
    the transcription, or one new recording, with the phone number and
    the date of the request, went through [ingest] in a world [w0] that
    still had that trace and those rows. *)
Definition ingestion (env : Env) (phoneNumber receivedAt : string)
    (tr : list Event) (rows : list Recording) (w' : World) : Prop :=
  (trace w' = tr /\ recordings w' = rows) \/
  exists (recording : Recording) (w0 : World),
    trace w0 = tr /\ recordings w0 = rows /\
    PhoneNumber recording = phoneNumber /\ ReceivedAt recording = receivedAt /\
    ingest env recording w0 = (Done tt, w').

(** The response at the end of [webhookHandler]. *)
Definition success_response (recordingID : string) : Response :=
  mkResponse StatusCreated []
    (BodyJSON [("id", recordingID);
               ("message", "Recording data received");
               ("status", "success")]).

(** [occurs_nastyTime s]: the three bytes of U+202F occur in [s]. *)
Fixpoint occurs_nastyTime (s : string) : bool :=
  match s with
  | EmptyString => false
  | String _ s' => HasPrefix s nastyTime || occurs_nastyTime s'
  end.


(** The JSON text the mail script builds in [processNewEmails]: the
    subject, the sender and the file names come out of its [escapeJSON],
    the date and the base64 content are inserted as they are. *)
Definition attachmentJSON (attachment : string * string) : string :=
  "{" +:+ dquote +:+ "fileName" +:+ dquote +:+ ": " +:+ dquote +:+ fst attachment
      +:+ dquote +:+ ", " +:+ dquote +:+ "content" +:+ dquote +:+ ": " +:+ dquote
      +:+ snd attachment +:+ dquote +:+ ", " +:+ dquote +:+ "mimeType" +:+ dquote
      +:+ ": " +:+ dquote +:+ "audio/mpeg" +:+ dquote +:+ "}".

Fixpoint attachmentsJSON (attachments : list (string * string)) : string :=
  match attachments with
  | [] => ""
  | a :: rest =>
      match rest with
      | [] => attachmentJSON a
      | _ :: _ => attachmentJSON a +:+ ", " +:+ attachmentsJSON rest
      end
  end.

Definition jsonData (subject sender date : string) (attachments : list (string * string))
  : string :=
  "{" +:+ dquote +:+ "subject" +:+ dquote +:+ ": " +:+ dquote +:+ subject
      +:+ dquote +:+ ", " +:+ dquote +:+ "sender" +:+ dquote +:+ ": " +:+ dquote
      +:+ sender +:+ dquote +:+ ", " +:+ dquote +:+ "receivedAt" +:+ dquote
      +:+ ": " +:+ dquote +:+ date +:+ dquote +:+ ", " +:+ dquote +:+ "attachments"
      +:+ dquote +:+ ": [" +:+ attachmentsJSON attachments +:+ "]" +:+ "}".


(** The identifier [generateID] makes at its [k]-th call. *)
Definition generated_id (env : Env) (k : nat) : string :=
  match rand_read env k with
  | inl _ => itoa (now_unixnano env k)
  | inr b => Base64.URLEncoding.EncodeToString (string_of_list_ascii (map b (seq 0 16)))
  end.

(** The 6-bit values of base64. *)
Definition sextet (b0 b1 b2 b3 b4 b5 : bool) : ascii := Ascii b0 b1 b2 b3 b4 b5 false false.

(** A world and surroundings in which nothing fails, for worked examples. *)
Module Scenario.

Definition empty_world : World := mkWorld ∅ [] 0 [].

Definition bob_reply : OpenAIResponse :=
  mkOpenAIResponse "chatcmpl-1" "chat.completion" 0
    [mkChoice (mkMessage "assistant" (dquote +:+ "Title: Call from Bob" +:+ dquote)) "stop" 0]
    (mkUsage 0 0 0).

Definition env_ok (email : EmailData) : Env :=
  mkEnv (fun k => inr (fun i => ascii_of_nat (k + i)))
        (fun _ => 1700000000000000000%Z)
        "2025-01-01 00:00:00"
        (fun _ _ => None)
        (fun _ => 0)
        (fun _ => None)
        (fun _ => None)
        (fun _ _ fs => (fs, mkCmdResult "hello it is bob" "" None))
        (fun _ _ => inr (mkHTTPResponse 200 (inr "{}")))
        (fun _ => inr email)
        (fun _ => inr bob_reply)
        (fun _ => Some "Mon, 06 Jan 2025 15:04:05 GMT")
        true.

(** The same surroundings with system calls failing as [fault] says. *)
Definition with_fs_fault (fault : string -> string -> option errno) (env : Env) : Env :=
  mkEnv (rand_read env) (now_unixnano env) (now_text env) fault (short_write env)
        (db_fault env) (look_path env) (process env) (http_post env)
        (json_EmailData env) (json_OpenAIResponse env) (mod_time env) (utf8_names env).

(** The same surroundings without the speech recognition tool. *)
Definition without_whisper (env : Env) : Env :=
  mkEnv (rand_read env) (now_unixnano env) (now_text env) (fs_fault env) (short_write env)
        (db_fault env) (fun _ => Some (ErrText "exec: not found")) (process env)
        (http_post env) (json_EmailData env) (json_OpenAIResponse env) (mod_time env) (utf8_names env).

(** The same surroundings with the completion service answering [resp]. *)
Definition with_http (resp : error + HTTPResponse) (env : Env) : Env :=
  mkEnv (rand_read env) (now_unixnano env) (now_text env) (fs_fault env) (short_write env)
        (db_fault env) (look_path env) (process env) (fun _ _ => resp)
        (json_EmailData env) (json_OpenAIResponse env) (mod_time env) (utf8_names env).

Definition post (body : string) : Request := mkRequest "POST" "/api/webhook" (inr body).

Definition voicemail (subject content : string) : EmailData :=
  mkEmailData subject "bob@example.com" "Monday, January 6, 2025 at 3:04:05 PM"
    [mkAttachmentData "notes.txt" "aGk=" "text/plain";
     mkAttachmentData "Voice.MP3" content "audio/mpeg"].

Definition no_audio : EmailData :=
  mkEmailData "Call me at (415) 555-1234" "bob@example.com" ""
    [mkAttachmentData "notes.txt" "aGk=" "text/plain";
     mkAttachmentData "song.mp3.zip" "aGk=" "application/zip"].

(** A stored recording whose file is on disk. *)
Definition stored : Recording :=
  mkRecording "abc" "(415) 555-1234" "2025-01-06 15:04:05" "Voice.MP3"
    "data/mp3s/abc.mp3" 5 "hello it is bob" "Call from Bob".

Definition world_with_stored : World :=
  mkWorld (<["data/mp3s/abc.mp3" := "hello"]> ∅) [stored] 1 [].

(** The process has run out of file descriptors: opening fails,
    [stat] still answers. *)
Definition no_descriptors (op path : string) : option errno :=
  if String.eqb op "open" then Some EMFILE else None.

(** A failing disk: every system call ends with an input/output error. *)
Definition io_errors (op path : string) : option errno := Some EIO.

(** A recording that was just saved, before its enrichment. *)
Definition fresh : Recording :=
  mkRecording "xyz" "Unknown" "2025-01-06 15:04:05" "Voice.MP3" "data/mp3s/xyz.mp3" 5 "" "".

(** The disk is full: writing fails, the rest works. *)
Definition disk_full (op path : string) : option errno :=
  if String.eqb op "write" then Some ENOSPC else None.

(** The store answers every query with an error. *)
Definition with_db_fault (e : error) (env : Env) : Env :=
  mkEnv (rand_read env) (now_unixnano env) (now_text env) (fs_fault env) (short_write env)
        (fun _ => Some e) (look_path env) (process env) (http_post env)
        (json_EmailData env) (json_OpenAIResponse env) (mod_time env) (utf8_names env).

(** The same surroundings with a decoder that knows one document. *)
Definition with_decoder (document : string) (email : EmailData) (env : Env) : Env :=
  mkEnv (rand_read env) (now_unixnano env) (now_text env) (fs_fault env) (short_write env)
        (db_fault env) (look_path env) (process env) (http_post env)
        (fun text =>
           if String.eqb text document then inr email
           else inl (ErrText "invalid character"))
        (json_OpenAIResponse env) (mod_time env) (utf8_names env).

Definition play (id : string) : Request :=
  mkRequest "GET" ("/api/play/" +:+ id) (inr "").

End Scenario.

(** ** The rest of the program

    The first version of the extractor, the CORS wrapper, the listing
    handler, and the names the statements about them use. *)

(** *** backend/main.go: the extractor before the special case *)

Module BackendMain.

Definition extractPhoneNumber (s : string) : exec string :=
  let matches := FindStringSubmatch phoneRegex phoneRegex_groups s in
  if (4 <=? length matches)%nat then
    do! a <- index matches 1;
    do! b <- index matches 2;
    do! c <- index matches 3;
    Done ("(" +:+ a +:+ ") " +:+ b +:+ "-" +:+ c)
  else Done "".

End BackendMain.

(** The bytes of [s] that are in the class [p]. *)
Fixpoint count_bytes (p : ascii -> bool) (s : string) : nat :=
  match s with
  | EmptyString => 0
  | String a s' => (if p a then 1 else 0) + count_bytes p s'
  end.

(** The bytes an identifier of [generateID] is made of: the alphabet of
    the URL encoding and its padding, and the minus sign and digits of
    a decimal number. *)
Definition id_byte (a : ascii) : bool :=
  (Ascii.leb "A" a && Ascii.leb a "Z") || (Ascii.leb "a" a && Ascii.leb a "z")
  || (Ascii.leb "0" a && Ascii.leb a "9")
  || Ascii.eqb a "-" || Ascii.eqb a "_" || Ascii.eqb a "=".

(** The last byte of a string. *)
Fixpoint last_byte (s : string) : option ascii :=
  match s with
  | EmptyString => None
  | String a EmptyString => Some a
  | String _ s' => last_byte s'
  end.

(** *** The files and commands of [transcribeAudio] *)

Definition wavPath (filePath : string) : string :=
  TrimSuffix filePath (Filepath.Ext filePath) +:+ ".wav".

Definition transcriptionFile (filePath : string) : string :=
  TrimSuffix (wavPath filePath) (Filepath.Ext (wavPath filePath)) +:+ ".txt".

Definition ffmpeg_run (filePath : string) : Event :=
  EvExec "ffmpeg"
    ["-i"; filePath; "-ar"; "16000"; "-ac"; "1"; "-c:a"; "pcm_s16le"; wavPath filePath].

Definition whisper_run (filePath : string) : Event :=
  EvExec whisper_cli
    ["--model"; "../whisper.cpp/models/ggml-base.en.bin"; "--output-txt";
     "-f"; wavPath filePath].

(** The external commands leave the file at [path] as it is. *)
Definition keeps_file (env : Env) (path : string) : Prop :=
  forall (name : string) (args : list string) (fs : gmap string string),
    (fst (process env name args fs) !! path) = (fs !! path).

(** *** The request of [generateTitle] *)

Definition requestData (transcription : string) : OpenAIRequest :=
  mkOpenAIRequest "llama2"
    [mkMessage "system" systemPrompt;
     mkMessage "user"
       ("Please create a title for this voicemail transcription:"
          +:+ bytes2 "010" "010" +:+ transcription)]
    (7, 10)%Z 50.

(** *** What a handler wrote

    The listing handler answers with a JSON array of recordings, which
    the body of a [Response] has no place for. *)

Inductive Reply : Type :=
| Plain (resp : Response)
| RecordingList (headers : list (string * string)) (recordings : list Recording).





(** *** CORS middleware *)



(** *** Handler for /api/recordings

    Package [time] is not modelled: the two functions of it the handler
    calls are parameters.  The rows of the table hold no NULL, so
    [rows.Scan] does not fail. *)

(** [ORDER BY received_at DESC] on a VARCHAR column compares bytes.
    SQL leaves the order of rows with equal keys open; the statements
    below do not depend on it. *)
Fixpoint insert_desc (rec : Recording) (sorted : list Recording) : list Recording :=
  match sorted with
  | [] => [rec]
  | x :: rest =>
      if String.ltb (ReceivedAt x) (ReceivedAt rec) then rec :: sorted
      else x :: insert_desc rec rest
  end.

Definition order_by_received_at_desc (rows : list Recording) : list Recording :=
  fold_right insert_desc [] rows.

(** The order of the listing: no row is followed by one whose stored
    date is larger. *)
Definition newer_first (x y : Recording) : Prop :=
  String.ltb (ReceivedAt x) (ReceivedAt y) = false.

Section Listing.

Variable env : Env.
Variable Time : Type.
Variable time_Parse : string -> string -> error + Time.
Variable time_Format : Time -> string -> string.

(** [db.Query] of all the rows. *)
Definition db_query_recordings : M (error + list Recording) := fun w =>
  match db_fault env "query" with
  | Some e => (Done (inl e), w)
  | None => (Done (inr (order_by_received_at_desc (recordings w))), w)
  end.

(** The body of the loop over the rows: the record as it is listed. *)
Definition scan_row (row : Recording) : Recording :=
  let receivedAt :=
    match time_Parse "Monday, January 2, 2006 at 3:04:05 PM" (ReceivedAt row) with
    | inl _ => now_text env
    | inr t => time_Format t "2006-01-02 15:04:05"
    end in
  mkRecording (ID row) (PhoneNumber row) receivedAt (MP3FileName row) (FilePath row)
    (FileSize row) (Transcription row) (Title row).

Definition recordingsHandler (r : Request) : M Reply :=
  if String.eqb (Method r) "GET" then
    let* rows := db_query_recordings in
    match rows with
    | inl _ => ret (Plain (http_Error "Database query error" StatusInternalServerError))
    | inr rows =>
        ret (RecordingList [("Content-Type", "application/json")] (map scan_row rows))
    end
  else ret (Plain (http_Error "Method not allowed" StatusMethodNotAllowed)).

End Listing.

(** *** Names for the statements about the player *)

(** The name [http.ServeFile] opens for [name]: the directory of
    [filepath.Split] joined with the cleaned file. *)
Definition served_name (name : string) : string :=
  Dir_fullName (fst (Filepath.Split name)) (snd (Filepath.Split name)).

(** The answer of [playHandler] that carries a file: the two header
    lines of the handler, the three of [http.ServeFile] (the date of
    the last change only when the file has one), and the content unless
    the method is HEAD. *)
Definition play_response (r : Request) (modtime : option string) (content : string)
  : Response :=
  mkResponse 200
    ([("Content-Type", "audio/mpeg"); ("Content-Disposition", "inline")]
       ++ match modtime with
          | Some t => [("Last-Modified", t)]
          | None => []
          end
       ++ [("Accept-Ranges", "bytes");
           ("Content-Length", itoa (Z.of_nat (len content)))])%list
    (if String.eqb (Method r) "HEAD" then BodyText "" else BodyFile content).

(** The error answers of [http.ServeFile] in [playHandler]: the
    Content-Type of the handler is replaced, its Content-Disposition
    stays. *)
Definition play_error (text : string) (code : Z) : Response :=
  mkResponse code
    [("Content-Type", "text/plain; charset=utf-8"); ("Content-Disposition", "inline");
     ("X-Content-Type-Options", "nosniff")]
    (BodyText (text +:+ bytes1 "010")).

(** Serving the file [name] breaks: [Dir.Open] refuses the name, or
    opening it fails with an error that is neither not-exist nor
    permission and that [mapOpenError] keeps, or the opened file cannot
    be examined. *)
Definition serving_breaks (env : Env) (w : World) (name : string) : Prop :=
  let fullName := served_name name in
  unsafe_path env (Dir_path (snd (Filepath.Split name))) = true \/
  (exists e : errno,
      fs_fault env "open" fullName = Some e /\ e <> ENOENT /\ e <> EACCES /\
      mapOpenError env w (path_error "open" fullName e) fullName
      = PathErr (path_error "open" fullName e)) \/
  (exists (content : string) (e : errno),
      fs_fault env "open" fullName = None /\ (files w !! fullName) = Some content /\
      fs_fault env "fstat" fullName = Some e /\ e <> ENOENT /\ e <> EACCES).

(** *** Names for the statements about the webhook *)

(** The store takes a new row with identifier [id]: it works and no
    row has that identifier. *)
Definition insertable (env : Env) (id : string) (rows : list Recording) : bool :=
  match db_fault env "insert" with
  | Some _ => false
  | None => negb (existsb (fun r => String.eqb (ID r) id) rows)
  end.

(** The date and the phone number [webhookHandler] gives a recording
    of the message [email]. *)
Definition received_at (env : Env) (email : EmailData) : string :=
  if String.eqb (EmailReceivedAt email) "" then now_text env else EmailReceivedAt email.

Definition phone_number (email : EmailData) : exec string :=
  do! phoneNumber <- extractPhoneNumber (Subject email);
  Done (if String.eqb phoneNumber "" then "Unknown" else phoneNumber).

(** The world in which the transcription starts: the identifier was
    generated, and the file at [path] was created and written. *)
Definition saved (path content : string) (w : World) : World :=
  mkWorld (<[path := content]> (<[path := ""]> (files w))) (recordings w)
    (S (rand_calls w)) (trace w).

(** The phone pattern matches somewhere in [s], in the declarative
    reading of the pattern. *)
Definition phone_pattern_occurs (s : string) : Prop :=
  exists (pre s0 s' : string) (c : gmap nat string),
    s = pre +:+ s0 /\ matches phoneRegex s0 ∅ s' c.


(** The message a document of the mail script stands for when its
    texts hold nothing to unescape. *)
Definition message_of (subject sender date : string)
    (attachments : list (string * string)) : EmailData :=
  mkEmailData subject sender date
    (map (fun a => mkAttachmentData (fst a) (snd a) "audio/mpeg") attachments).


(** *** mail_to_backend.applescript: escaping

    [replaceText] cuts the text at the occurrences of a delimiter and
    joins the items with the new text.  The three delimiters of
    [escapeJSON] are single ASCII characters, which are single bytes of
    the UTF-8 form of the text. *)

Module MailScript.

(** [text items of theText] with the delimiter [oldString]. *)
Definition text_items (oldString : ascii) (theText : string) : list string :=
  Filepath.split_on (Ascii.eqb oldString) theText EmptyString.

(** [theTextItems as text] with the delimiter [newString]. *)
Fixpoint as_text (newString : string) (theTextItems : list string) : string :=
  match theTextItems with
  | [] => EmptyString
  | [item] => item
  | item :: rest => item +:+ newString +:+ as_text newString rest
  end.

Definition replaceText (theText : string) (oldString : ascii) (newString : string)
  : string :=
  as_text newString (text_items oldString theText).

Definition escapeJSON (theString : string) : string :=
  let theString := replaceText theString "034" ("\" +:+ dquote) in
  let theString := replaceText theString "013" "\n" in
  let theString := replaceText theString "009" "\t" in
  theString.

End MailScript.

(** One pass of [replaceText], byte by byte. *)
Fixpoint replaced (oldString : ascii) (newString : string) (s : string) : string :=
  match s with
  | EmptyString => EmptyString
  | String a s' =>
      (if Ascii.eqb oldString a then newString else String a EmptyString)
        +:+ replaced oldString newString s'
  end.

(** What [escapeJSON] makes of one byte. *)
Definition escaped_byte (a : ascii) : string :=
  if Ascii.eqb a "034" then "\" +:+ dquote
  else if Ascii.eqb a "013" then "\n"
  else if Ascii.eqb a "009" then "\t"
  else String a EmptyString.

Fixpoint escaped (s : string) : string :=
  match s with
  | EmptyString => EmptyString
  | String a s' => escaped_byte a +:+ escaped s'
  end.

(** Every double quote of [s] stands behind a backslash. *)
Fixpoint quotes_escaped (previous : ascii) (s : string) : bool :=
  match s with
  | EmptyString => true
  | String a s' =>
      (negb (Ascii.eqb a "034") || Ascii.eqb previous "\") && quotes_escaped a s'
  end.

(** * Properties *)

Local Open Scope list_scope.

(** ** Byte strings *)

Section StringFacts.

Lemma app_cons (a : ascii) (s t : string) : String a s +:+ t = String a (s +:+ t).
Proof. reflexivity. Qed.

Lemma app_empty_l (t : string) : "" +:+ t = t.
Proof. reflexivity. Qed.

Lemma len_cons (a : ascii) (s : string) : len (String a s) = S (len s).
Proof. reflexivity. Qed.

Lemma len_app (s t : string) : len (s +:+ t) = len s + len t.
Proof.
  induction s as [|a s IH]; [reflexivity|].
  rewrite app_cons, !len_cons, IH. reflexivity.
Qed.

Lemma app_empty_r (s : string) : s +:+ "" = s.
Proof. induction s as [|a s IH]; [reflexivity|]. rewrite app_cons, IH. reflexivity. Qed.

Lemma app_assoc_str (s t u : string) : (s +:+ t) +:+ u = s +:+ (t +:+ u).
Proof. induction s as [|a s IH]; [reflexivity|]. rewrite !app_cons, IH. reflexivity. Qed.

Lemma take_app_exact (t s : string) : take (len t) (t +:+ s) = t.
Proof.
  induction t as [|a t IH]; [destruct s; reflexivity|].
  rewrite app_cons, len_cons. simpl. f_equal. exact IH.
Qed.

Lemma consumed_app (t s : string) : consumed (t +:+ s) s = t.
Proof.
  unfold consumed. rewrite len_app.
  replace (len t + len s - len s) with (len t) by lia.
  apply take_app_exact.
Qed.

Lemma HasPrefix_empty (s : string) : HasPrefix s "" = true.
Proof. destruct s; reflexivity. Qed.

End StringFacts.

(** ** The backtracking matcher finds matches of the pattern *)

Section MatcherSound.

Lemma star_sound {A : Type} (p : ascii -> bool) (c : gmap nat string) :
  forall (s : string) (k : string -> option A) (x : A),
    star p s k = Some x ->
    exists s', matches (Star p) s c s' c /\ k s' = Some x.
Proof.
  induction s as [|b s IH]; intros k x H; simpl in H.
  - exists ""; split; [constructor | exact H].
  - destruct (p b) eqn:Hp.
    + destruct (star p s k) as [y|] eqn:Hs.
      * inversion H; subst y. destruct (IH k x Hs) as (s' & Hm & Hk).
        exists s'; split; [now apply M_StarCons | exact Hk].
      * exists (String b s); split; [constructor | exact H].
    + exists (String b s); split; [constructor | exact H].
Qed.

Lemma run_sound (r : re) :
  forall (B : Type) (s : string) (c : gmap nat string)
         (k : string -> gmap nat string -> option B) (x : B),
    run r s c k = Some x ->
    exists s' c', matches r s c s' c' /\ k s' c' = Some x.
Proof.
  induction r as [a | p | r IH | p | n r IH | i r IH | r1 IH1 r2 IH2];
    intros B s c k x H.
  - destruct s as [|b s]; simpl in H; [discriminate|].
    destruct (Ascii.eqb b a) eqn:E; [|discriminate].
    apply Ascii.eqb_eq in E; subst b. exists s, c; split; [constructor | exact H].
  - destruct s as [|b s]; simpl in H; [discriminate|].
    destruct (p b) eqn:E; [|discriminate].
    exists s, c; split; [now constructor | exact H].
  - simpl in H. destruct (run r s c k) as [y|] eqn:E.
    + inversion H; subst y. destruct (IH _ _ _ _ _ E) as (s' & c' & Hm & Hk).
      exists s', c'; split; [now apply M_OptSome | exact Hk].
    + exists s, c; split; [apply M_OptNone | exact H].
  - simpl in H. destruct (star_sound p c s _ x H) as (s' & Hm & Hk).
    exists s', c; split; [exact Hm | exact Hk].
  - revert s c H. induction n as [|n IHn]; intros s c H.
    + exists s, c; split; [constructor | exact H].
    + simpl in H. apply IH in H. destruct H as (s1 & c1 & Hm1 & H).
      apply IHn in H. destruct H as (s2 & c2 & Hm2 & Hk).
      exists s2, c2; split; [eapply M_RepS; eassumption | exact Hk].
  - simpl in H. apply IH in H. destruct H as (s' & c' & Hm & Hk).
    exists s', (<[i := consumed s s']> c'); split; [now constructor | exact Hk].
  - simpl in H. apply IH1 in H. destruct H as (s1 & c1 & Hm1 & H).
    apply IH2 in H. destruct H as (s2 & c2 & Hm2 & Hk).
    exists s2, c2; split; [eapply M_Cat; eassumption | exact Hk].
Qed.

End MatcherSound.

(** ** And it finds a match whenever the pattern has one *)

Section MatcherComplete.

Lemma star_here {A : Type} (p : ascii -> bool) (s : string) (k : string -> option A) :
  k s <> None -> star p s k <> None.
Proof.
  intros Hk. destruct s as [|b s]; [exact Hk|]. cbn [star].
  destruct (p b); [|exact Hk]. destruct (star p s k); [discriminate | exact Hk].
Qed.

Lemma run_complete (r : re) (s s' : string) (c c' : gmap nat string) :
  matches r s c s' c' ->
  forall (B : Type) (k : string -> gmap nat string -> option B),
    k s' c' <> None -> run r s c k <> None.
Proof.
  induction 1; intros B k Hk.
  - cbn [run]. now rewrite Ascii.eqb_refl.
  - cbn [run]. now rewrite H.
  - cbn [run]. specialize (IHmatches B k Hk).
    destruct (run r s c k); [discriminate | contradiction].
  - cbn [run]. destruct (run r s c k); [discriminate | exact Hk].
  - cbn [run]. now apply star_here.
  - cbn [run star]. rewrite H. specialize (IHmatches B k Hk). cbn [run] in IHmatches.
    destruct (star p s (fun s0 => k s0 c)); [discriminate | contradiction].
  - exact Hk.
  - change (run (Rep (S n) r) s c k)
      with (run r s c (fun s0 c0 => run (Rep n r) s0 c0 k)).
    apply IHmatches1. apply IHmatches2. exact Hk.
  - cbn [run]. apply IHmatches. exact Hk.
  - cbn [run]. apply IHmatches1. apply IHmatches2. exact Hk.
Qed.

Lemma search_complete (r : re) (s0 s' : string) (c : gmap nat string) :
  matches r s0 ∅ s' c ->
  forall pre : string, search r (pre +:+ s0) <> None.
Proof.
  intros Hm.
  assert (Hhere : match_here r s0 <> None)
    by (unfold match_here; apply (run_complete _ _ _ _ _ Hm); discriminate).
  induction pre as [|a pre IH].
  - rewrite app_empty_l. destruct s0; cbn [search];
      destruct (match_here r _); try discriminate; contradiction.
  - rewrite app_cons. cbn [search].
    destruct (match_here r (String a (pre +:+ s0))); [discriminate | exact IH].
Qed.

End MatcherComplete.

(** What a match of the phone pattern looks like. *)

Section PhoneMatch.

Lemma matches_no_group (r : re) (s s' : string) (c c' : gmap nat string) :
  matches r s c s' c' -> no_group r = true -> c' = c.
Proof.
  induction 1; simpl; intros Hg; try reflexivity; try discriminate; auto.
  - rewrite IHmatches2, IHmatches1; auto.
  - apply andb_prop in Hg as [H1 H2]. rewrite IHmatches2, IHmatches1; auto.
Qed.

Lemma matches_rep_cls (p : ascii -> bool) (n : nat) :
  forall (s s' : string) (c c' : gmap nat string),
    matches (Rep n (Cls p)) s c s' c' ->
    c' = c /\ exists t, s = t +:+ s' /\ len t = n /\ all_bytes p t = true.
Proof.
  induction n as [|n IH]; intros s s' c c' H; inversion H; subst.
  - split; [reflexivity|]. exists ""; auto.
  - match goal with Hc : matches (Cls p) _ _ _ _ |- _ => inversion Hc; subst end.
    match goal with Hr : matches (Rep n _) _ _ _ _ |- _ =>
      destruct (IH _ _ _ _ Hr) as (-> & t & -> & Hlen & Hall) end.
    split; [reflexivity|]. exists (String b t); repeat split.
    + rewrite len_cons, Hlen; reflexivity.
    + simpl. rewrite Hall. match goal with Hp : p b = true |- _ => rewrite Hp end. reflexivity.
Qed.

Lemma matches_group_digits (i n : nat) (p : ascii -> bool)
      (s s' : string) (c c' : gmap nat string) :
  matches (Grp i (Rep n (Cls p))) s c s' c' ->
  exists t, s = t +:+ s' /\ len t = n /\ all_bytes p t = true /\ c' = <[i := t]> c.
Proof.
  intros H; inversion H; subst.
  match goal with Hr : matches (Rep n _) _ _ _ _ |- _ =>
    destruct (matches_rep_cls _ _ _ _ _ _ Hr) as (-> & t & -> & Hlen & Hall) end.
  exists t; repeat split; auto. now rewrite consumed_app.
Qed.

(** A match of the phone pattern fills the three groups with three,
    three and four digits. *)
Lemma phone_match_groups (s s' : string) (c : gmap nat string) :
  matches phoneRegex s ∅ s' c ->
  exists g1 g2 g3,
    (c !! 1) = Some g1 /\ (c !! 2) = Some g2 /\ (c !! 3) = Some g3 /\
    (len g1 = 3 /\ all_bytes digit g1 = true) /\
    (len g2 = 3 /\ all_bytes digit g2 = true) /\
    (len g3 = 4 /\ all_bytes digit g3 = true).
Proof.
  unfold phoneRegex. intros H.
  repeat match goal with
         | Hm : matches (_ >>> _) _ _ _ _ |- _ => inversion Hm; subst; clear Hm
         end.
  repeat match goal with
         | Hm : matches (Grp _ _) _ _ _ _ |- _ =>
             apply matches_group_digits in Hm; destruct Hm as (? & ? & ? & ? & ?)
         | Hm : matches (Opt _) _ _ _ _ |- _ =>
             apply matches_no_group in Hm; [|reflexivity]
         | Hm : matches (Star _) _ _ _ _ |- _ =>
             apply matches_no_group in Hm; [|reflexivity]
         end.
  subst. do 3 eexists. simplify_map_eq. repeat split; eauto.
Qed.

Lemma search_sound (r : re) :
  forall (s whole : string) (c : gmap nat string),
    search r s = Some (whole, c) ->
    exists pre s0 s', s = pre +:+ s0 /\ matches r s0 ∅ s' c /\ whole = consumed s0 s'.
Proof.
  induction s as [|a s IH]; intros whole c H; simpl in H.
  - destruct (match_here r "") as [m|] eqn:E; [|discriminate].
    inversion H; subst m. unfold match_here in E. apply run_sound in E.
    destruct E as (s' & c' & Hm & Hk). inversion Hk; subst.
    exists "", "", s'; auto.
  - destruct (match_here r (String a s)) as [m|] eqn:E.
    + inversion H; subst m. unfold match_here in E. apply run_sound in E.
      destruct E as (s' & c' & Hm & Hk). inversion Hk; subst.
      exists "", (String a s), s'; auto.
    + destruct (IH _ _ H) as (pre & s0 & s' & -> & Hm & Hw).
      exists (String a pre), s0, s'; auto.
Qed.

(** [FindStringSubmatch] of the phone pattern: no match, or the whole
    match and three groups of three, three and four digits. *)
Lemma phone_submatch_shape (s : string) :
  FindStringSubmatch phoneRegex phoneRegex_groups s = [] \/
  exists whole g1 g2 g3,
    FindStringSubmatch phoneRegex phoneRegex_groups s = [whole; g1; g2; g3] /\
    (len g1 = 3 /\ all_bytes digit g1 = true) /\
    (len g2 = 3 /\ all_bytes digit g2 = true) /\
    (len g3 = 4 /\ all_bytes digit g3 = true).
Proof.
  unfold FindStringSubmatch. destruct (search phoneRegex s) as [[whole c]|] eqn:E; [|now left].
  right. apply search_sound in E. destruct E as (pre & s0 & s' & _ & Hm & _).
  apply phone_match_groups in Hm.
  destruct Hm as (g1 & g2 & g3 & H1 & H2 & H3 & Hd1 & Hd2 & Hd3).
  exists whole, g1, g2, g3. simpl. rewrite H1, H2, H3. auto.
Qed.

End PhoneMatch.

(** ** The phone number extractor *)

Section Extractor.

Lemma extract_on_match (s whole g1 g2 g3 : string) :
  FindStringSubmatch phoneRegex phoneRegex_groups s = [whole; g1; g2; g3] ->
  2 <= len g3 ->
  extractPhoneNumber s =
    Done (if String.eqb g1 "704" && String.eqb (drop 2 g3) "90"
          then "I HATE THIS MAN"
          else "(" +:+ g1 +:+ ") " +:+ g2 +:+ "-" +:+ g3).
Proof.
  intros Hm Hlen. unfold extractPhoneNumber, slice_from. rewrite Hm.
  change (4 <=? length [whole; g1; g2; g3])%nat with true.
  cbn [index nth_error exec_bind].
  destruct (String.eqb g1 "704") eqn:E1; cbn [andb exec_bind]; [|reflexivity].
  destruct (Nat.leb_spec 2 (len g3)) as [_|Hlt]; [|lia].
  cbn [exec_bind]. destruct (String.eqb (drop 2 g3) "90"); reflexivity.
Qed.

Lemma extract_no_match (s : string) :
  FindStringSubmatch phoneRegex phoneRegex_groups s = [] ->
  extractPhoneNumber s = Done "".
Proof. intros Hm. unfold extractPhoneNumber. rewrite Hm. reflexivity. Qed.

Lemma extract_never_panics (s : string) : exists out, extractPhoneNumber s = Done out.
Proof.
  destruct (phone_submatch_shape s) as [Hm | (whole & g1 & g2 & g3 & Hm & _ & _ & Hl3 & _)].
  - eexists. now apply extract_no_match.
  - eexists. apply (extract_on_match _ _ _ _ _ Hm). lia.
Qed.

End Extractor.

(** C8: whenever the phone pattern matches, its third group holds exactly
    four bytes, so the slice [matches[3][2:]] of the extractor does not
    panic, and the extractor returns a string on every input. *)
Theorem extractPhoneNumber_total :
  forall s : string,
    (FindStringSubmatch phoneRegex phoneRegex_groups s = [] \/
     exists whole g1 g2 g3,
       FindStringSubmatch phoneRegex phoneRegex_groups s = [whole; g1; g2; g3] /\
       len g3 = 4 /\ slice_from g3 2 = Done (drop 2 g3)) /\
    exists out, extractPhoneNumber s = Done out.
Proof.
  intros s. split; [|apply extract_never_panics].
  destruct (phone_submatch_shape s) as [Hm | (whole & g1 & g2 & g3 & Hm & _ & _ & Hl3 & _)].
  - now left.
  - right. exists whole, g1, g2, g3. repeat split; auto.
    unfold slice_from. rewrite Hl3. reflexivity.
Qed.

(** C6: on a match whose area code group is 704 and whose last group ends
    in 90 the extractor returns the fixed string I HATE THIS MAN; on
    every other match it returns the number as (AAA) BBB-CCCC. *)
Theorem extractPhoneNumber_joke_or_format :
  forall s whole g1 g2 g3 : string,
    FindStringSubmatch phoneRegex phoneRegex_groups s = [whole; g1; g2; g3] ->
    (g1 = "704" /\ drop 2 g3 = "90" -> extractPhoneNumber s = Done "I HATE THIS MAN") /\
    (~ (g1 = "704" /\ drop 2 g3 = "90") ->
     extractPhoneNumber s = Done ("(" +:+ g1 +:+ ") " +:+ g2 +:+ "-" +:+ g3)).
Proof.
  intros s whole g1 g2 g3 Hm.
  assert (Hlen : 2 <= len g3).
  { destruct (phone_submatch_shape s) as [H0 | (w & a & b & c & H & _ & _ & Hl3 & _)].
    - rewrite H0 in Hm; discriminate.
    - rewrite H in Hm; inversion Hm; subst. lia. }
  rewrite (extract_on_match _ _ _ _ _ Hm Hlen). split.
  - intros [-> ->]. reflexivity.
  - intros Hn. destruct (String.eqb g1 "704") eqn:E1; [|reflexivity].
    destruct (String.eqb (drop 2 g3) "90") eqn:E2; [|reflexivity].
    apply String.eqb_eq in E1, E2. tauto.
Qed.

Lemma extractPhoneNumber_joke_or_format_witness :
  extractPhoneNumber "From 704-555-1290" = Done "I HATE THIS MAN" /\
  extractPhoneNumber "From 704-555-1291" = Done "(704) 555-1291".
Proof.
  split.
  - apply (extractPhoneNumber_joke_or_format "From 704-555-1290" " 704-555-1290" "704" "555" "1290");
      [vm_compute; reflexivity | split; reflexivity].
  - apply (extractPhoneNumber_joke_or_format "From 704-555-1291" " 704-555-1291" "704" "555" "1291");
      [vm_compute; reflexivity | intros [_ H]; vm_compute in H; discriminate].
Defined.

(** ** Base64: decoding undoes encoding *)

Section Base64RoundTrip.
Import Base64.

Lemma decodeMap_encode_at (b0 b1 b2 b3 b4 b5 : bool) :
  decodeMap encodeStd (encode_at encodeStd (sextet b0 b1 b2 b3 b4 b5))
  = Some (sextet b0 b1 b2 b3 b4 b5).
Proof. destruct b0, b1, b2, b3, b4, b5; vm_compute; reflexivity. Qed.

Lemma join4_split3 (x y z : ascii) :
  let '(a, b, c, d) := split3 x y z in join4 a b c d = (x, y, z).
Proof. destruct x, y, z; reflexivity. Qed.

(** One step of the decoder on a byte that encodes a 6-bit value. *)
Lemma decode_step (b0 b1 b2 b3 b4 b5 : bool) (rest : string) (si : nat) (q : list ascii) :
  decode encodeStd (String (encode_at encodeStd (sextet b0 b1 b2 b3 b4 b5)) rest) si q =
  match q with
  | [s0; s1; s2] =>
      let '(x, y, z) := join4 s0 s1 s2 (sextet b0 b1 b2 b3 b4 b5) in
      match decode encodeStd rest (S si) [] with
      | inr out => inr (String x (String y (String z out)))
      | inl e => inl e
      end
  | _ => decode encodeStd rest (S si) (q ++ [sextet b0 b1 b2 b3 b4 b5])
  end.
Proof.
  cbn [decode]. rewrite decodeMap_encode_at. reflexivity.
Qed.

Lemma decode_encode_from (n : nat) :
  forall (src : string) (si : nat),
    len src <= n ->
    decode encodeStd (EncodeToString encodeStd src) si [] = inr src.
Proof.
  induction n as [n IH] using lt_wf_ind. intros src si Hlen.
  destruct src as [|x [|y [|z rest]]].
  - reflexivity.
  - destruct x as [x0 x1 x2 x3 x4 x5 x6 x7].
    cbn [EncodeToString split3 zero].
    change (Ascii x2 x3 x4 x5 x6 x7 false false) with (sextet x2 x3 x4 x5 x6 x7).
    change (Ascii false false false false x0 x1 false false)
      with (sextet false false false false x0 x1).
    rewrite !decode_step. cbn [app]. reflexivity.
  - destruct x as [x0 x1 x2 x3 x4 x5 x6 x7], y as [y0 y1 y2 y3 y4 y5 y6 y7].
    cbn [EncodeToString split3 zero].
    change (Ascii x2 x3 x4 x5 x6 x7 false false) with (sextet x2 x3 x4 x5 x6 x7).
    change (Ascii y4 y5 y6 y7 x0 x1 false false) with (sextet y4 y5 y6 y7 x0 x1).
    change (Ascii false false y0 y1 y2 y3 false false)
      with (sextet false false y0 y1 y2 y3).
    rewrite !decode_step. cbn [app]. reflexivity.
  - destruct x as [x0 x1 x2 x3 x4 x5 x6 x7], y as [y0 y1 y2 y3 y4 y5 y6 y7],
      z as [z0 z1 z2 z3 z4 z5 z6 z7].
    cbn [EncodeToString split3 zero].
    change (Ascii x2 x3 x4 x5 x6 x7 false false) with (sextet x2 x3 x4 x5 x6 x7).
    change (Ascii y4 y5 y6 y7 x0 x1 false false) with (sextet y4 y5 y6 y7 x0 x1).
    change (Ascii z6 z7 y0 y1 y2 y3 false false) with (sextet z6 z7 y0 y1 y2 y3).
    change (Ascii z0 z1 z2 z3 z4 z5 false false) with (sextet z0 z1 z2 z3 z4 z5).
    rewrite !decode_step. cbn [app join4 sextet].
    rewrite (IH (len rest)); [reflexivity | | lia].
    rewrite !len_cons in Hlen. lia.
Qed.

Lemma decode_encode (src : string) :
  StdEncoding.DecodeString (StdEncoding.EncodeToString src) = inr src.
Proof. apply (decode_encode_from (len src)). lia. Qed.

End Base64RoundTrip.

(** ** The helper functions in the world *)

Section MonadFacts.

Context {A B : Type}.

Lemma returns_ret (a : A) (w : World) (Q : A -> World -> Prop) :
  Q a w -> returns (ret a) w Q.
Proof. intros H. exists a, w. split; [reflexivity | exact H]. Qed.

Lemma returns_bind (m : M A) (f : A -> M B) (w : World) (Q : B -> World -> Prop) :
  returns m w (fun a w1 => returns (f a) w1 Q) -> returns (bind m f) w Q.
Proof.
  intros (a & w1 & Hm & b & w2 & Hf & HQ). exists b, w2. split; [|exact HQ].
  unfold bind. rewrite Hm. exact Hf.
Qed.

Lemma returns_mono (m : M A) (w : World) (P Q : A -> World -> Prop) :
  returns m w P -> (forall a w', P a w' -> Q a w') -> returns m w Q.
Proof. intros (a & w' & Hm & HP) H. exists a, w'. auto. Qed.

Lemma returns_eq (m m' : M A) (w : World) (Q : A -> World -> Prop) :
  m w = m' w -> returns m' w Q -> returns m w Q.
Proof. intros He (a & w' & Hm & HQ). exists a, w'. split; [congruence | exact HQ]. Qed.

Lemma bind_done (m : M A) (f : A -> M B) (w w1 : World) (a : A) :
  m w = (Done a, w1) -> bind m f w = f a w1.
Proof. intros H. unfold bind. rewrite H. reflexivity. Qed.

End MonadFacts.

Ltac step lem :=
  apply returns_bind; eapply returns_mono; [apply lem | cbv beta; intros ? ? ?].

Section WorldFacts.

Variable env : Env.

Lemma same_but_files_refl (w : World) : same_but_files w w.
Proof. repeat split. Qed.

Lemma same_but_files_trans (w1 w2 w3 : World) :
  same_but_files w1 w2 -> same_but_files w2 w3 -> same_but_files w1 w3.
Proof. unfold same_but_files. intros (?&?&?) (?&?&?). repeat split; congruence. Qed.

Lemma set_files_same (f : gmap string string -> gmap string string) (w : World) :
  same_but_files w (set_files f w).
Proof. repeat split. Qed.

Lemma ran_commands_refl (w : World) : ran_commands w w.
Proof. repeat split. exists []. rewrite app_nil_r. split; reflexivity. Qed.

Lemma ran_commands_trans (w1 w2 w3 : World) :
  ran_commands w1 w2 -> ran_commands w2 w3 -> ran_commands w1 w3.
Proof.
  intros (Hr1 & Hc1 & es1 & Ht1 & He1) (Hr2 & Hc2 & es2 & Ht2 & He2).
  repeat split; try congruence. exists (es1 ++ es2). split.
  - rewrite Ht2, Ht1, app_assoc. reflexivity.
  - unfold only_exec in *. rewrite forallb_app, He1, He2. reflexivity.
Qed.

Lemma same_ran_commands (w w' : World) : same_but_files w w' -> ran_commands w w'.
Proof.
  intros (Hr & Hc & Ht). repeat split; auto. exists []. rewrite app_nil_r. split; auto.
  reflexivity.
Qed.

Create HintDb world.
Hint Resolve same_but_files_refl set_files_same ran_commands_refl same_ran_commands : world.

Lemma generateID_spec (w : World) :
  generateID env w = (Done (generated_id env (rand_calls w)), set_rand_calls S w).
Proof. unfold generateID, generated_id. destruct (rand_read env (rand_calls w)); reflexivity. Qed.

Lemma os_Stat_returns (path : string) (w : World) :
  returns (os_Stat env path) w (fun _ w' => w' = w).
Proof.
  unfold os_Stat, returns. destruct (fs_fault env "stat" path); [eauto|].
  destruct (files w !! path); eauto.
Qed.

Lemma os_ReadFile_returns (path : string) (w : World) :
  returns (os_ReadFile env path) w (fun _ w' => w' = w).
Proof.
  unfold os_ReadFile, returns. destruct (fs_fault env "open" path); [eauto|].
  destruct (files w !! path); eauto.
Qed.

Lemma os_Remove_returns (path : string) (w : World) :
  returns (os_Remove env path) w (fun _ w' => same_but_files w w').
Proof.
  unfold os_Remove, returns. destruct (fs_fault env "remove" path); eauto with world.
Qed.

Lemma cmd_Run_returns (name : string) (args : list string) (w : World) :
  returns (cmd_Run env name args) w (fun _ w' => ran_commands w w').
Proof.
  unfold cmd_Run, returns. destruct (process env name args (files w)) as [files' res].
  do 2 eexists. split; [reflexivity|]. repeat split.
  exists [EvExec name args]. split; reflexivity.
Qed.

(** What [saveAttachment] does, case by case. *)
Lemma saveAttachment_cases (attachment : AttachmentData) (filePath : string) (w : World) :
  match Base64.StdEncoding.DecodeString (Content attachment) with
  | inl err =>
      saveAttachment env attachment filePath w
      = (Done (Some (Wrapped "base64 decode error: " err "")), w)
  | inr content =>
      match fs_fault env "open" filePath with
      | Some e =>
          saveAttachment env attachment filePath w
          = (Done (Some (Wrapped "file creation error: "
                           (as_error (mkPathError "open" filePath e)) "")), w)
      | None =>
          match fs_fault env "write" filePath with
          | Some e =>
              saveAttachment env attachment filePath w
              = (Done (Some (Wrapped "file write error: "
                               (as_error (mkPathError "write" filePath e)) "")),
                 set_files (insert filePath (take (short_write env filePath) content))
                   (set_files (insert filePath "") w))
          | None =>
              saveAttachment env attachment filePath w
              = (Done None,
                 set_files (insert filePath content) (set_files (insert filePath "") w))
          end
      end
  end.
Proof.
  unfold saveAttachment.
  destruct (Base64.StdEncoding.DecodeString (Content attachment)) as [err|content];
    [reflexivity|].
  unfold bind, os_Create, file_Write, ret, path_error.
  destruct (fs_fault env "open" filePath); [reflexivity|].
  destruct (fs_fault env "write" filePath); reflexivity.
Qed.

Lemma saveAttachment_returns (attachment : AttachmentData) (filePath : string) (w : World) :
  returns (saveAttachment env attachment filePath) w (fun _ w' => same_but_files w w').
Proof.
  pose proof (saveAttachment_cases attachment filePath w) as H. unfold returns.
  destruct (Base64.StdEncoding.DecodeString (Content attachment)); [eauto with world|].
  destruct (fs_fault env "open" filePath); [eauto with world|].
  destruct (fs_fault env "write" filePath); do 2 eexists; (split; [exact H|]); repeat split.
Qed.

(** [transcribeAudio] returns, and only runs commands. *)
Lemma transcribeAudio_returns (filePath : string) (w : World) :
  returns (transcribeAudio env filePath) w (fun _ w' => ran_commands w w').
Proof.
  unfold transcribeAudio.
  destruct (look_path env whisper_cli) as [err|]; [apply returns_ret; auto with world|].
  step cmd_Run_returns.
  destruct (RunErr a) as [err|]; [apply returns_ret; assumption|].
  apply returns_bind. apply returns_bind.
  eapply returns_mono; [apply cmd_Run_returns | cbv beta; intros wh w2 H2].
  assert (Hend : forall (res : string * option error) (w3 : World),
             same_but_files w2 w3 ->
             returns (ret res) w3
               (fun a1 w1 =>
                  returns (bind (os_Remove env
                             (TrimSuffix filePath (Filepath.Ext filePath) +:+ ".wav"))
                             (fun _ => ret a1)) w1
                    (fun _ w'0 => ran_commands w w'0))).
  { intros res w3 H3. apply returns_ret. step os_Remove_returns. apply returns_ret.
    eauto using ran_commands_trans, same_ran_commands, same_but_files_trans. }
  destruct (RunErr wh) as [err|]; [apply Hend; auto with world|].
  step os_Stat_returns. subst w'0.
  destruct (match a0 with inl e => os_IsNotExist e | inr _ => false end);
    [apply Hend; auto with world|].
  step os_ReadFile_returns. subst w'0.
  destruct a1 as [err|bytes]; [apply Hend; auto with world|].
  step os_Remove_returns. apply Hend. assumption.
Qed.

(** [generateTitle] returns, and sends exactly one request. *)
Lemma generateTitle_spec (transcription : string) (w : World) :
  exists title oe request,
    generateTitle env transcription w
    = (Done (title, oe), emit (EvHTTPPost ollama_url request) w).
Proof.
  unfold generateTitle, bind, http_Do, ret.
  destruct (http_post env _ _) as [err|resp]; [eauto|].
  destruct (ResponseBody resp) as [err|body]; [eauto|].
  destruct (negb (StatusCode resp =? StatusOK)%Z); [eauto|].
  destruct (json_OpenAIResponse env body) as [err|r]; [eauto|].
  destruct (Choices r); eauto.
Qed.

Lemma db_insert_returns (rec : Recording) (w : World) :
  returns (db_insert env rec) w
    (fun _ w' =>
       files w' = files w /\ rand_calls w' = rand_calls w /\ trace w' = trace w /\
       (recordings w' = recordings w \/ recordings w' = recordings w ++ [rec])).
Proof.
  unfold db_insert, returns. destruct (db_fault env "insert"); [do 2 eexists; eauto 10|].
  destruct (existsb _ _); do 2 eexists; (split; [reflexivity|]); repeat split; auto.
Qed.

End WorldFacts.

(** ** The webhook handler *)

Section WebhookFacts.

Variable env : Env.

Lemma enrich_returns (recording : Recording) (w : World) :
  returns (enrich env recording) w
    (fun rec w' =>
       recordings w' = recordings w /\
       exists t oe w1,
         transcribeAudio env (FilePath recording) w = (Done (t, oe), w1) /\
         match oe with
         | Some err =>
             rec = enriched recording ("Transcription failed: " +:+ Error err)
                     "Untitled Voicemail" /\ w' = w1
         | None => exists title, rec = enriched recording t title
         end).
Proof.
  unfold enrich.
  destruct (transcribeAudio_returns env (FilePath recording) w)
    as ([t oe] & w1 & Ht & Hr & _).
  apply returns_bind. exists (t, oe), w1. split; [exact Ht|].
  destruct oe as [err|].
  - apply returns_ret. split; [exact Hr|]. exists t, (Some err), w1. auto.
  - destruct (negb (String.eqb t "")).
    + destruct (generateTitle_spec env t w1) as (title & oe & request & Hg).
      apply returns_bind. do 2 eexists. split; [exact Hg|].
      destruct oe; apply returns_ret; (split; [exact Hr|]);
        exists t, None, w1; split; eauto.
    + apply returns_ret. split; [exact Hr|]. exists t, None, w1. eauto.
Qed.

(** Attachments without the MP3 suffix are passed over. *)
Lemma process_attachments_skip (receivedAt phoneNumber : string) :
  forall (attachments : list AttachmentData) (recordingID : string) (w : World),
    forallb (fun a => negb (is_mp3 a)) attachments = true ->
    process_attachments env receivedAt phoneNumber attachments recordingID w
    = (Done recordingID, w).
Proof.
  induction attachments as [|a rest IH]; intros rid w H; [reflexivity|].
  simpl in H. apply andb_prop in H as [Ha Hrest].
  cbn [process_attachments]. destruct (is_mp3 a); [discriminate|]. now apply IH.
Qed.

Lemma process_attachments_app (receivedAt phoneNumber : string) :
  forall (pre rest : list AttachmentData) (recordingID : string) (w : World),
    forallb (fun a => negb (is_mp3 a)) pre = true ->
    process_attachments env receivedAt phoneNumber (pre ++ rest) recordingID w
    = process_attachments env receivedAt phoneNumber rest recordingID w.
Proof.
  induction pre as [|a pre IH]; intros rest rid w H; [reflexivity|].
  simpl in H. apply andb_prop in H as [Ha Hpre].
  cbn [app process_attachments]. destruct (is_mp3 a); [discriminate|]. now apply IH.
Qed.

(** [ingest] returns: the transcription ran, and the enriched record was
    handed to the store. *)
Lemma ingest_returns (recording : Recording) (w : World) :
  returns (ingest env recording) w
    (fun _ w' =>
       exists t oe w1 rec,
         transcribeAudio env (FilePath recording) w = (Done (t, oe), w1) /\
         (recordings w' = recordings w \/ recordings w' = recordings w ++ [rec]) /\
         match oe with
         | Some err =>
             rec = enriched recording ("Transcription failed: " +:+ Error err)
                     "Untitled Voicemail" /\ trace w' = trace w1
         | None => exists title, rec = enriched recording t title
         end).
Proof.
  unfold ingest. step enrich_returns. destruct H as (Hr & t & oe & w1 & Htr & Hrec).
  step db_insert_returns. destruct H as (_ & _ & Ht & Hrows).
  apply returns_ret. exists t, oe, w1, a. split; [exact Htr|].
  rewrite <- Hr. split; [exact Hrows|].
  destruct oe as [err|]; [|exact Hrec].
  destruct Hrec as [-> ->]. split; [reflexivity | exact Ht].
Qed.

(** The loop returns, and what it did is an [ingestion]. *)
Lemma process_attachments_returns (receivedAt phoneNumber : string) :
  forall (attachments : list AttachmentData) (recordingID : string) (w : World),
    returns (process_attachments env receivedAt phoneNumber attachments recordingID) w
      (fun _ w' => ingestion env phoneNumber receivedAt (trace w) (recordings w) w').
Proof.
  induction attachments as [|a rest IH]; intros rid w.
  - apply returns_ret. left. auto.
  - cbn [process_attachments]. destruct (is_mp3 a); [|apply IH].
    apply returns_bind. exists (generated_id env (rand_calls w)), (set_rand_calls S w).
    split; [apply generateID_spec|].
    set (id := generated_id env (rand_calls w)).
    set (filePath := Filepath.Join attachmentDir (id +:+ ".mp3")).
    step saveAttachment_returns.
    destruct H as (Hr1 & _ & Ht1). cbn [set_rand_calls recordings trace] in Hr1, Ht1.
    destruct a0 as [err|].
    { rewrite <- Hr1, <- Ht1. apply IH. }
    step os_Stat_returns. subst w'0.
    destruct a0 as [err|size].
    { rewrite <- Hr1, <- Ht1. apply IH. }
    destruct (ingest_returns (mkRecording id phoneNumber receivedAt (FileName a)
                                filePath size "" "") w') as ([] & w2 & Hi & _).
    apply returns_bind. exists tt, w2. split; [exact Hi|].
    apply returns_ret. right.
    exists (mkRecording id phoneNumber receivedAt (FileName a) filePath size "" ""), w'.
    auto.
Qed.

(** The handler on a POST request whose body parses. *)
Lemma webhookHandler_parsed (r : Request) (body : string) (email : EmailData)
      (phoneNumber : string) (w : World) :
  Method r = "POST" ->
  Body r = inr body ->
  json_EmailData env (nastyTimeRegex_ReplaceAll body " ") = inr email ->
  extractPhoneNumber (Subject email) = Done phoneNumber ->
  webhookHandler env r w =
  bind (process_attachments env
          (if String.eqb (EmailReceivedAt email) "" then now_text env
           else EmailReceivedAt email)
          (if String.eqb phoneNumber "" then "Unknown" else phoneNumber)
          (Attachments email) "")
       (fun recordingID =>
          ret (mkResponse StatusCreated []
                 (BodyJSON [("id", recordingID);
                            ("message", "Recording data received");
                            ("status", "success")]))) w.
Proof.
  intros Hm Hb Hj He. unfold webhookHandler. rewrite Hm, Hb, Hj, He. reflexivity.
Qed.

End WebhookFacts.

Section IdentifierFacts.

Lemma itoa_nonempty (z : Z) : itoa z <> "".
Proof.
  unfold itoa, NilZero.string_of_int, NilZero.string_of_uint.
  destruct (Z.to_int z) as [d|d]; destruct d; simpl; discriminate.
Qed.

Lemma generated_id_nonempty (env : Env) (k : nat) : generated_id env k <> "".
Proof.
  unfold generated_id. destruct (rand_read env k) as [e|b]; [apply itoa_nonempty|].
  cbn [seq map string_of_list_ascii].
  unfold Base64.URLEncoding.EncodeToString. cbn [Base64.EncodeToString].
  destruct (Base64.split3 (b 0) (b 1) (b 2)) as [[[s0 s1] s2] s3]. discriminate.
Qed.

End IdentifierFacts.

Section WebhookOutcomes.

Variable env : Env.

(** When the only MP3 attachment cannot be saved, the response carries
    the identifier that was generated for it. *)
Lemma webhook_save_failure (r : Request) (body : string) (email : EmailData)
      (pre post : list AttachmentData) (a : AttachmentData) (w w2 : World) (err : error) :
  Method r = "POST" ->
  Body r = inr body ->
  json_EmailData env (nastyTimeRegex_ReplaceAll body " ") = inr email ->
  Attachments email = pre ++ a :: post ->
  forallb (fun x => negb (is_mp3 x)) pre = true ->
  forallb (fun x => negb (is_mp3 x)) post = true ->
  is_mp3 a = true ->
  saveAttachment env a
    (Filepath.Join attachmentDir (generated_id env (rand_calls w) +:+ ".mp3"))
    (set_rand_calls S w) = (Done (Some err), w2) ->
  webhookHandler env r w = (Done (success_response (generated_id env (rand_calls w))), w2)
  /\ generated_id env (rand_calls w) <> ""
  /\ recordings w2 = recordings w.
Proof.
  intros Hm Hb Hj Hatt Hpre Hpost Ha Hsave.
  destruct (extract_never_panics (Subject email)) as [phoneNumber He].
  rewrite (webhookHandler_parsed env r body email phoneNumber w Hm Hb Hj He).
  rewrite Hatt. split; [|split; [apply generated_id_nonempty|]].
  - unfold bind at 1. rewrite process_attachments_app by exact Hpre.
    cbn [process_attachments]. rewrite Ha.
    rewrite (bind_done _ _ _ _ _ (generateID_spec env w)).
    rewrite (bind_done _ _ _ _ _ Hsave).
    rewrite process_attachments_skip by exact Hpost. reflexivity.
  - destruct (saveAttachment_returns env a
                (Filepath.Join attachmentDir (generated_id env (rand_calls w) +:+ ".mp3"))
                (set_rand_calls S w)) as (f & w3 & Hs & Hr & _).
    rewrite Hsave in Hs. inversion Hs; subst. exact Hr.
Qed.

End WebhookOutcomes.

(** C1: a request whose only MP3 attachment cannot be decoded still gets
    the 201 success response, but its id field is the identifier that
    was generated before the save was tried, not the empty string, and
    neither a row nor a file is stored under that identifier. *)
Theorem webhook_failed_save_reports_generated_id :
  let email := Scenario.voicemail "Call me at (415) 555-1234" "aGVsbG8" in
  let '(result, w') :=
    webhookHandler (Scenario.env_ok email) (Scenario.post "{}") Scenario.empty_world in
  Base64.StdEncoding.DecodeString "aGVsbG8" = inl (CorruptInputError 4) /\
  result = Done (success_response "AAECAwQFBgcICQoLDA0ODw==") /\
  "AAECAwQFBgcICQoLDA0ODw==" <> "" /\
  recordings w' = [] /\
  files w' = ∅.
Proof. vm_compute. repeat split. discriminate. Qed.

(** C4: a well-formed payload without an attachment whose name ends in
    .mp3 (in any letter case) gets status 201 with the success body and
    an empty id, and the world, so the recordings table, is unchanged. *)
Theorem webhook_no_audio_attachment :
  forall (env : Env) (r : Request) (body : string) (email : EmailData) (w : World),
    Method r = "POST" ->
    Body r = inr body ->
    json_EmailData env (nastyTimeRegex_ReplaceAll body " ") = inr email ->
    forallb (fun a => negb (is_mp3 a)) (Attachments email) = true ->
    webhookHandler env r w = (Done (success_response ""), w) /\
    Status (success_response "") = 201%Z.
Proof.
  intros env r body email w Hm Hb Hj Hnone. split; [|reflexivity].
  destruct (extract_never_panics (Subject email)) as [phoneNumber He].
  rewrite (webhookHandler_parsed env r body email phoneNumber w Hm Hb Hj He).
  unfold bind. rewrite process_attachments_skip by exact Hnone. reflexivity.
Qed.

Lemma webhook_no_audio_attachment_witness :
  webhookHandler (Scenario.env_ok Scenario.no_audio) (Scenario.post "{}") Scenario.empty_world
  = (Done (success_response ""), Scenario.empty_world) /\
  Status (success_response "") = 201%Z.
Proof.
  apply (webhook_no_audio_attachment (Scenario.env_ok Scenario.no_audio)
           (Scenario.post "{}") "{}" Scenario.no_audio); reflexivity.
Defined.

(** ** The attachment persister *)

Section Persister.
Import Base64.

Lemma skip_newlines_corrupt (s : string) (si : nat) (out : string) (e : error) :
  after_padding s si out = inl e -> exists n, e = CorruptInputError n.
Proof.
  unfold after_padding. destruct (skip_newlines s si) as [[|b rest] si'];
    intros H; inversion H; eauto.
Qed.

(** A decoding error is a [CorruptInputError]. *)
Lemma decode_error_kind (alphabet : string) :
  forall (src : string) (si : nat) (q : list ascii) (e : error),
    decode alphabet src si q = inl e -> exists n, e = CorruptInputError n.
Proof.
  induction src as [|a rest IH]; intros si q e H; cbn [decode] in H.
  - destruct q; inversion H; eauto.
  - destruct (decodeMap alphabet a) as [v|].
    + destruct q as [|s0 [|s1 [|s2 [|s3 q']]]]; try (eapply IH; exact H).
      destruct (join4 s0 s1 s2 v) as [[x y] z].
      destruct (decode alphabet rest (S si) []) as [e'|out] eqn:E; inversion H; subst.
      eapply IH; exact E.
    + destruct (is_newline a); [eapply IH; exact H|].
      destruct (negb (Ascii.eqb a padChar)); [inversion H; eauto|].
      destruct q as [|s0 [|s1 [|s2 [|s3 q']]]]; try (inversion H; eauto; fail).
      * destruct (join4 s0 s1 zero zero) as [[x y] z].
        destruct (skip_newlines rest (S si)) as [[|b rest'] si']; [inversion H; eauto|].
        destruct (Ascii.eqb b padChar); [|inversion H; eauto].
        eapply skip_newlines_corrupt; exact H.
      * destruct (join4 s0 s1 s2 zero) as [[x y] z].
        eapply skip_newlines_corrupt; exact H.
Qed.

End Persister.

(** C7: for every byte string X, saving an attachment whose content is
    the base64 text of X and reading the file back gives X, the empty
    content giving an empty file; when the content does not decode the
    result is the decode error, and when the file cannot be created or
    written it is the error of the system call. *)
Theorem saveAttachment_round_trip :
  forall (env : Env) (path : string) (w : World),
    (forall X name mime : string,
        fs_fault env "open" path = None ->
        fs_fault env "write" path = None ->
        exists w',
          saveAttachment env
            (mkAttachmentData name (Base64.StdEncoding.EncodeToString X) mime) path w
          = (Done None, w') /\
          os_ReadFile env path w' = (Done (inr X), w') /\
          (X = "" -> (files w' !! path) = Some "")) /\
    (forall (attachment : AttachmentData) (e : error),
        Base64.StdEncoding.DecodeString (Content attachment) = inl e ->
        saveAttachment env attachment path w
        = (Done (Some (Wrapped "base64 decode error: " e "")), w) /\
        exists n, e = CorruptInputError n) /\
    (forall (attachment : AttachmentData) (content : string) (e : errno),
        Base64.StdEncoding.DecodeString (Content attachment) = inr content ->
        fs_fault env "open" path = Some e ->
        saveAttachment env attachment path w
        = (Done (Some (Wrapped "file creation error: "
                         (as_error (mkPathError "open" path e)) "")), w)) /\
    (forall (attachment : AttachmentData) (content : string) (e : errno),
        Base64.StdEncoding.DecodeString (Content attachment) = inr content ->
        fs_fault env "open" path = None ->
        fs_fault env "write" path = Some e ->
        exists w',
          saveAttachment env attachment path w
          = (Done (Some (Wrapped "file write error: "
                           (as_error (mkPathError "write" path e)) "")), w')).
Proof.
  intros env path w. repeat split.
  - intros X name mime Ho Hw.
    pose proof (saveAttachment_cases env
                  (mkAttachmentData name (Base64.StdEncoding.EncodeToString X) mime) path w) as H.
    cbn [Content] in H. rewrite decode_encode, Ho, Hw in H.
    eexists. split; [exact H|]. split.
    + unfold os_ReadFile. rewrite Ho. cbn [set_files files].
      rewrite lookup_insert_eq. reflexivity.
    + intros ->. cbn [set_files files]. apply lookup_insert_eq.
  - pose proof (saveAttachment_cases env attachment path w) as Hc.
    rewrite H in Hc. exact Hc.
  - eapply decode_error_kind. exact H.
  - intros attachment content e Hd Ho.
    pose proof (saveAttachment_cases env attachment path w) as Hc.
    rewrite Hd, Ho in Hc. exact Hc.
  - intros attachment content e Hd Ho Hw.
    pose proof (saveAttachment_cases env attachment path w) as Hc.
    rewrite Hd, Ho, Hw in Hc. eexists. exact Hc.
Qed.

Lemma saveAttachment_round_trip_witness :
  (exists w',
      saveAttachment (Scenario.env_ok Scenario.no_audio)
        (mkAttachmentData "Voice.MP3" (Base64.StdEncoding.EncodeToString "hello") "audio/mpeg")
        "data/mp3s/abc.mp3" Scenario.empty_world
      = (Done None, w') /\
      os_ReadFile (Scenario.env_ok Scenario.no_audio) "data/mp3s/abc.mp3" w'
      = (Done (inr "hello"), w') /\
      ("hello" = "" -> (files w' !! "data/mp3s/abc.mp3") = Some "")) /\
  (saveAttachment (Scenario.env_ok Scenario.no_audio)
     (mkAttachmentData "Voice.MP3" "aGVsbG8" "audio/mpeg")
     "data/mp3s/abc.mp3" Scenario.empty_world
   = (Done (Some (Wrapped "base64 decode error: " (CorruptInputError 4) "")),
      Scenario.empty_world) /\
   exists n, CorruptInputError 4 = CorruptInputError n) /\
  saveAttachment
    (Scenario.with_fs_fault Scenario.no_descriptors (Scenario.env_ok Scenario.no_audio))
    (mkAttachmentData "Voice.MP3" "aGVsbG8=" "audio/mpeg")
    "data/mp3s/abc.mp3" Scenario.empty_world
  = (Done (Some (Wrapped "file creation error: "
                   (as_error (mkPathError "open" "data/mp3s/abc.mp3" EMFILE)) "")),
     Scenario.empty_world) /\
  exists w',
    saveAttachment
      (Scenario.with_fs_fault Scenario.disk_full (Scenario.env_ok Scenario.no_audio))
      (mkAttachmentData "Voice.MP3" "aGVsbG8=" "audio/mpeg")
      "data/mp3s/abc.mp3" Scenario.empty_world
    = (Done (Some (Wrapped "file write error: "
                     (as_error (mkPathError "write" "data/mp3s/abc.mp3" ENOSPC)) "")), w').
Proof.
  split; [|split; [|split]].
  - apply (proj1 (saveAttachment_round_trip (Scenario.env_ok Scenario.no_audio)
                    "data/mp3s/abc.mp3" Scenario.empty_world)
             "hello" "Voice.MP3" "audio/mpeg"); reflexivity.
  - apply (proj1 (proj2 (saveAttachment_round_trip (Scenario.env_ok Scenario.no_audio)
                           "data/mp3s/abc.mp3" Scenario.empty_world))
             (mkAttachmentData "Voice.MP3" "aGVsbG8" "audio/mpeg") (CorruptInputError 4)).
    reflexivity.
  - apply (proj1 (proj2 (proj2 (saveAttachment_round_trip
                           (Scenario.with_fs_fault Scenario.no_descriptors
                              (Scenario.env_ok Scenario.no_audio))
                           "data/mp3s/abc.mp3" Scenario.empty_world)))
             (mkAttachmentData "Voice.MP3" "aGVsbG8=" "audio/mpeg") "hello" EMFILE);
      reflexivity.
  - apply (proj2 (proj2 (proj2 (saveAttachment_round_trip
                           (Scenario.with_fs_fault Scenario.disk_full
                              (Scenario.env_ok Scenario.no_audio))
                           "data/mp3s/abc.mp3" Scenario.empty_world)))
             (mkAttachmentData "Voice.MP3" "aGVsbG8=" "audio/mpeg") "hello" ENOSPC);
      reflexivity.
Defined.

(** ** The play handler *)

Section PlayFacts.

Variable env : Env.

Lemma db_select_cases (id : string) (w : World) :
  db_select_file_path env id w =
  (Done match db_fault env "select" with
        | Some e => inl e
        | None =>
            match List.find (fun r => String.eqb (ID r) id) (recordings w) with
            | Some r => inr (FilePath r)
            | None => inl ErrNoRows
            end
        end, w).
Proof.
  unfold db_select_file_path. destruct (db_fault env "select"); [reflexivity|].
  destruct (List.find _ _); reflexivity.
Qed.

Lemma playHandler_lookup_failed (r : Request) (w : World) (e : error) :
  TrimPrefix (URLPath r) "/api/play/" <> "" ->
  db_select_file_path env (TrimPrefix (URLPath r) "/api/play/") w = (Done (inl e), w) ->
  playHandler env r w = (Done (http_Error "Recording not found" StatusNotFound), w).
Proof.
  intros Hid Hsel. unfold playHandler.
  destruct (String.eqb_spec (TrimPrefix (URLPath r) "/api/play/") "") as [E|_];
    [contradiction|].
  rewrite (bind_done _ _ _ _ _ Hsel). reflexivity.
Qed.

Lemma Dir_Open_eq (dir name : string) (w : World) :
  Dir_Open env dir name w =
  (Done
     (if unsafe_path env (Dir_path name) then inl ErrUnsafePath
      else
        match fs_fault env "open" (Dir_fullName dir name) with
        | Some e =>
            inl (mapOpenError env w (path_error "open" (Dir_fullName dir name) e)
                   (Dir_fullName dir name))
        | None =>
            match files w !! Dir_fullName dir name with
            | Some content => inr content
            | None => inl (PathErr (path_error "open" (Dir_fullName dir name) ENOENT))
            end
        end), w).
Proof.
  unfold Dir_Open, os_ReadFile. cbv zeta.
  destruct (unsafe_path env (Dir_path name)); [reflexivity|].
  destruct (fs_fault env "open" (Dir_fullName dir name)); [reflexivity|].
  destruct (files w !! Dir_fullName dir name); reflexivity.
Qed.

Lemma File_Stat_eq (fullName content : string) (w : World) :
  File_Stat env fullName content w =
  (Done match fs_fault env "fstat" fullName with
        | Some e => inl (path_error "stat" fullName e)
        | None => inr (Z.of_nat (len content))
        end, w).
Proof. unfold File_Stat. destruct (fs_fault env "fstat" fullName); reflexivity. Qed.

(** [http.ServeFile] changes nothing, and its answer is decided by the
    URL, the name, the faults of the system calls and the file behind
    the name. *)
Lemma http_ServeFile_eq (h : list (string * string)) (r : Request) (name : string)
      (w : World) :
  http_ServeFile env h r name w =
  (Done
     (if containsDotDot (URLPath r) then serveError h "invalid URL path" StatusBadRequest
      else if HasSuffix (URLPath r) "/index.html" then localRedirect h "./"
      else if unsafe_path env (Dir_path (snd (Filepath.Split name))) then
        serveError h "500 Internal Server Error" StatusInternalServerError
      else
        match fs_fault env "open" (served_name name) with
        | Some e =>
            let '(msg, code) :=
              toHTTPError (mapOpenError env w (path_error "open" (served_name name) e)
                             (served_name name)) in
            serveError h msg code
        | None =>
            match files w !! served_name name with
            | None => serveError h "404 page not found" StatusNotFound
            | Some content =>
                match fs_fault env "fstat" (served_name name) with
                | Some e =>
                    let '(msg, code) :=
                      toHTTPError (PathErr (path_error "stat" (served_name name) e)) in
                    serveError h msg code
                | None =>
                    serveContent h r (mod_time env (served_name name))
                      (Z.of_nat (len content)) content
                end
            end
        end), w).
Proof.
  unfold http_ServeFile, served_name.
  destruct (containsDotDot (URLPath r)); [reflexivity|].
  destruct (Filepath.Split name) as [dir file]. cbn [fst snd].
  unfold serveFile.
  destruct (HasSuffix (URLPath r) "/index.html"); [reflexivity|].
  rewrite (bind_done _ _ _ _ _ (Dir_Open_eq dir file w)).
  destruct (unsafe_path env (Dir_path file)); [reflexivity|].
  destruct (fs_fault env "open" (Dir_fullName dir file)) as [e|].
  { destruct (toHTTPError _); reflexivity. }
  destruct (files w !! Dir_fullName dir file) as [content|]; [|reflexivity].
  cbv zeta. rewrite (bind_done _ _ _ _ _ (File_Stat_eq _ content w)).
  destruct (fs_fault env "fstat" (Dir_fullName dir file)) as [e|]; [|reflexivity].
  destruct (toHTTPError _); reflexivity.
Qed.

(** The answers of [http.ServeFile] on the header of [playHandler]. *)
Lemma serveError_play (text : string) (code : Z) :
  serveError [("Content-Type", "audio/mpeg"); ("Content-Disposition", "inline")] text code
  = play_error text code.
Proof. reflexivity. Qed.

Lemma serveContent_play (r : Request) (modtime : option string) (content : string) :
  serveContent [("Content-Type", "audio/mpeg"); ("Content-Disposition", "inline")] r
    modtime (Z.of_nat (len content)) content
  = play_response r modtime content.
Proof. destruct modtime; reflexivity. Qed.

(** [toHTTPError] gives 500 for the errors that are neither not-exist
    nor permission, and for no other. *)
Lemma toHTTPError_500 (err : OpenError) :
  snd (toHTTPError err) = StatusInternalServerError ->
  toHTTPError err = ("500 Internal Server Error", StatusInternalServerError) /\
  (err = ErrUnsafePath \/
   exists e : PathError, err = PathErr e /\ Errno e <> ENOENT /\ Errno e <> EACCES).
Proof.
  destruct err as [e| |]; [|discriminate|intros _; split; [reflexivity | now left]].
  cbn [toHTTPError].
  destruct (Errno e) eqn:E; try discriminate; intros _;
    (split; [reflexivity|]); right; exists e; rewrite E; repeat split; discriminate.
Qed.

Lemma toHTTPError_other (e : PathError) :
  Errno e <> ENOENT -> Errno e <> EACCES ->
  toHTTPError (PathErr e) = ("500 Internal Server Error", StatusInternalServerError).
Proof. cbn [toHTTPError]. destruct (Errno e); intros H1 H2; congruence. Qed.

(** [mapOpenError] gives the error of [os.Open] or [fs.ErrNotExist]. *)
Lemma mapOpenError_loop_cases (w : World) (originalErr : PathError) :
  forall (parts : list string) (joined : string) (first : bool),
    mapOpenError_loop env w originalErr joined first parts = PathErr originalErr \/
    mapOpenError_loop env w originalErr joined first parts = fs_ErrNotExist.
Proof.
  induction parts as [|part rest IH]; intros joined first; [left; reflexivity|].
  cbn [mapOpenError_loop]. destruct (String.eqb part ""); [apply IH|].
  destruct (stat_kind env w _) as [e|[|]]; [left; reflexivity | right; reflexivity | apply IH].
Qed.

Lemma mapOpenError_cases (w : World) (originalErr : PathError) (name : string) :
  mapOpenError env w originalErr name = PathErr originalErr \/
  mapOpenError env w originalErr name = fs_ErrNotExist.
Proof.
  unfold mapOpenError.
  destruct (Errno originalErr); try (left; reflexivity); apply mapOpenError_loop_cases.
Qed.

(** The play handler from the row on. *)
Lemma playHandler_found (r : Request) (w : World) (rec : Recording) :
  TrimPrefix (URLPath r) "/api/play/" <> "" ->
  db_fault env "select" = None ->
  List.find (fun x => String.eqb (ID x) (TrimPrefix (URLPath r) "/api/play/"))
    (recordings w) = Some rec ->
  playHandler env r w =
  if match fs_fault env "stat" (FilePath rec) with
     | Some e => match e with ENOENT => true | _ => false end
     | None => match files w !! FilePath rec with Some _ => false | None => true end
     end
  then (Done (http_Error "MP3 file not found" StatusNotFound), w)
  else
    http_ServeFile env [("Content-Type", "audio/mpeg"); ("Content-Disposition", "inline")]
      r (FilePath rec) w.
Proof.
  intros Hid Hsel Hfind. unfold playHandler.
  destruct (String.eqb_spec (TrimPrefix (URLPath r) "/api/play/") "") as [E|_];
    [contradiction|].
  rewrite (bind_done _ _ _ _ _ (db_select_cases _ w)), Hsel, Hfind.
  unfold bind, os_Stat.
  destruct (fs_fault env "stat" (FilePath rec)) as [[]|]; try reflexivity.
  destruct (files w !! FilePath rec); reflexivity.
Qed.

(** A 500 of the play handler comes from serving the file. *)
Lemma playHandler_500_origin (r : Request) (w w' : World) (resp : Response) :
  playHandler env r w = (Done resp, w') ->
  Status resp = StatusInternalServerError ->
  w' = w /\
  resp = play_error "500 Internal Server Error" StatusInternalServerError /\
  exists rec : Recording,
    db_fault env "select" = None /\
    List.find (fun x => String.eqb (ID x) (TrimPrefix (URLPath r) "/api/play/"))
      (recordings w) = Some rec /\
    serving_breaks env w (FilePath rec).
Proof.
  intros H Hs.
  destruct (String.eqb_spec (TrimPrefix (URLPath r) "/api/play/") "") as [E|Hid].
  { unfold playHandler in H. rewrite E in H. inversion H; subst. discriminate. }
  destruct (db_fault env "select") as [e|] eqn:Hsel.
  { rewrite (playHandler_lookup_failed r w e Hid) in H
      by (rewrite db_select_cases, Hsel; reflexivity).
    inversion H; subst. discriminate. }
  destruct (List.find (fun x => String.eqb (ID x) (TrimPrefix (URLPath r) "/api/play/"))
              (recordings w)) as [rec|] eqn:Hfind.
  2:{ rewrite (playHandler_lookup_failed r w ErrNoRows Hid) in H
        by (rewrite db_select_cases, Hsel, Hfind; reflexivity).
      inversion H; subst. discriminate. }
  rewrite (playHandler_found r w rec Hid Hsel Hfind) in H.
  destruct (match fs_fault env "stat" (FilePath rec) with Some e => _ | None => _ end).
  { inversion H; subst. discriminate. }
  rewrite http_ServeFile_eq in H.
  destruct (containsDotDot (URLPath r)). { inversion H; subst. discriminate. }
  destruct (HasSuffix (URLPath r) "/index.html"). { inversion H; subst. discriminate. }
  unfold serving_breaks. cbv zeta.
  destruct (unsafe_path env (Dir_path (snd (Filepath.Split (FilePath rec))))) eqn:Hsafe.
  { injection H as Hresp Hw. symmetry in Hw, Hresp. subst w' resp.
    split; [reflexivity|]. split; [apply serveError_play|].
    exists rec. split; [reflexivity|]. split; [reflexivity|]. now left. }
  destruct (fs_fault env "open" (served_name (FilePath rec))) as [e|] eqn:Hopen.
  - destruct (toHTTPError _) as [msg code] eqn:Hto.
    injection H as Hresp Hw. symmetry in Hw, Hresp. subst w' resp. cbn in Hs. subst code.
    destruct (toHTTPError_500 _ (f_equal snd Hto)) as (Hmsg & Hmap).
    rewrite Hto in Hmsg. inversion Hmsg; subst msg.
    split; [reflexivity|]. split; [apply serveError_play|].
    exists rec. split; [reflexivity|]. split; [reflexivity|]. right. left. exists e.
    destruct (mapOpenError_cases w (path_error "open" (served_name (FilePath rec)) e)
                (served_name (FilePath rec))) as [Hm|Hm]; rewrite Hm in Hmap;
      destruct Hmap as [Hmap|(e' & Hmap & Hn1 & Hn2)]; try discriminate.
    inversion Hmap; subst e'. cbn [Errno path_error] in Hn1, Hn2. auto.
  - destruct (files w !! served_name (FilePath rec)) as [content|] eqn:Hfile.
    2:{ inversion H; subst. discriminate. }
    destruct (fs_fault env "fstat" (served_name (FilePath rec))) as [e|] eqn:Hfstat.
    2:{ inversion H; subst. discriminate. }
    destruct (toHTTPError _) as [msg code] eqn:Hto.
    injection H as Hresp Hw. symmetry in Hw, Hresp. subst w' resp. cbn in Hs. subst code.
    destruct (toHTTPError_500 _ (f_equal snd Hto)) as (Hmsg & Hmap).
    rewrite Hto in Hmsg. inversion Hmsg; subst msg.
    split; [reflexivity|]. split; [apply serveError_play|].
    exists rec. split; [reflexivity|]. split; [reflexivity|]. right. right.
    exists content, e.
    destruct Hmap as [Hmap|(e' & Hmap & Hn1 & Hn2)]; [discriminate|].
    inversion Hmap; subst e'. cbn [Errno path_error] in Hn1, Hn2. auto.
Qed.

(** And serving the file breaks with a 500 whenever the handler gets
    that far. *)
Lemma playHandler_500 (r : Request) (w : World) (rec : Recording) :
  TrimPrefix (URLPath r) "/api/play/" <> "" ->
  db_fault env "select" = None ->
  List.find (fun x => String.eqb (ID x) (TrimPrefix (URLPath r) "/api/play/"))
    (recordings w) = Some rec ->
  fst (os_Stat env (FilePath rec) w)
  <> Done (inl (path_error "stat" (FilePath rec) ENOENT)) ->
  containsDotDot (URLPath r) = false ->
  HasSuffix (URLPath r) "/index.html" = false ->
  serving_breaks env w (FilePath rec) ->
  playHandler env r w
  = (Done (play_error "500 Internal Server Error" StatusInternalServerError), w).
Proof.
  intros Hid Hsel Hfind Hstat Hdots Hindex Hbreaks.
  rewrite (playHandler_found r w rec Hid Hsel Hfind).
  unfold os_Stat in Hstat. unfold serving_breaks in Hbreaks. cbv zeta in Hbreaks.
  destruct (fs_fault env "stat" (FilePath rec)) as [[]|];
    try (exfalso; apply Hstat; reflexivity);
    try (destruct (files w !! FilePath rec);
         [|exfalso; apply Hstat; reflexivity]);
    rewrite http_ServeFile_eq, Hdots, Hindex;
    (destruct (unsafe_path env (Dir_path (snd (Filepath.Split (FilePath rec)))));
     [rewrite serveError_play; reflexivity|]);
    (destruct Hbreaks
       as [Hrefused|[(e & Hopen & Hn1 & Hn2 & Hmap)
                    |(content & e & Hopen & Hfile & Hfstat & Hn1 & Hn2)]];
     [discriminate| |]);
    rewrite Hopen, ?Hmap, ?Hfile, ?Hfstat, toHTTPError_other, serveError_play
      by (cbn [Errno path_error]; assumption);
    reflexivity.
Qed.

End PlayFacts.

(** C10, as stated, fails: on a failing disk, where every system call
    ends with an input/output error, the row is found, [os.Stat] does
    not report a missing file, and [http.ServeFile] answers 500: the
    error of [os.Open] is neither not-exist nor permission, and
    [mapOpenError] keeps it because it cannot examine the path either. *)
Lemma play_can_answer_500 :
  ~ (forall (env : Env) (r : Request) (w : World),
        TrimPrefix (URLPath r) "/api/play/" <> "" ->
        (forall e : error,
            db_select_file_path env (TrimPrefix (URLPath r) "/api/play/") w
            = (Done (inl e), w) ->
            playHandler env r w
            = (Done (http_Error "Recording not found" StatusNotFound), w)) /\
        (forall (resp : Response) (w' : World),
            playHandler env r w = (Done resp, w') ->
            Status resp <> StatusInternalServerError)).
Proof.
  intros H.
  destruct (H (Scenario.with_fs_fault Scenario.io_errors
                 (Scenario.env_ok Scenario.no_audio))
              (Scenario.play "abc") Scenario.world_with_stored
              ltac:(vm_compute; discriminate)) as [_ Hnever].
  apply (Hnever (play_error "500 Internal Server Error" StatusInternalServerError)
           Scenario.world_with_stored); vm_compute; reflexivity.
Qed.

(** C10, amended: every failure of the lookup for a non-empty id, an
    error of the store as well as an id that is not in the table, gets
    the 404 response "Recording not found" and changes nothing.  A 500
    of the handler comes from serving the file and from nowhere else:
    the row was found, and [http.Dir] refused the name of the file, or
    opening the file failed with an error that is neither not-exist nor
    permission and that [mapOpenError] keeps, or the opened file could
    not be examined; and whenever the handler gets to serving the file
    and that happens, its answer is the 500 of [http.ServeFile]. *)
Theorem play_lookup_failure_is_404 :
  forall (env : Env) (r : Request) (w : World),
    TrimPrefix (URLPath r) "/api/play/" <> "" ->
    (forall e : error,
        db_fault env "select" = Some e ->
        playHandler env r w = (Done (http_Error "Recording not found" StatusNotFound), w)) /\
    (db_fault env "select" = None ->
     List.find (fun x => String.eqb (ID x) (TrimPrefix (URLPath r) "/api/play/"))
       (recordings w) = None ->
     playHandler env r w = (Done (http_Error "Recording not found" StatusNotFound), w)) /\
    Status (http_Error "Recording not found" StatusNotFound) = 404%Z /\
    (forall (resp : Response) (w' : World),
        playHandler env r w = (Done resp, w') ->
        Status resp = StatusInternalServerError ->
        w' = w /\
        resp = play_error "500 Internal Server Error" StatusInternalServerError /\
        exists rec : Recording,
          db_fault env "select" = None /\
          List.find (fun x => String.eqb (ID x) (TrimPrefix (URLPath r) "/api/play/"))
            (recordings w) = Some rec /\
          serving_breaks env w (FilePath rec)) /\
    (forall rec : Recording,
        db_fault env "select" = None ->
        List.find (fun x => String.eqb (ID x) (TrimPrefix (URLPath r) "/api/play/"))
          (recordings w) = Some rec ->
        fst (os_Stat env (FilePath rec) w)
        <> Done (inl (path_error "stat" (FilePath rec) ENOENT)) ->
        containsDotDot (URLPath r) = false ->
        HasSuffix (URLPath r) "/index.html" = false ->
        serving_breaks env w (FilePath rec) ->
        playHandler env r w
        = (Done (play_error "500 Internal Server Error" StatusInternalServerError), w)).
Proof.
  intros env r w Hid.
  split; [|split; [|split; [reflexivity|split]]].
  - intros e He. apply (playHandler_lookup_failed env r w e Hid).
    rewrite db_select_cases, He. reflexivity.
  - intros Hnf Hfind. apply (playHandler_lookup_failed env r w ErrNoRows Hid).
    rewrite db_select_cases, Hnf, Hfind. reflexivity.
  - intros resp w'. apply playHandler_500_origin.
  - intros rec. apply playHandler_500; assumption.
Qed.

Lemma play_lookup_failure_is_404_witness :
  playHandler (Scenario.with_db_fault (ErrText "IO Error: database is locked")
                 (Scenario.env_ok Scenario.no_audio))
    (Scenario.play "abc") Scenario.world_with_stored
  = (Done (http_Error "Recording not found" StatusNotFound), Scenario.world_with_stored) /\
  playHandler (Scenario.env_ok Scenario.no_audio) (Scenario.play "xyz")
    Scenario.world_with_stored
  = (Done (http_Error "Recording not found" StatusNotFound), Scenario.world_with_stored) /\
  playHandler (Scenario.with_fs_fault Scenario.io_errors (Scenario.env_ok Scenario.no_audio))
    (Scenario.play "abc") Scenario.world_with_stored
  = (Done (play_error "500 Internal Server Error" StatusInternalServerError),
     Scenario.world_with_stored).
Proof.
  split; [|split].
  - apply (proj1 (play_lookup_failure_is_404
                    (Scenario.with_db_fault (ErrText "IO Error: database is locked")
                       (Scenario.env_ok Scenario.no_audio))
                    (Scenario.play "abc") Scenario.world_with_stored
                    ltac:(vm_compute; discriminate))
             (ErrText "IO Error: database is locked")).
    reflexivity.
  - apply (proj1 (proj2 (play_lookup_failure_is_404
                    (Scenario.env_ok Scenario.no_audio)
                    (Scenario.play "xyz") Scenario.world_with_stored
                    ltac:(vm_compute; discriminate)))); reflexivity.
  - apply (proj2 (proj2 (proj2 (proj2 (play_lookup_failure_is_404
                    (Scenario.with_fs_fault Scenario.io_errors
                       (Scenario.env_ok Scenario.no_audio))
                    (Scenario.play "abc") Scenario.world_with_stored
                    ltac:(vm_compute; discriminate)))))
             Scenario.stored); try reflexivity.
    + vm_compute. discriminate.
    + right. left. exists EIO. repeat split; try discriminate.
Defined.

(** ** The title generator *)

Section TitleFacts.

Variable env : Env.

(** A 200 answer that parses and has a choice gives the cleaned content. *)
Lemma generateTitle_on_reply (transcription body content : string)
      (resp : HTTPResponse) (reply : OpenAIResponse) (choice : Choice)
      (rest : list Choice) (w : World) :
  (forall request, http_post env ollama_url request = inr resp) ->
  StatusCode resp = StatusOK ->
  ResponseBody resp = inr body ->
  json_OpenAIResponse env body = inr reply ->
  Choices reply = choice :: rest ->
  MessageContent (ChoiceMessage choice) = content ->
  fst (generateTitle env transcription w) = Done (clean_title content, None).
Proof.
  intros Hp Hs Hb Hj Hc Hm. unfold generateTitle, bind, http_Do.
  rewrite Hp, Hb, Hs, Hj, Hc, Hm. reflexivity.
Qed.

(** Every error answer gives the sentinel title, without panic. *)
Lemma generateTitle_on_error (transcription : string) (w : World) :
  (forall request,
      match http_post env ollama_url request with
      | inl _ => True
      | inr resp =>
          match ResponseBody resp with
          | inl _ => True
          | inr body =>
              StatusCode resp <> StatusOK \/
              match json_OpenAIResponse env body with
              | inl _ => True
              | inr reply => Choices reply = []
              end
          end
      end) ->
  exists err, fst (generateTitle env transcription w) = Done ("Untitled Voicemail", Some err).
Proof.
  intros H. unfold generateTitle, bind, http_Do.
  match goal with |- context [http_post env ollama_url ?rq] => specialize (H rq) end.
  destruct (http_post env ollama_url _) as [e|resp]; [eexists; reflexivity|].
  destruct (ResponseBody resp) as [e|body]; [eexists; reflexivity|].
  destruct (Z.eqb_spec (StatusCode resp) StatusOK) as [E|E]; cbn [negb];
    [|eexists; reflexivity].
  destruct H as [H|H]; [contradiction|].
  destruct (json_OpenAIResponse env body) as [e|reply]; [eexists; reflexivity|].
  rewrite H. eexists; reflexivity.
Qed.

End TitleFacts.

(** C2, at the input where the code departs from it: the completion
    service answers with the content "Title: Call from Bob" in double
    quotes; the title returned has lost the quotes and kept the label.
    An empty label leaves the blank after its colon in front of the
    title. *)
Theorem generateTitle_keeps_label :
  clean_title (dquote +:+ "Title: Call from Bob" +:+ dquote) = "Title: Call from Bob" /\
  fst (generateTitle (Scenario.env_ok Scenario.no_audio) "hello it is bob"
         Scenario.empty_world)
  = Done ("Title: Call from Bob", None) /\
  clean_title (dquote +:+ ": Call from Bob" +:+ dquote) = " Call from Bob".
Proof. vm_compute. repeat split. Qed.

(** ** The substitution of the thin no-break space *)

(** The substitution with an ordinary space, as the handler calls it. *)
Abbreviation N s := (nastyTimeRegex_ReplaceAll s " ").

Section Normalise.

Lemma N_three (x y z : ascii) (r : string) :
  N (String x (String y (String z r))) =
  if Ascii.eqb x "226" && Ascii.eqb y "128" && Ascii.eqb z "175"
  then String " " (N r)
  else String x (N (String y (String z r))).
Proof. reflexivity. Qed.

Lemma N_one (x : ascii) : N (String x "") = String x "".
Proof. reflexivity. Qed.

Lemma N_two (x y : ascii) : N (String x (String y "")) = String x (String y "").
Proof. reflexivity. Qed.





Lemma N_head (z d : ascii) (r : string) :
  HasPrefix (N (String z (String d r))) (bytes1 "175") = Ascii.eqb z "175".
Proof.
  destruct r as [|e r].
  - rewrite N_two. cbn [HasPrefix bytes1]. apply andb_true_r.
  - rewrite N_three.
    destruct (Ascii.eqb_spec z "226") as [->|Hz]; cbn [andb].
    + destruct (Ascii.eqb d "128" && Ascii.eqb e "175"); reflexivity.
    + cbn [HasPrefix bytes1]. rewrite HasPrefix_empty. apply andb_true_r.
Qed.

Lemma N_head2 (y z : ascii) (r : string) :
  HasPrefix (N (String y (String z r))) (bytes2 "128" "175")
  = Ascii.eqb y "128" && Ascii.eqb z "175".
Proof.
  destruct r as [|d r].
  - rewrite N_two. cbn [HasPrefix bytes2]. rewrite andb_true_r. reflexivity.
  - rewrite N_three.
    destruct (Ascii.eqb_spec y "226") as [->|Hy]; cbn [andb].
    + destruct (Ascii.eqb z "128" && Ascii.eqb d "175"); reflexivity.
    + change (bytes2 "128" "175") with (String "128" (bytes1 "175")).
      cbn [HasPrefix]. rewrite N_head. reflexivity.
Qed.

(** No occurrence of the sequence is left. *)
Lemma N_no_prefix (s : string) : HasPrefix (N s) nastyTime = false.
Proof.
  destruct s as [|x [|y [|z r]]]; [reflexivity | | |].
  - rewrite N_one. cbn [HasPrefix nastyTime bytes3]. apply andb_false_r.
  - rewrite N_two. cbn [HasPrefix nastyTime bytes3].
    rewrite andb_false_r. apply andb_false_r.
  - rewrite N_three.
    destruct (Ascii.eqb x "226" && Ascii.eqb y "128" && Ascii.eqb z "175") eqn:E;
      [reflexivity|].
    change nastyTime with (String "226" (bytes2 "128" "175")).
    cbn [HasPrefix]. rewrite N_head2, andb_assoc. exact E.
Qed.

Lemma N_no_occurrence_from (n : nat) :
  forall s : string, len s <= n -> occurs_nastyTime (N s) = false.
Proof.
  induction n as [n IH] using lt_wf_ind. intros s Hlen.
  destruct s as [|x t]; [reflexivity|].
  assert (Ht : occurs_nastyTime (N t) = false).
  { rewrite len_cons in Hlen. apply (IH (len t)); lia. }
  destruct t as [|y [|z r]].
  - rewrite N_one. cbn. rewrite ?andb_false_r. reflexivity.
  - rewrite N_two. cbn. rewrite ?andb_false_r. reflexivity.
  - pose proof (N_no_prefix (String x (String y (String z r)))) as Hp.
    rewrite N_three in Hp |- *.
    destruct (Ascii.eqb x "226" && Ascii.eqb y "128" && Ascii.eqb z "175").
    + cbn [occurs_nastyTime]. rewrite Hp. cbn [orb].
      rewrite !len_cons in Hlen. apply (IH (len r)); lia.
    + cbn [occurs_nastyTime]. rewrite Hp. exact Ht.
Qed.

Lemma N_no_occurrence (s : string) : occurs_nastyTime (N s) = false.
Proof. apply (N_no_occurrence_from (len s)). lia. Qed.

(** A text without the sequence is left as it is. *)
Lemma N_fixed (s : string) : occurs_nastyTime s = false -> N s = s.
Proof.
  induction s as [|x t IH]; intros H; [reflexivity|].
  cbn [occurs_nastyTime] in H. apply orb_false_elim in H as [Hp Ht].
  specialize (IH Ht).
  destruct t as [|y [|z r]]; [reflexivity | reflexivity |].
  rewrite N_three, IH.
  cbn [HasPrefix nastyTime bytes3] in Hp.
  rewrite HasPrefix_empty, andb_true_r, andb_assoc in Hp.
  rewrite Hp. reflexivity.
Qed.

Lemma N_idempotent (s : string) : N (N s) = N s.
Proof. apply N_fixed, N_no_occurrence. Qed.





End Normalise.

(** ** Worked examples *)

Section Examples.
Import Base64 Scenario.

Example example_extract_phone :
  extractPhoneNumber "Call me at (415) 555-1234" = Done "(415) 555-1234".
Proof. vm_compute. reflexivity. Qed.

Example example_extract_joke : extractPhoneNumber "from +1 704-555-1290 x" = Done "I HATE THIS MAN".
Proof. vm_compute. reflexivity. Qed.

Example example_extract_short : extractPhoneNumber "hello 12345" = Done "".
Proof. vm_compute. reflexivity. Qed.

(** The optional leading 1 is given back when ten digits would not be left. *)
Example submatch_backtracks :
  FindStringSubmatch phoneRegex phoneRegex_groups "1123456789"
  = ["1123456789"; "112"; "345"; "6789"].
Proof. vm_compute. reflexivity. Qed.

Example submatch_leftmost :
  FindStringSubmatch phoneRegex phoneRegex_groups "a 1 (415)555.1234567"
  = ["1 (415)555.1234"; "415"; "555"; "1234"].
Proof. vm_compute. reflexivity. Qed.

(** The test vectors of RFC 4648. *)
Example base64_vectors :
  map StdEncoding.EncodeToString ["f"; "fo"; "foo"; "foob"; "fooba"; "foobar"]
  = ["Zg=="; "Zm8="; "Zm9v"; "Zm9vYg=="; "Zm9vYmE="; "Zm9vYmFy"].
Proof. vm_compute. reflexivity. Qed.

Example base64_rejects :
  StdEncoding.DecodeString "Zm9vYmE" = inl (CorruptInputError 4) /\
  StdEncoding.DecodeString "Zg==x" = inl (CorruptInputError 4) /\
  StdEncoding.DecodeString "Z*==" = inl (CorruptInputError 1) /\
  StdEncoding.DecodeString ("Zm9v" +:+ bytes1 "010" +:+ "YmFy") = inr "foobar".
Proof. vm_compute. repeat split. Qed.

Example clean_paths :
  Filepath.Join attachmentDir "abc.mp3" = "data/mp3s/abc.mp3" /\
  Filepath.Ext "data/mp3s/abc.mp3" = ".mp3" /\
  Filepath.Clean "/a/../../b/./c//d/.." = "/b/c".
Proof. vm_compute. repeat split. Qed.

Example trim_space_unicode :
  TrimSpace (" " +:+ nastyTime +:+ " ab c " +:+ bytes1 "010") = "ab c".
Proof. vm_compute. reflexivity. Qed.

(** A voicemail goes through: the record is stored with the title the
    completion service gave, cleaned by [clean_title]. *)
Example ingest_voicemail :
  let email := voicemail "Call me at (415) 555-1234" "aGVsbG8=" in
  let '(result, w') := webhookHandler (env_ok email) (post "{}") empty_world in
  result = Done (success_response "AAECAwQFBgcICQoLDA0ODw==") /\
  recordings w' =
    [mkRecording "AAECAwQFBgcICQoLDA0ODw==" "(415) 555-1234"
       "Monday, January 6, 2025 at 3:04:05 PM" "Voice.MP3"
       "data/mp3s/AAECAwQFBgcICQoLDA0ODw==.mp3" 5 "hello it is bob"
       "Title: Call from Bob"] /\
  (files w' !! "data/mp3s/AAECAwQFBgcICQoLDA0ODw==.mp3") = Some "hello".
Proof. vm_compute. repeat split. Qed.

(** Without the speech recognition tool the record carries the
    placeholder and the sentinel, and no request is sent. *)
Example ingest_without_whisper :
  let email := voicemail "no number here" "aGVsbG8=" in
  let '(result, w') :=
    webhookHandler (without_whisper (env_ok email)) (post "{}") empty_world in
  recordings w' =
    [mkRecording "AAECAwQFBgcICQoLDA0ODw==" "Unknown"
       "Monday, January 6, 2025 at 3:04:05 PM" "Voice.MP3"
       "data/mp3s/AAECAwQFBgcICQoLDA0ODw==.mp3" 5
       "Transcription failed: whisper.cpp not found in PATH: exec: not found"
       "Untitled Voicemail"] /\
  trace w' = [].
Proof. vm_compute. repeat split. Qed.

(** A message with thin no-break spaces in the subject, the date and
    the file name: the decoder, which knows the document with ordinary
    spaces only, reads it, and the row holds the spaces. *)
Example webhook_thin_spaces :
  let email :=
    message_of "Call 415 555 1234" "bob@example.com"
      "Monday, January 6, 2025 at 3:04:05 PM" [("Voice memo.MP3", "aGVsbG8=")] in
  let env :=
    with_decoder
      (jsonData "Call 415 555 1234" "bob@example.com"
         "Monday, January 6, 2025 at 3:04:05 PM" [("Voice memo.MP3", "aGVsbG8=")])
      email (env_ok no_audio) in
  let body :=
    jsonData ("Call" +:+ nastyTime +:+ "415 555 1234") "bob@example.com"
      ("Monday, January 6, 2025 at 3:04:05" +:+ nastyTime +:+ "PM")
      [("Voice" +:+ nastyTime +:+ "memo.MP3", "aGVsbG8=")] in
  recordings (snd (webhookHandler env (post body) empty_world))
  = [mkRecording "AAECAwQFBgcICQoLDA0ODw==" "(415) 555-1234"
       "Monday, January 6, 2025 at 3:04:05 PM" "Voice memo.MP3"
       "data/mp3s/AAECAwQFBgcICQoLDA0ODw==.mp3" 5 "hello it is bob"
       "Title: Call from Bob"].
Proof. vm_compute. reflexivity. Qed.

(** Well-formed and ill-formed UTF-8: two, three and four byte
    sequences; an overlong form, a surrogate, a code point above
    U+10FFFF, a lone continuation byte and a cut sequence. *)
Example utf8_vectors :
  utf8_ValidString ("caf" +:+ bytes2 "195" "169") = true /\
  utf8_ValidString nastyTime = true /\
  utf8_ValidString (String "240" (bytes3 "159" "142" "181")) = true /\
  utf8_ValidString (bytes2 "192" "128") = false /\
  utf8_ValidString (bytes3 "237" "160" "128") = false /\
  utf8_ValidString (String "244" (bytes3 "144" "128" "128")) = false /\
  utf8_ValidString ("a" +:+ bytes1 "128") = false /\
  utf8_ValidString (bytes2 "226" "128") = false.
Proof. vm_compute. repeat split. Qed.

(** [http.Dir] of a recent release refuses a name that is not UTF-8,
    and the answer is a 500 although the file is there. *)
Example play_unsafe_name :
  let path := "data/mp3s/a" +:+ bytes1 "255" +:+ "b.mp3" in
  let row := mkRecording "odd" "Unknown" "2025-01-06 15:04:05" "Voice.MP3" path 5 "" "" in
  fst (playHandler (env_ok no_audio) (play "odd")
         (mkWorld (<[path := "hello"]> ∅) [row] 1 []))
  = Done (mkResponse StatusInternalServerError
            [("Content-Type", "text/plain; charset=utf-8");
             ("Content-Disposition", "inline"); ("X-Content-Type-Options", "nosniff")]
            (BodyText ("500 Internal Server Error" +:+ bytes1 "010"))).
Proof. vm_compute. reflexivity. Qed.

(** A stored recording is played. *)
Example play_stored :
  fst (playHandler (env_ok no_audio) (play "abc") world_with_stored)
  = Done (mkResponse StatusOK
            [("Content-Type", "audio/mpeg"); ("Content-Disposition", "inline");
             ("Last-Modified", "Mon, 06 Jan 2025 15:04:05 GMT");
             ("Accept-Ranges", "bytes"); ("Content-Length", "5")]
            (BodyFile "hello")).
Proof. vm_compute. reflexivity. Qed.

(** The same with the method HEAD: the header lines without the body. *)
Example play_head :
  fst (playHandler (env_ok no_audio) (mkRequest "HEAD" "/api/play/abc" (inr ""))
         world_with_stored)
  = Done (mkResponse StatusOK
            [("Content-Type", "audio/mpeg"); ("Content-Disposition", "inline");
             ("Last-Modified", "Mon, 06 Jan 2025 15:04:05 GMT");
             ("Accept-Ranges", "bytes"); ("Content-Length", "5")]
            (BodyText "")).
Proof. vm_compute. reflexivity. Qed.

(** Opening fails for lack of descriptors while [stat] still answers:
    [mapOpenError] finds a file at the end of the path and no
    directory, and the answer is a 404. *)
Example play_no_descriptors :
  fst (playHandler (with_fs_fault no_descriptors (env_ok no_audio)) (play "abc")
         world_with_stored)
  = Done (mkResponse StatusNotFound
            [("Content-Type", "text/plain; charset=utf-8");
             ("Content-Disposition", "inline"); ("X-Content-Type-Options", "nosniff")]
            (BodyText ("404 page not found" +:+ bytes1 "010"))).
Proof. vm_compute. reflexivity. Qed.

(** On a failing disk the answer is a 500. *)
Example play_500 :
  fst (playHandler (with_fs_fault io_errors (env_ok no_audio)) (play "abc")
         world_with_stored)
  = Done (mkResponse StatusInternalServerError
            [("Content-Type", "text/plain; charset=utf-8");
             ("Content-Disposition", "inline"); ("X-Content-Type-Options", "nosniff")]
            (BodyText ("500 Internal Server Error" +:+ bytes1 "010"))).
Proof. vm_compute. reflexivity. Qed.

(** An error answer of the completion service gives the sentinel title. *)
Example title_on_error :
  fst (generateTitle
         (with_http (inr (mkHTTPResponse 503 (inr "overloaded"))) (env_ok no_audio))
         "hello it is bob" empty_world)
  = Done ("Untitled Voicemail",
          Some (ErrText "Ollama API error (status 503): overloaded")).
Proof. vm_compute. reflexivity. Qed.

End Examples.

(** * Further properties *)

(** ** The extractor on its own output, and its two versions *)

Section ExtractorMore.

Lemma three_bytes (p : ascii -> bool) (a : string) :
  len a = 3 -> all_bytes p a = true ->
  exists a1 a2 a3,
    a = String a1 (String a2 (String a3 "")) /\
    p a1 = true /\ p a2 = true /\ p a3 = true.
Proof.
  destruct a as [|a1 [|a2 [|a3 [|a4 a]]]]; intros Hl Hd; try discriminate.
  simpl in Hd. repeat (apply andb_prop in Hd as [? Hd]). eauto 10.
Qed.

Lemma four_bytes (p : ascii -> bool) (a : string) :
  len a = 4 -> all_bytes p a = true ->
  exists a1 a2 a3 a4,
    a = String a1 (String a2 (String a3 (String a4 ""))) /\
    p a1 = true /\ p a2 = true /\ p a3 = true /\ p a4 = true.
Proof.
  destruct a as [|a1 [|a2 [|a3 [|a4 [|a5 a]]]]]; intros Hl Hd; try discriminate.
  simpl in Hd. repeat (apply andb_prop in Hd as [? Hd]). eauto 12.
Qed.

(** The pattern on a number in the format of the extractor: the match
    starts at the first byte and the groups are the three digit runs. *)
Lemma formatted_submatch (a b c : string) :
  len a = 3 -> all_bytes digit a = true ->
  len b = 3 -> all_bytes digit b = true ->
  len c = 4 -> all_bytes digit c = true ->
  FindStringSubmatch phoneRegex phoneRegex_groups
    ("(" +:+ a +:+ ") " +:+ b +:+ "-" +:+ c)
  = ["(" +:+ a +:+ ") " +:+ b +:+ "-" +:+ c; a; b; c].
Proof.
  intros La Da Lb Db Lc Dc.
  destruct (three_bytes _ _ La Da) as (a1 & a2 & a3 & -> & Ha1 & Ha2 & Ha3).
  destruct (three_bytes _ _ Lb Db) as (b1 & b2 & b3 & -> & Hb1 & Hb2 & Hb3).
  destruct (four_bytes _ _ Lc Dc) as (c1 & c2 & c3 & c4 & -> & Hc1 & Hc2 & Hc3 & Hc4).
  unfold FindStringSubmatch, phoneRegex_groups.
  rewrite ?app_cons, ?app_empty_l.
  match goal with
  | |- context [search phoneRegex ?s] =>
      assert (Hs : search phoneRegex s
                   = Some (s, <[3 := String c1 (String c2 (String c3 (String c4 "")))]>
                                (<[2 := String b1 (String b2 (String b3 ""))]>
                                   (<[1 := String a1 (String a2 (String a3 ""))]> ∅))))
  end.
  { unfold search, match_here, phoneRegex. cbn -[insert empty digit].
    rewrite Ha1, Ha2, Ha3, Hb1, Hb2, Hb3, Hc1, Hc2, Hc3, Hc4.
    cbn -[insert empty digit]. reflexivity. }
  rewrite Hs. cbn [seq map]. simplify_map_eq. reflexivity.
Qed.

Lemma count_bytes_app (p : ascii -> bool) (s t : string) :
  count_bytes p (s +:+ t) = count_bytes p s + count_bytes p t.
Proof.
  induction s as [|a s IH]; [reflexivity|].
  rewrite app_cons. cbn [count_bytes]. rewrite IH. lia.
Qed.

Lemma count_bytes_all (p : ascii -> bool) (s : string) :
  all_bytes p s = true -> count_bytes p s = len s.
Proof.
  induction s as [|a s IH]; [reflexivity|]. cbn [all_bytes count_bytes].
  intros H. apply andb_prop in H as [Ha Hs]. rewrite Ha, (IH Hs). reflexivity.
Qed.

(** A match consumes a prefix of the input. *)
Lemma matches_consumes (r : re) (s s' : string) (c c' : gmap nat string) :
  matches r s c s' c' -> exists t, s = t +:+ s'.
Proof.
  induction 1.
  - exists (String a ""). reflexivity.
  - exists (String b ""). reflexivity.
  - assumption.
  - exists "". reflexivity.
  - exists "". reflexivity.
  - destruct IHmatches as (t & ->). exists (String b t). reflexivity.
  - exists "". reflexivity.
  - destruct IHmatches1 as (t1 & ->), IHmatches2 as (t2 & ->).
    exists (t1 +:+ t2). now rewrite app_assoc_str.
  - assumption.
  - destruct IHmatches1 as (t1 & ->), IHmatches2 as (t2 & ->).
    exists (t1 +:+ t2). now rewrite app_assoc_str.
Qed.

Lemma matches_count (p : ascii -> bool) (r : re) (s s' : string) (c c' : gmap nat string) :
  matches r s c s' c' -> count_bytes p s' <= count_bytes p s.
Proof.
  intros H. destruct (matches_consumes _ _ _ _ _ H) as (t & ->).
  rewrite count_bytes_app. lia.
Qed.

(** A match of the phone pattern holds ten digits. *)
Lemma phone_match_ten_digits (s s' : string) (c c' : gmap nat string) :
  matches phoneRegex s c s' c' -> 10 <= count_bytes digit s.
Proof.
  unfold phoneRegex. intros H.
  repeat match goal with
         | Hm : matches (_ >>> _) _ _ _ _ |- _ => inversion Hm; subst; clear Hm
         end.
  repeat match goal with
         | Hm : matches (Grp _ _) _ _ _ _ |- _ =>
             apply matches_group_digits in Hm;
             destruct Hm as (? & ? & ? & ?%count_bytes_all & ?)
         | Hm : matches (Opt _) _ _ _ _ |- _ => apply (matches_count digit) in Hm
         | Hm : matches (Star _) _ _ _ _ |- _ => apply (matches_count digit) in Hm
         end.
  subst. rewrite !count_bytes_app in *. lia.
Qed.

Lemma submatch_needs_ten_digits (s : string) :
  count_bytes digit s < 10 ->
  FindStringSubmatch phoneRegex phoneRegex_groups s = [].
Proof.
  intros Hc. unfold FindStringSubmatch.
  destruct (search phoneRegex s) as [[whole c]|] eqn:E; [|reflexivity].
  apply search_sound in E. destruct E as (pre & s0 & s' & -> & Hm & _).
  apply phone_match_ten_digits in Hm. rewrite count_bytes_app in Hc. lia.
Qed.

Lemma backend_extract_on_match (s whole g1 g2 g3 : string) :
  FindStringSubmatch phoneRegex phoneRegex_groups s = [whole; g1; g2; g3] ->
  BackendMain.extractPhoneNumber s = Done ("(" +:+ g1 +:+ ") " +:+ g2 +:+ "-" +:+ g3).
Proof. intros Hm. unfold BackendMain.extractPhoneNumber. rewrite Hm. reflexivity. Qed.

End ExtractorMore.

(** X1: the extractor leaves its own output alone.  A result other
    than the fixed string of the special case, extracted again, gives
    itself: the empty string stays empty and a formatted number is read
    back group by group.  The fixed string itself holds no number. *)
Theorem extractPhoneNumber_idempotent :
  forall s r : string,
    extractPhoneNumber s = Done r ->
    r <> "I HATE THIS MAN" ->
    extractPhoneNumber r = Done r /\
    extractPhoneNumber "I HATE THIS MAN" = Done "".
Proof.
  intros s r Hs Hr. split; [|vm_compute; reflexivity].
  destruct (phone_submatch_shape s)
    as [Hm | (whole & g1 & g2 & g3 & Hm & [L1 D1] & [L2 D2] & [L3 D3])].
  - rewrite (extract_no_match _ Hm) in Hs. inversion Hs; subst r.
    vm_compute; reflexivity.
  - rewrite (extract_on_match _ _ _ _ _ Hm) in Hs by lia.
    destruct (String.eqb g1 "704" && String.eqb (drop 2 g3) "90") eqn:E;
      inversion Hs; subst r; [contradiction|].
    rewrite (extract_on_match _ _ _ _ _ (formatted_submatch _ _ _ L1 D1 L2 D2 L3 D3))
      by lia.
    rewrite E. reflexivity.
Qed.

Lemma extractPhoneNumber_idempotent_witness :
  extractPhoneNumber "(415) 555-1234" = Done "(415) 555-1234" /\
  extractPhoneNumber "I HATE THIS MAN" = Done "".
Proof.
  apply (extractPhoneNumber_idempotent "call 1 415.555.1234 back" "(415) 555-1234").
  - vm_compute; reflexivity.
  - discriminate.
Defined.

(** X2: a text with fewer than ten decimal digits holds no phone
    number: the extractor returns the empty string, which the webhook
    handler stores as Unknown. *)
Theorem extractPhoneNumber_needs_ten_digits :
  forall s : string,
    count_bytes digit s < 10 ->
    extractPhoneNumber s = Done "".
Proof.
  intros s Hc. apply extract_no_match. now apply submatch_needs_ten_digits.
Qed.

Lemma extractPhoneNumber_needs_ten_digits_witness :
  extractPhoneNumber "Voicemail from 555-1234 (3 min)" = Done "".
Proof.
  apply (extractPhoneNumber_needs_ten_digits "Voicemail from 555-1234 (3 min)").
  vm_compute. lia.
Defined.

(** X3: the extractor of the server and the earlier one of
    backend/main.go give the same result on every input, except where
    the server answers with the fixed string of its special case: there
    the earlier version returns a formatted number of area code 704
    whose last two digits are 90. *)
Theorem extractPhoneNumber_versions :
  forall s : string,
    extractPhoneNumber s = BackendMain.extractPhoneNumber s \/
    (extractPhoneNumber s = Done "I HATE THIS MAN" /\
     exists b c : string,
       len b = 3 /\ len c = 2 /\
       BackendMain.extractPhoneNumber s = Done ("(704) " +:+ b +:+ "-" +:+ c +:+ "90")).
Proof.
  intros s.
  destruct (phone_submatch_shape s)
    as [Hm | (whole & g1 & g2 & g3 & Hm & [L1 D1] & [L2 D2] & [L3 D3])].
  - left. rewrite (extract_no_match _ Hm).
    unfold BackendMain.extractPhoneNumber. rewrite Hm. reflexivity.
  - rewrite (extract_on_match _ _ _ _ _ Hm) by lia.
    rewrite (backend_extract_on_match _ _ _ _ _ Hm).
    destruct (String.eqb_spec g1 "704") as [->|_]; [|left; reflexivity].
    destruct (String.eqb_spec (drop 2 g3) "90") as [E|_]; [|left; reflexivity].
    right. split; [reflexivity|].
    destruct g3 as [|c1 [|c2 [|c3 [|c4 [|c5 g3]]]]]; try discriminate.
    cbn [drop] in E. inversion E; subst.
    exists g2, (String c1 (String c2 "")). repeat split; auto.
Qed.

(** ** Identifiers and the paths made of them *)

Section IdentifierShape.
Import Base64.

Lemma string_ind3 (P : string -> Prop) :
  P "" ->
  (forall x, P (String x "")) ->
  (forall x y, P (String x (String y ""))) ->
  (forall x y z rest, P rest -> P (String x (String y (String z rest)))) ->
  forall s, P s.
Proof.
  intros H0 H1 H2 H3.
  fix IH 1. intros [|x [|y [|z rest]]]; [apply H0 | apply H1 | apply H2 |].
  apply H3. apply IH.
Qed.

Lemma encode_at_id_byte (b0 b1 b2 b3 b4 b5 : bool) :
  id_byte (encode_at encodeURL (Ascii b0 b1 b2 b3 b4 b5 false false)) = true.
Proof. destruct b0, b1, b2, b3, b4, b5; vm_compute; reflexivity. Qed.

(** The URL encoding writes letters, digits, minus, underscore and the
    padding only. *)
Lemma encodeURL_id_bytes (src : string) :
  all_bytes id_byte (URLEncoding.EncodeToString src) = true.
Proof.
  unfold URLEncoding.EncodeToString.
  induction src as [|x|x y|x y z rest IH] using string_ind3.
  - reflexivity.
  - destruct x as [x0 x1 x2 x3 x4 x5 x6 x7].
    cbn [EncodeToString split3 zero all_bytes]. rewrite !encode_at_id_byte. reflexivity.
  - destruct x as [x0 x1 x2 x3 x4 x5 x6 x7], y as [y0 y1 y2 y3 y4 y5 y6 y7].
    cbn [EncodeToString split3 zero all_bytes]. rewrite !encode_at_id_byte. reflexivity.
  - destruct x as [x0 x1 x2 x3 x4 x5 x6 x7], y as [y0 y1 y2 y3 y4 y5 y6 y7],
      z as [z0 z1 z2 z3 z4 z5 z6 z7].
    cbn [EncodeToString split3 zero all_bytes]. rewrite !encode_at_id_byte, IH. reflexivity.
Qed.

(** Every three bytes, and the one or two left over, give four. *)
Lemma encode_len (alphabet src : string) :
  len (EncodeToString alphabet src) = 4 * ((len src + 2) / 3).
Proof.
  induction src as [|x|x y|x y z rest IH] using string_ind3; try reflexivity.
  - cbn [EncodeToString]. destruct (split3 x zero zero) as [[[a b] c] d]. reflexivity.
  - cbn [EncodeToString]. destruct (split3 x y zero) as [[[a b] c] d]. reflexivity.
  - cbn [EncodeToString]. destruct (split3 x y z) as [[[a b] c] d].
    rewrite !len_cons, IH.
    replace (S (S (S (len rest))) + 2) with ((len rest + 2) + 1 * 3) by lia.
    rewrite Nat.div_add by lia. lia.
Qed.

Lemma len_string_of_list_ascii (l : list ascii) :
  len (string_of_list_ascii l) = length l.
Proof. induction l as [|a l IH]; [reflexivity|]. simpl. now rewrite IH. Qed.

Lemma uint_digits (d : Decimal.uint) :
  all_bytes digit (NilEmpty.string_of_uint d) = true.
Proof. induction d; simpl; auto. Qed.

Lemma digit_id_byte (a : ascii) : digit a = true -> id_byte a = true.
Proof. unfold digit, id_byte. intros ->. now rewrite !orb_true_r. Qed.

Lemma all_bytes_impl (p q : ascii -> bool) (s : string) :
  (forall a, p a = true -> q a = true) ->
  all_bytes p s = true -> all_bytes q s = true.
Proof.
  intros Hpq. induction s as [|a s IH]; [reflexivity|]. cbn [all_bytes].
  intros H. apply andb_prop in H as [Ha Hs]. now rewrite (Hpq _ Ha), IH.
Qed.

Lemma all_bytes_app (p : ascii -> bool) (s t : string) :
  all_bytes p (s +:+ t) = all_bytes p s && all_bytes p t.
Proof.
  induction s as [|a s IH]; [reflexivity|].
  rewrite app_cons. cbn [all_bytes]. rewrite IH. now rewrite andb_assoc.
Qed.

(** A decimal number is written with digits and a minus sign. *)
Lemma itoa_id_bytes (z : Z) : all_bytes id_byte (itoa z) = true.
Proof.
  unfold itoa, NilZero.string_of_int, NilZero.string_of_uint.
  destruct (Z.to_int z) as [d|d].
  - destruct d; try reflexivity;
      apply (all_bytes_impl digit); auto using digit_id_byte, uint_digits.
  - cbn [all_bytes]. change (id_byte "-") with true. cbn [andb].
    destruct d; try reflexivity;
      apply (all_bytes_impl digit); auto using digit_id_byte, uint_digits.
Qed.

Lemma generated_id_bytes (env : Env) (k : nat) :
  all_bytes id_byte (generated_id env k) = true.
Proof.
  unfold generated_id. destruct (rand_read env k) as [e|b];
    [apply itoa_id_bytes | apply encodeURL_id_bytes].
Qed.

Lemma generated_id_len (env : Env) (k : nat) (b : nat -> ascii) :
  rand_read env k = inr b -> len (generated_id env k) = 24.
Proof.
  intros H. unfold generated_id, URLEncoding.EncodeToString. rewrite H.
  rewrite encode_len, len_string_of_list_ascii, length_map, length_seq. reflexivity.
Qed.

End IdentifierShape.

Section PathFacts.
Import Filepath.

Lemma split_on_plain (sep : ascii -> bool) :
  forall s cur : string,
    all_bytes (fun a => negb (sep a)) s = true ->
    split_on sep s cur = [cur +:+ s].
Proof.
  induction s as [|a s IH]; intros cur H.
  - now rewrite app_empty_r.
  - cbn [all_bytes] in H. apply andb_prop in H as [Ha Hs].
    cbn [split_on]. destruct (sep a); [discriminate|].
    rewrite (IH _ Hs), app_assoc_str. reflexivity.
Qed.

Lemma split_on_sep (sep : ascii -> bool) (a : ascii) (rest : string) :
  sep a = true ->
  forall s cur : string,
    all_bytes (fun a => negb (sep a)) s = true ->
    split_on sep (s +:+ String a rest) cur = (cur +:+ s) :: split_on sep rest "".
Proof.
  intros Hsep. induction s as [|b s IH]; intros cur H.
  - rewrite app_empty_l, app_empty_r. cbn [split_on]. now rewrite Hsep.
  - cbn [all_bytes] in H. apply andb_prop in H as [Hb Hs].
    rewrite app_cons. cbn [split_on]. destruct (sep b); [discriminate|].
    rewrite (IH _ Hs), app_assoc_str. reflexivity.
Qed.

Lemma id_byte_plain (a : ascii) :
  id_byte a = true ->
  negb (is_slash a) = true /\ negb (is_slash_rune a) = true /\ negb (Ascii.eqb a ".") = true.
Proof.
  destruct a as [[] [] [] [] [] [] [] []]; vm_compute; intros H;
    try discriminate; auto.
Qed.

(** [filepath.Join] with the directory of the recordings: a name
    without a slash that is none of the special elements is put behind
    the cleaned directory. *)
Lemma Join_attachmentDir (name : string) :
  all_bytes (fun a => negb (is_slash a)) name = true ->
  3 <= len name ->
  Join attachmentDir name = "data/mp3s/" +:+ name.
Proof.
  intros Hplain Hlen. unfold Join, attachmentDir.
  assert (E0 : String.eqb name "" = false)
    by (apply String.eqb_neq; intros ->; simpl in Hlen; lia).
  assert (E1 : String.eqb name "." = false)
    by (apply String.eqb_neq; intros ->; simpl in Hlen; lia).
  assert (E2 : String.eqb name ".." = false)
    by (apply String.eqb_neq; intros ->; simpl in Hlen; lia).
  rewrite E0. cbn [String.eqb andb].
  change ("./data/mp3s" +:+ "/" +:+ name)
    with ("." +:+ String "/" ("data" +:+ String "/" ("mp3s" +:+ String "/" name))).
  unfold Clean.
  rewrite !(split_on_sep is_slash "/") by reflexivity.
  rewrite (split_on_plain is_slash) by exact Hplain.
  rewrite !app_empty_l.
  cbn [HasPrefix clean_elems String.eqb Ascii.eqb Bool.eqb orb].
  rewrite E0, E1, E2. cbn [orb clean_elems rev app join_elems].
  change (String.eqb ("data" +:+ "/" +:+ "mp3s" +:+ "/" +:+ name) "") with false.
  reflexivity.
Qed.

(** [filepath.Split] cuts at the last slash. *)
Lemma Split_plain :
  forall file : string,
    all_bytes (fun a => negb (is_slash a)) file = true -> Split file = ("", file).
Proof.
  induction file as [|a file IH]; intros H; [reflexivity|].
  cbn [all_bytes] in H. apply andb_prop in H as [Ha Hs].
  cbn [Split]. rewrite (IH Hs). cbn [String.eqb].
  destruct (is_slash a); [discriminate | reflexivity].
Qed.

Lemma Split_dir (file : string) :
  all_bytes (fun a => negb (is_slash a)) file = true ->
  forall dir : string, Split (dir +:+ String "/" file) = (dir +:+ "/", file).
Proof.
  intros H. induction dir as [|a dir IH].
  - rewrite !app_empty_l. cbn [Split]. rewrite (Split_plain file H). reflexivity.
  - rewrite !app_cons. cbn [Split]. rewrite IH.
    destruct dir; rewrite ?app_empty_l, ?app_cons; reflexivity.
Qed.

(** [Dir.Open] takes a file name without a slash as it is. *)
Lemma Dir_path_plain (name : string) :
  all_bytes (fun a => negb (is_slash a)) name = true ->
  3 <= len name ->
  Dir_path name = name.
Proof.
  intros Hplain Hlen.
  assert (E0 : String.eqb name "" = false)
    by (apply String.eqb_neq; intros ->; simpl in Hlen; lia).
  assert (E1 : String.eqb name "." = false)
    by (apply String.eqb_neq; intros ->; simpl in Hlen; lia).
  assert (E2 : String.eqb name ".." = false)
    by (apply String.eqb_neq; intros ->; simpl in Hlen; lia).
  unfold Dir_path. cbv zeta.
  assert (Hclean : drop 1 (Clean ("/" +:+ name)) = name).
  { change ("/" +:+ name) with ("" +:+ String "/" name). unfold Clean.
    rewrite (split_on_sep is_slash "/") by reflexivity.
    rewrite (split_on_plain is_slash) by exact Hplain.
    rewrite !app_empty_l.
    cbn [HasPrefix clean_elems String.eqb Ascii.eqb Bool.eqb orb].
    rewrite ?E0, ?E1, ?E2, HasPrefix_empty.
    cbn [orb andb clean_elems rev app join_elems].
    change ("/" +:+ name) with (String "/" name). reflexivity. }
  rewrite Hclean, E0. reflexivity.
Qed.

(** [http.ServeFile] opens the file of a recording under the name the
    program gave it. *)
Lemma served_name_attachmentDir (name : string) :
  all_bytes (fun a => negb (is_slash a)) name = true ->
  3 <= len name ->
  served_name ("data/mp3s/" +:+ name) = "data/mp3s/" +:+ name.
Proof.
  intros Hplain Hlen. unfold served_name.
  change ("data/mp3s/" +:+ name) with ("data/mp3s" +:+ String "/" name).
  rewrite (Split_dir name Hplain). cbn [fst snd].
  change ("data/mp3s" +:+ "/") with "data/mp3s/".
  assert (E0 : String.eqb name "" = false)
    by (apply String.eqb_neq; intros ->; simpl in Hlen; lia).
  assert (E1 : String.eqb name "." = false)
    by (apply String.eqb_neq; intros ->; simpl in Hlen; lia).
  assert (E2 : String.eqb name ".." = false)
    by (apply String.eqb_neq; intros ->; simpl in Hlen; lia).
  unfold Dir_fullName. cbv zeta. rewrite (Dir_path_plain name Hplain Hlen).
  cbn [String.eqb].
  unfold Join. rewrite E0. cbn [String.eqb andb].
  change ("data/mp3s/" +:+ "/" +:+ name)
    with ("data" +:+ String "/" ("mp3s" +:+ String "/" ("" +:+ String "/" name))).
  unfold Clean.
  rewrite !(split_on_sep is_slash "/") by reflexivity.
  rewrite (split_on_plain is_slash) by exact Hplain.
  rewrite !app_empty_l.
  cbn [HasPrefix clean_elems String.eqb Ascii.eqb Bool.eqb orb].
  rewrite E0, E1, E2. cbn [orb clean_elems rev app join_elems].
  change (String.eqb ("data" +:+ "/" +:+ "mp3s" +:+ "/" +:+ name) "") with false.
  reflexivity.
Qed.

Lemma served_name_recording (id : string) :
  all_bytes id_byte id = true ->
  served_name ("data/mp3s/" +:+ id +:+ ".mp3") = "data/mp3s/" +:+ id +:+ ".mp3".
Proof.
  intros H. apply served_name_attachmentDir.
  - rewrite all_bytes_app. apply andb_true_intro. split; [|reflexivity].
    apply (all_bytes_impl id_byte); [|exact H]. intros a Ha. now apply id_byte_plain.
  - rewrite len_app. simpl. lia.
Qed.

(** A text of ASCII bytes is UTF-8, and [Dir.Open] takes it when it
    holds no NUL. *)
Lemma ascii_unsafe_path (env : Env) :
  forall s : string,
    all_bytes (fun a => Ascii.leb a "127" && negb (Ascii.eqb "000" a)) s = true ->
    existsb (Ascii.eqb "000") (list_ascii_of_string s) = false /\
    utf8_ValidString s = true.
Proof.
  induction s as [|a s IH]; intros H; [split; reflexivity|].
  cbn [all_bytes] in H. apply andb_prop in H as [Ha Hs].
  apply andb_prop in Ha as [H1 H2]. destruct (IH Hs) as [IH1 IH2].
  cbn [list_ascii_of_string existsb utf8_ValidString].
  rewrite H1, IH1, IH2. apply negb_true_iff in H2. rewrite H2. split; reflexivity.
Qed.

Lemma id_byte_ascii (a : ascii) :
  id_byte a = true -> Ascii.leb a "127" && negb (Ascii.eqb "000" a) = true.
Proof.
  destruct a as [[] [] [] [] [] [] [] []]; vm_compute; intros H;
    try discriminate; reflexivity.
Qed.

Lemma unsafe_path_recording (env : Env) (id : string) :
  all_bytes id_byte id = true ->
  unsafe_path env (Dir_path (snd (Split ("data/mp3s/" +:+ id +:+ ".mp3")))) = false.
Proof.
  intros H.
  assert (Hplain : all_bytes (fun a => negb (is_slash a)) (id +:+ ".mp3") = true).
  { rewrite all_bytes_app. apply andb_true_intro. split; [|reflexivity].
    apply (all_bytes_impl id_byte); [|exact H]. intros a Ha. now apply id_byte_plain. }
  change ("data/mp3s/" +:+ id +:+ ".mp3") with ("data/mp3s" +:+ String "/" (id +:+ ".mp3")).
  rewrite (Split_dir _ Hplain). cbn [snd].
  rewrite Dir_path_plain by (try exact Hplain; rewrite len_app; simpl; lia).
  destruct (ascii_unsafe_path env (id +:+ ".mp3")) as [H0 H8].
  { rewrite all_bytes_app. apply andb_true_intro. split; [|reflexivity].
    apply (all_bytes_impl id_byte); [|exact H]. intros a Ha. now apply id_byte_ascii. }
  unfold unsafe_path. rewrite H0, H8. apply andb_false_r.
Qed.

(** The file of the recording with identifier [id]. *)
Lemma recording_path (id : string) :
  all_bytes id_byte id = true ->
  Join attachmentDir (id +:+ ".mp3") = "data/mp3s/" +:+ id +:+ ".mp3".
Proof.
  intros H. apply Join_attachmentDir.
  - rewrite all_bytes_app. apply andb_true_intro. split; [|reflexivity].
    apply (all_bytes_impl id_byte); [|exact H]. intros a Ha. now apply id_byte_plain.
  - rewrite len_app. simpl. lia.
Qed.

Lemma Ext_suffix (e : string) :
  Ext e = e -> e <> "" -> forall x : string, Ext (x +:+ e) = e.
Proof.
  intros He Hne. induction x as [|a x IH]; [exact He|].
  rewrite app_cons. cbn [Ext]. rewrite IH. destruct e; [contradiction | reflexivity].
Qed.

Lemma HasSuffix_app (x p : string) : HasSuffix (x +:+ p) p = true.
Proof.
  unfold HasSuffix. rewrite len_app.
  replace (len x + len p - len p) with (len x) by lia.
  apply andb_true_intro. split; [apply Nat.leb_le; lia|].
  apply String.eqb_eq. induction x as [|a x IH]; [reflexivity | exact IH].
Qed.

Lemma TrimSuffix_app (x p : string) : TrimSuffix (x +:+ p) p = x.
Proof.
  unfold TrimSuffix. rewrite HasSuffix_app, len_app.
  replace (len x + len p - len p) with (len x) by lia. apply take_app_exact.
Qed.

(** The two files [transcribeAudio] works with, for an MP3 file. *)
Lemma wavPath_mp3 (x : string) : wavPath (x +:+ ".mp3") = x +:+ ".wav".
Proof.
  unfold wavPath. rewrite (Ext_suffix ".mp3") by (reflexivity || discriminate).
  now rewrite TrimSuffix_app.
Qed.

Lemma transcriptionFile_mp3 (x : string) : transcriptionFile (x +:+ ".mp3") = x +:+ ".txt".
Proof.
  unfold transcriptionFile. rewrite wavPath_mp3.
  rewrite (Ext_suffix ".wav") by (reflexivity || discriminate).
  now rewrite TrimSuffix_app.
Qed.

Lemma last_byte_app (s t : string) : t <> "" -> last_byte (s +:+ t) = last_byte t.
Proof.
  intros Ht. induction s as [|a s IH]; [reflexivity|].
  rewrite app_cons. cbn [last_byte]. rewrite IH.
  destruct (s +:+ t) eqn:E; [|reflexivity].
  destruct s; [rewrite app_empty_l in E; contradiction | discriminate].
Qed.

Lemma mp3_not_wav (x : string) : x +:+ ".mp3" <> x +:+ ".wav".
Proof.
  intros E. apply (f_equal last_byte) in E.
  rewrite !last_byte_app in E by discriminate. discriminate.
Qed.

Lemma mp3_not_txt (x : string) : x +:+ ".mp3" <> x +:+ ".txt".
Proof.
  intros E. apply (f_equal last_byte) in E.
  rewrite !last_byte_app in E by discriminate. discriminate.
Qed.

Lemma HasPrefix_app (p s : string) : HasPrefix (p +:+ s) p = true.
Proof.
  induction p as [|a p IH]; [apply HasPrefix_empty|].
  rewrite app_cons. cbn [HasPrefix]. now rewrite Ascii.eqb_refl, IH.
Qed.

Lemma drop_app_exact (p s : string) : drop (len p) (p +:+ s) = s.
Proof. induction p as [|a p IH]; [reflexivity | exact IH]. Qed.

Lemma TrimPrefix_app (p s : string) : TrimPrefix (p +:+ s) p = s.
Proof. unfold TrimPrefix. now rewrite HasPrefix_app, drop_app_exact. Qed.

Lemma take_drop (n : nat) (s : string) : take n s +:+ drop n s = s.
Proof.
  revert s. induction n as [|n IH]; intros [|a s]; try reflexivity.
  cbn [take drop]. rewrite app_cons, IH. reflexivity.
Qed.

(** A string without a dot does not end in /index.html. *)
Lemma no_dot_no_index (s : string) :
  all_bytes (fun a => negb (Ascii.eqb a ".")) s = true ->
  HasSuffix s "/index.html" = false.
Proof.
  intros H. unfold HasSuffix.
  destruct (len "/index.html" <=? len s)%nat; [|reflexivity]. cbn [andb].
  apply String.eqb_neq. intros E.
  rewrite <- (take_drop (len s - len "/index.html") s), all_bytes_app, E in H.
  apply andb_prop in H as [_ H]. vm_compute in H. discriminate.
Qed.

(** The URL of a recording whose identifier came from [generateID]
    passes the checks of [http.ServeFile]. *)
Lemma play_url_checks (id : string) :
  all_bytes id_byte id = true ->
  containsDotDot ("/api/play/" +:+ id) = false /\
  HasSuffix ("/api/play/" +:+ id) "/index.html" = false.
Proof.
  intros H. split.
  - unfold containsDotDot.
    change ("/api/play/" +:+ id)
      with ("" +:+ String "/" ("api" +:+ String "/" ("play" +:+ String "/" id))).
    rewrite !(split_on_sep is_slash_rune "/") by reflexivity.
    rewrite (split_on_plain is_slash_rune)
      by (apply (all_bytes_impl id_byte); [|exact H]; intros a Ha; now apply id_byte_plain).
    rewrite !app_empty_l. cbn [existsb String.eqb Ascii.eqb Bool.eqb orb].
    destruct (String.eqb_spec id "..") as [->|_]; [discriminate | reflexivity].
  - apply no_dot_no_index. rewrite all_bytes_app.
    apply andb_true_intro. split; [reflexivity|].
    apply (all_bytes_impl id_byte); [|exact H]. intros a Ha. now apply id_byte_plain.
Qed.

End PathFacts.

(** X4: [generateID] always returns, and counts one more call to the
    random source without touching anything else.  The identifier is
    never empty and is made of letters, digits, minus, underscore and
    the padding sign only, so it holds no slash and no dot; when the
    random source works it has 24 bytes.  The file of the recording is
    then data/mp3s/ followed by the identifier and .mp3. *)
Theorem generateID_shape :
  forall (env : Env) (w : World),
  exists id : string,
    generateID env w = (Done id, set_rand_calls S w) /\
    id <> "" /\
    all_bytes id_byte id = true /\
    (forall b, rand_read env (rand_calls w) = inr b -> len id = 24) /\
    Filepath.Join attachmentDir (id +:+ ".mp3") = "data/mp3s/" +:+ id +:+ ".mp3".
Proof.
  intros env w. exists (generated_id env (rand_calls w)).
  split; [apply generateID_spec|].
  split; [apply generated_id_nonempty|].
  split; [apply generated_id_bytes|].
  split; [apply generated_id_len|].
  apply recording_path, generated_id_bytes.
Qed.

Lemma generateID_shape_witness :
  exists id : string,
    generateID (Scenario.env_ok Scenario.no_audio) Scenario.empty_world
    = (Done id, set_rand_calls S Scenario.empty_world) /\
    len id = 24 /\
    Filepath.Join attachmentDir (id +:+ ".mp3") = "data/mp3s/" +:+ id +:+ ".mp3".
Proof.
  destruct (generateID_shape (Scenario.env_ok Scenario.no_audio) Scenario.empty_world)
    as (id & Hrun & _ & _ & Hlen & Hpath).
  exists id. split; [exact Hrun|]. split; [|exact Hpath].
  apply (Hlen (fun i => ascii_of_nat (0 + i))). reflexivity.
Defined.

(** ** [strings.TrimSpace] trims once and for all *)

Section TrimSpaceFacts.

Lemma len_drop (n : nat) : forall s : string, len (drop n s) = len s - n.
Proof.
  induction n as [|n IH]; intros [|a s]; try reflexivity.
  cbn [drop]. rewrite IH, len_cons. lia.
Qed.

Lemma len_take (n : nat) : forall s : string, len (take n s) = Nat.min n (len s).
Proof.
  induction n as [|n IH]; intros [|a s]; try reflexivity.
  cbn [take]. rewrite !len_cons, IH. lia.
Qed.

Lemma HasPrefix_len (p : string) : forall s : string, HasPrefix s p = true -> len p <= len s.
Proof.
  induction p as [|b p IH]; intros [|a s] H; cbn [HasPrefix] in H;
    try discriminate; rewrite ?len_cons; cbn [len String.length]; try lia.
  apply andb_prop in H as [_ H]. apply IH in H. unfold len in *. lia.
Qed.

Lemma HasPrefix_take (p : string) :
  forall (s : string) (k : nat), HasPrefix (take k s) p = true -> HasPrefix s p = true.
Proof.
  induction p as [|b p IH]; intros s k H; [apply HasPrefix_empty|].
  destruct k as [|k], s as [|a s]; cbn [take HasPrefix] in *; try discriminate.
  apply andb_prop in H as [Ha H]. rewrite Ha, (IH _ _ H). reflexivity.
Qed.

Lemma strip_one_prefix_some (ps : list string) (s s' : string) :
  strip_one_prefix ps s = Some s' ->
  exists p, In p ps /\ HasPrefix s p = true /\ s' = drop (len p) s.
Proof.
  induction ps as [|p ps IH]; [discriminate|]. cbn [strip_one_prefix].
  destruct (HasPrefix s p) eqn:E.
  - intros H; inversion H; subst. exists p. split; [now left | auto].
  - intros H. destruct (IH H) as (q & Hin & Hq). exists q. split; [now right | exact Hq].
Qed.

Lemma strip_one_prefix_none (ps : list string) (s : string) :
  (forall p, In p ps -> HasPrefix s p = false) -> strip_one_prefix ps s = None.
Proof.
  induction ps as [|p ps IH]; intros H; [reflexivity|]. cbn [strip_one_prefix].
  rewrite (H p) by now left. apply IH. intros q Hq. apply H. now right.
Qed.

Lemma strip_one_prefix_take (ps : list string) (s : string) (k : nat) :
  strip_one_prefix ps s = None -> strip_one_prefix ps (take k s) = None.
Proof.
  intros H. apply strip_one_prefix_none. intros p Hp.
  destruct (HasPrefix (take k s) p) eqn:E; [|reflexivity].
  apply HasPrefix_take in E.
  induction ps as [|q ps IH]; [contradiction|]. cbn [strip_one_prefix] in H.
  destruct (HasPrefix s q) eqn:Eq; [discriminate|].
  destruct Hp as [->|Hp]; [congruence | now apply IH].
Qed.

Lemma strip_one_suffix_some (ps : list string) (s s' : string) :
  strip_one_suffix ps s = Some s' ->
  exists p, In p ps /\ HasSuffix s p = true /\ s' = take (len s - len p) s.
Proof.
  induction ps as [|p ps IH]; [discriminate|]. cbn [strip_one_suffix].
  destruct (HasSuffix s p) eqn:E.
  - intros H; inversion H; subst. exists p. split; [now left | auto].
  - intros H. destruct (IH H) as (q & Hin & Hq). exists q. split; [now right | exact Hq].
Qed.

Lemma spaces_nonempty (p : string) : In p unicode_spaces -> 1 <= len p.
Proof.
  intros H.
  assert (Hall : forallb (fun q => 1 <=? len q)%nat unicode_spaces = true) by reflexivity.
  rewrite forallb_forall in Hall. apply Nat.leb_le. now apply Hall.
Qed.

Lemma trim_left_done :
  forall (fuel : nat) (s : string),
    len s <= fuel ->
    strip_one_prefix unicode_spaces (trim_left_space fuel s) = None.
Proof.
  induction fuel as [|fuel IH]; intros s Hlen.
  - destruct s; [reflexivity | simpl in Hlen; lia].
  - cbn [trim_left_space].
    destruct (strip_one_prefix unicode_spaces s) as [s'|] eqn:E; [|exact E].
    apply IH. apply strip_one_prefix_some in E as (p & Hin & Hp & ->).
    apply spaces_nonempty in Hin. apply HasPrefix_len in Hp. rewrite len_drop. lia.
Qed.

Lemma trim_left_fixed (fuel : nat) (s : string) :
  strip_one_prefix unicode_spaces s = None -> trim_left_space fuel s = s.
Proof. intros H. destruct fuel; [reflexivity|]. cbn [trim_left_space]. now rewrite H. Qed.

Lemma trim_right_done :
  forall (fuel : nat) (s : string),
    len s <= fuel ->
    strip_one_suffix unicode_spaces (trim_right_space fuel s) = None.
Proof.
  induction fuel as [|fuel IH]; intros s Hlen.
  - destruct s; [reflexivity | simpl in Hlen; lia].
  - cbn [trim_right_space].
    destruct (strip_one_suffix unicode_spaces s) as [s'|] eqn:E; [|exact E].
    apply IH. apply strip_one_suffix_some in E as (p & Hin & Hp & ->).
    apply spaces_nonempty in Hin. unfold HasSuffix in Hp.
    apply andb_prop in Hp as [Hp _]. apply Nat.leb_le in Hp. rewrite len_take. lia.
Qed.

Lemma trim_right_fixed (fuel : nat) (s : string) :
  strip_one_suffix unicode_spaces s = None -> trim_right_space fuel s = s.
Proof. intros H. destruct fuel; [reflexivity|]. cbn [trim_right_space]. now rewrite H. Qed.

Lemma take_take (k n : nat) : forall s : string, take k (take n s) = take (Nat.min k n) s.
Proof.
  revert n. induction k as [|k IH]; intros [|n] [|a s]; try reflexivity.
  cbn [take Nat.min]. now rewrite IH.
Qed.

Lemma take_all (s : string) : take (len s) s = s.
Proof. induction s as [|a s IH]; [reflexivity|]. cbn [len String.length take]. f_equal. exact IH. Qed.

Lemma trim_right_is_take :
  forall (fuel : nat) (s : string), exists k, trim_right_space fuel s = take k s.
Proof.
  induction fuel as [|fuel IH]; intros s; [exists (len s); now rewrite take_all|].
  cbn [trim_right_space].
  destruct (strip_one_suffix unicode_spaces s) as [s'|] eqn:E;
    [|exists (len s); now rewrite take_all].
  apply strip_one_suffix_some in E as (p & _ & _ & ->).
  destruct (IH (take (len s - len p) s)) as (k & ->).
  rewrite take_take. eauto.
Qed.

(** What [TrimSpace] returns has no white space at either end, and
    trimming it again changes nothing. *)
Lemma TrimSpace_trimmed (s : string) :
  strip_one_prefix unicode_spaces (TrimSpace s) = None /\
  strip_one_suffix unicode_spaces (TrimSpace s) = None.
Proof.
  unfold TrimSpace. split.
  - destruct (trim_right_is_take (len (trim_left_space (len s) s))
                (trim_left_space (len s) s)) as (k & ->).
    apply strip_one_prefix_take, trim_left_done. lia.
  - apply trim_right_done. lia.
Qed.

Lemma TrimSpace_idempotent (s : string) : TrimSpace (TrimSpace s) = TrimSpace s.
Proof.
  destruct (TrimSpace_trimmed s) as [Hl Hr].
  unfold TrimSpace at 1. rewrite (trim_left_fixed _ _ Hl). now apply trim_right_fixed.
Qed.

End TrimSpaceFacts.

(** ** The persister, the transcriber and the title generator *)

Section HelperEffects.

Variable env : Env.

Lemma clean_title_nonempty (content : string) : clean_title content <> "".
Proof.
  unfold clean_title.
  destruct (String.eqb_spec (TrimPrefix (Trim (TrimSpace content) (String "034" "'")) ":") "");
    [discriminate | assumption].
Qed.

(** [generateTitle]: the one request it sends, and the title it gives. *)
Lemma generateTitle_cases (transcription : string) (w : World) :
  exists title oe,
    generateTitle env transcription w
    = (Done (title, oe), emit (EvHTTPPost ollama_url (requestData transcription)) w) /\
    title <> "" /\
    (oe <> None -> title = "Untitled Voicemail").
Proof.
  unfold generateTitle, bind, http_Do, ret. fold (requestData transcription).
  destruct (http_post env _ _) as [err|resp];
    [do 2 eexists; split; [reflexivity|]; split; [discriminate | reflexivity]|].
  destruct (ResponseBody resp) as [err|body];
    [do 2 eexists; split; [reflexivity|]; split; [discriminate | reflexivity]|].
  destruct (negb (StatusCode resp =? StatusOK)%Z);
    [do 2 eexists; split; [reflexivity|]; split; [discriminate | reflexivity]|].
  destruct (json_OpenAIResponse env body) as [err|r];
    [do 2 eexists; split; [reflexivity|]; split; [discriminate | reflexivity]|].
  destruct (Choices r) as [|choice rest];
    [do 2 eexists; split; [reflexivity|]; split; [discriminate | reflexivity]|].
  do 2 eexists. split; [reflexivity|]. split; [apply clean_title_nonempty|].
  intros H; contradiction.
Qed.

Lemma bind_assoc {A B C : Type} (m : M A) (f : A -> M B) (g : B -> M C) (w : World) :
  bind (bind m f) g w = bind m (fun a => bind (f a) g) w.
Proof. unfold bind. destruct (m w) as [[a|msg] w1]; reflexivity. Qed.

Lemma bind_ret {A B : Type} (a : A) (f : A -> M B) (w : World) :
  bind (ret a) f w = f a w.
Proof. reflexivity. Qed.

Lemma cmd_Run_eq (name : string) (args : list string) (w : World) :
  cmd_Run env name args w
  = (Done (snd (process env name args (files w))),
     mkWorld (fst (process env name args (files w))) (recordings w) (rand_calls w)
       (trace w ++ [EvExec name args])).
Proof. unfold cmd_Run. destruct (process env name args (files w)); reflexivity. Qed.

Lemma os_Stat_eq (path : string) (w : World) :
  os_Stat env path w
  = (Done match fs_fault env "stat" path with
          | Some e => inl (mkPathError "stat" path e)
          | None =>
              match files w !! path with
              | Some content => inr (Z.of_nat (len content))
              | None => inl (mkPathError "stat" path ENOENT)
              end
          end, w).
Proof.
  unfold os_Stat. destruct (fs_fault env "stat" path); [reflexivity|].
  destruct (files w !! path); reflexivity.
Qed.

Lemma os_ReadFile_eq (path : string) (w : World) :
  os_ReadFile env path w
  = (Done match fs_fault env "open" path with
          | Some e => inl (mkPathError "open" path e)
          | None =>
              match files w !! path with
              | Some content => inr content
              | None => inl (mkPathError "open" path ENOENT)
              end
          end, w).
Proof.
  unfold os_ReadFile. destruct (fs_fault env "open" path); [reflexivity|].
  destruct (files w !! path); reflexivity.
Qed.

Lemma os_Remove_eq (path : string) (w : World) :
  os_Remove env path w
  = (Done tt,
     mkWorld (match fs_fault env "remove" path with
              | Some _ => files w
              | None => delete path (files w)
              end) (recordings w) (rand_calls w) (trace w)).
Proof.
  unfold os_Remove. destruct (fs_fault env "remove" path); [destruct w|]; reflexivity.
Qed.

(** [transcribeAudio], case by case, with the world it leaves. *)
Lemma transcribeAudio_cases (filePath : string) (w : World) :
  let ffmpeg_args :=
    ["-i"; filePath; "-ar"; "16000"; "-ac"; "1"; "-c:a"; "pcm_s16le"; wavPath filePath] in
  let whisper_args :=
    ["--model"; "../whisper.cpp/models/ggml-base.en.bin"; "--output-txt";
     "-f"; wavPath filePath] in
  let ff := process env "ffmpeg" ffmpeg_args (files w) in
  let wh := process env whisper_cli whisper_args (fst ff) in
  exists (t : string) (oe : option error) (fs : gmap string string),
    (oe <> None -> t = "") /\
    match look_path env whisper_cli with
    | Some _ => transcribeAudio env filePath w = (Done (t, oe), w) /\ oe <> None
    | None =>
        match RunErr (snd ff) with
        | Some _ =>
            transcribeAudio env filePath w
            = (Done (t, oe), mkWorld (fst ff) (recordings w) (rand_calls w)
                               (trace w ++ [ffmpeg_run filePath])) /\
            oe <> None
        | None =>
            transcribeAudio env filePath w
            = (Done (t, oe), mkWorld fs (recordings w) (rand_calls w)
                               (trace w ++ [ffmpeg_run filePath; whisper_run filePath])) /\
            (forall p, p <> wavPath filePath -> p <> transcriptionFile filePath ->
                       (fs !! p) = (fst wh !! p)) /\
            (fs_fault env "remove" (wavPath filePath) = None ->
             (fs !! wavPath filePath) = None) /\
            (fs_fault env "stat" (transcriptionFile filePath) = None ->
             fs_fault env "remove" (transcriptionFile filePath) = None ->
             wavPath filePath <> transcriptionFile filePath ->
             oe = None -> (fs !! transcriptionFile filePath) = None) /\
            (RunErr (snd wh) <> None -> oe <> None) /\
            (RunErr (snd wh) = None ->
             fs_fault env "stat" (transcriptionFile filePath) = None ->
             fs_fault env "open" (transcriptionFile filePath) = None ->
             oe = None /\
             t = TrimSpace match fst wh !! transcriptionFile filePath with
                           | Some transcriptionBytes => transcriptionBytes
                           | None => Stdout (snd wh)
                           end)
        end
    end.
Proof.
  intros ffmpeg_args whisper_args ff wh.
  unfold transcribeAudio. fold (wavPath filePath). fold (transcriptionFile filePath).
  fold ffmpeg_args. fold whisper_args.
  destruct (look_path env whisper_cli) as [err|].
  { exists "", (Some (Wrapped "whisper.cpp not found in PATH: " err "")), ∅.
    split; [reflexivity|]. split; [reflexivity | discriminate]. }
  rewrite (bind_done _ _ _ _ _ (cmd_Run_eq _ _ _)). fold ff.
  destruct (RunErr (snd ff)) as [err|].
  { exists "", (Some (Wrapped "failed to convert MP3 to WAV: " err "")), ∅.
    split; [reflexivity|]. split; [reflexivity | discriminate]. }
  rewrite bind_assoc, (bind_done _ _ _ _ _ (cmd_Run_eq _ _ _)).
  cbn [files recordings rand_calls trace]. fold wh.
  set (tr := (trace w ++ [EvExec "ffmpeg" ffmpeg_args]) ++ [EvExec whisper_cli whisper_args]).
  assert (Htr : tr = trace w ++ [ffmpeg_run filePath; whisper_run filePath])
    by (unfold tr; rewrite <- app_assoc; reflexivity).
  set (source := match fst wh !! transcriptionFile filePath with
                 | Some transcriptionBytes => transcriptionBytes
                 | None => Stdout (snd wh)
                 end).
  assert (Hend : forall (res : string * option error) (fs3 : gmap string string),
             (snd res <> None -> fst res = "") ->
             (forall p, p <> wavPath filePath -> p <> transcriptionFile filePath ->
                        (fs3 !! p) = (fst wh !! p)) ->
             (fs_fault env "stat" (transcriptionFile filePath) = None ->
              fs_fault env "remove" (transcriptionFile filePath) = None ->
              snd res = None -> (fs3 !! transcriptionFile filePath) = None) ->
             (RunErr (snd wh) <> None -> snd res <> None) ->
             (RunErr (snd wh) = None ->
              fs_fault env "stat" (transcriptionFile filePath) = None ->
              fs_fault env "open" (transcriptionFile filePath) = None ->
              snd res = None /\ fst res = TrimSpace source) ->
             exists (t : string) (oe : option error) (fs : gmap string string),
               (oe <> None -> t = "") /\
               bind (os_Remove env (wavPath filePath)) (fun _ => ret res)
                 (mkWorld fs3 (recordings w) (rand_calls w) tr)
               = (Done (t, oe), mkWorld fs (recordings w) (rand_calls w)
                                  (trace w ++ [ffmpeg_run filePath; whisper_run filePath])) /\
               (forall p, p <> wavPath filePath -> p <> transcriptionFile filePath ->
                          (fs !! p) = (fst wh !! p)) /\
               (fs_fault env "remove" (wavPath filePath) = None ->
                (fs !! wavPath filePath) = None) /\
               (fs_fault env "stat" (transcriptionFile filePath) = None ->
                fs_fault env "remove" (transcriptionFile filePath) = None ->
                wavPath filePath <> transcriptionFile filePath ->
                oe = None -> (fs !! transcriptionFile filePath) = None) /\
               (RunErr (snd wh) <> None -> oe <> None) /\
               (RunErr (snd wh) = None ->
                fs_fault env "stat" (transcriptionFile filePath) = None ->
                fs_fault env "open" (transcriptionFile filePath) = None ->
                oe = None /\ t = TrimSpace source)).
  { intros [t oe] fs3 Hres Hkeep Htxt Hfail Hsrc. cbn [fst snd] in Hres, Htxt, Hfail, Hsrc.
    rewrite (bind_done _ _ _ _ _ (os_Remove_eq _ _)).
    cbn [files recordings rand_calls trace ret]. rewrite Htr.
    destruct (fs_fault env "remove" (wavPath filePath)) as [e|] eqn:Erm.
    - exists t, oe, fs3. split; [exact Hres|]. split; [reflexivity|].
      split; [exact Hkeep|]. split; [discriminate|]. split; [auto|]. auto.
    - exists t, oe, (delete (wavPath filePath) fs3). split; [exact Hres|].
      split; [reflexivity|]. split.
      + intros p Hp1 Hp2. rewrite lookup_delete_ne by congruence. now apply Hkeep.
      + split; [intros _; apply lookup_delete_eq|]. split; [|auto].
        intros H1 H2 Hne Hoe. rewrite lookup_delete_ne by exact Hne. auto. }
  destruct (RunErr (snd wh)) as [err|] eqn:Ewh.
  { rewrite bind_ret. apply Hend; cbn [fst snd]; auto; discriminate. }
  rewrite bind_assoc, (bind_done _ _ _ _ _ (os_Stat_eq _ _)). cbn [files].
  destruct (fs_fault env "stat" (transcriptionFile filePath)) as [e|] eqn:Est.
  { destruct (os_IsNotExist _).
    - rewrite bind_ret. apply Hend; cbn [fst snd]; auto; try contradiction; discriminate.
    - rewrite bind_assoc, (bind_done _ _ _ _ _ (os_ReadFile_eq _ _)). cbn [files].
      destruct (match fs_fault env "open" (transcriptionFile filePath) with
                | Some e0 => _ | None => _ end) as [e'|bytes].
      { rewrite bind_ret. apply Hend; cbn [fst snd]; auto; discriminate. }
      rewrite bind_assoc, (bind_done _ _ _ _ _ (os_Remove_eq _ _)), bind_ret.
      cbn [files recordings rand_calls trace].
      apply Hend; cbn [fst snd]; try contradiction; try discriminate.
      intros p _ Hp. destruct (fs_fault env "remove" (transcriptionFile filePath));
        [reflexivity | now rewrite lookup_delete_ne by congruence]. }
  unfold source.
  destruct (fst wh !! transcriptionFile filePath) as [bytes|] eqn:Efile.
  2:{ cbn [os_IsNotExist Errno]. rewrite bind_ret.
      apply Hend; cbn [fst snd]; auto; try contradiction. }
  cbn iota.
  rewrite bind_assoc, (bind_done _ _ _ _ _ (os_ReadFile_eq _ _)). cbn [files].
  rewrite Efile.
  destruct (fs_fault env "open" (transcriptionFile filePath)) as [e'|] eqn:Eopen.
  { rewrite bind_ret. apply Hend; cbn [fst snd]; auto; discriminate. }
  rewrite bind_assoc, (bind_done _ _ _ _ _ (os_Remove_eq _ _)), bind_ret.
  cbn [files recordings rand_calls trace].
  apply Hend; cbn [fst snd]; try contradiction; auto.
  - intros p _ Hp. destruct (fs_fault env "remove" (transcriptionFile filePath));
      [reflexivity | now rewrite lookup_delete_ne by congruence].
  - intros _ -> _. apply lookup_delete_eq.
Qed.

End HelperEffects.

Section TranscriberFiles.

Variable env : Env.

Lemma wav_txt_distinct (filePath : string) :
  wavPath filePath <> transcriptionFile filePath.
Proof.
  unfold transcriptionFile. unfold wavPath at 1. intros E.
  apply (f_equal last_byte) in E. rewrite !last_byte_app in E by discriminate.
  discriminate.
Qed.

(** Files that are neither of the two working files of the transcriber
    and that the commands leave alone come through unchanged. *)
Lemma transcribeAudio_keeps (filePath : string) (w : World) :
  exists (t : string) (oe : option error) (w' : World),
    transcribeAudio env filePath w = (Done (t, oe), w') /\
    recordings w' = recordings w /\ rand_calls w' = rand_calls w /\
    forall p, keeps_file env p -> p <> wavPath filePath ->
              p <> transcriptionFile filePath -> (files w' !! p) = (files w !! p).
Proof.
  destruct (transcribeAudio_cases env filePath w) as (t & oe & fs & _ & H).
  cbv zeta in H.
  destruct (look_path env whisper_cli).
  { destruct H as [H _]. exists t, oe, w. auto. }
  destruct (RunErr _).
  { destruct H as [H _]. do 3 eexists. split; [exact H|].
    cbn [recordings rand_calls files]. split; [reflexivity|]. split; [reflexivity|].
    intros p Hk _ _. apply Hk. }
  destruct H as (H & Hkeep & _). do 3 eexists. split; [exact H|].
  cbn [recordings rand_calls files]. split; [reflexivity|]. split; [reflexivity|].
  intros p Hk H1 H2. rewrite (Hkeep p H1 H2), !Hk. reflexivity.
Qed.

End TranscriberFiles.

(** X5: [saveAttachment] changes at most the file at its path: the
    other files, the table, the trace and the count of random calls
    stay.  When the content does not decode or the file cannot be
    created, nothing changes at all, and a file that was there keeps
    its content; when the write fails the file is left with the bytes
    that got through; on success it holds the decoded bytes exactly. *)
Theorem saveAttachment_effect :
  forall (env : Env) (attachment : AttachmentData) (path : string) (w : World),
  exists (res : option error) (w' : World),
    saveAttachment env attachment path w = (Done res, w') /\
    same_but_files w w' /\
    (forall p, p <> path -> (files w' !! p) = (files w !! p)) /\
    match Base64.StdEncoding.DecodeString (Content attachment) with
    | inl _ => res <> None /\ w' = w
    | inr content =>
        match fs_fault env "open" path, fs_fault env "write" path with
        | Some _, _ => res <> None /\ w' = w
        | None, Some _ =>
            res <> None /\
            (files w' !! path) = Some (take (short_write env path) content)
        | None, None => res = None /\ (files w' !! path) = Some content
        end
    end.
Proof.
  intros env attachment path w.
  pose proof (saveAttachment_cases env attachment path w) as H.
  destruct (Base64.StdEncoding.DecodeString (Content attachment)) as [e|content].
  { do 2 eexists. split; [exact H|]. split; [apply same_but_files_refl|].
    split; [reflexivity|]. split; [discriminate | reflexivity]. }
  destruct (fs_fault env "open" path).
  { do 2 eexists. split; [exact H|]. split; [apply same_but_files_refl|].
    split; [reflexivity|]. split; [discriminate | reflexivity]. }
  destruct (fs_fault env "write" path);
    (do 2 eexists; split; [exact H|]; cbn [set_files files];
     split; [repeat split|]; split;
     [intros p Hp; now rewrite !lookup_insert_ne by congruence|];
     split; [try discriminate; reflexivity | apply lookup_insert_eq]).
Qed.


(** X7: the working files of [transcribeAudio].  For an MP3 file x.mp3
    they are x.wav and x.txt.  Once ffmpeg has succeeded, the WAV file
    is gone when the function returns, whatever happened after it,
    provided removing it works; a transcript that was returned without
    error leaves no text file behind.  When ffmpeg fails, what it left
    on disk stays. *)
Theorem transcribeAudio_cleans_up :
  forall (env : Env) (filePath : string) (w w' : World) (t : string) (oe : option error),
    look_path env whisper_cli = None ->
    transcribeAudio env filePath w = (Done (t, oe), w') ->
    let ff := process env "ffmpeg"
                ["-i"; filePath; "-ar"; "16000"; "-ac"; "1"; "-c:a"; "pcm_s16le";
                 wavPath filePath] (files w) in
    (forall x, wavPath (x +:+ ".mp3") = x +:+ ".wav" /\
               transcriptionFile (x +:+ ".mp3") = x +:+ ".txt") /\
    (RunErr (snd ff) <> None -> files w' = fst ff) /\
    (RunErr (snd ff) = None ->
     (fs_fault env "remove" (wavPath filePath) = None ->
      (files w' !! wavPath filePath) = None) /\
     (fs_fault env "stat" (transcriptionFile filePath) = None ->
      fs_fault env "remove" (transcriptionFile filePath) = None ->
      oe = None -> (files w' !! transcriptionFile filePath) = None)).
Proof.
  intros env filePath w w' t oe Hlook Hrun ff.
  split; [intros x; split; [apply wavPath_mp3 | apply transcriptionFile_mp3]|].
  destruct (transcribeAudio_cases env filePath w) as (t0 & oe0 & fs & _ & H).
  cbv zeta in H. rewrite Hlook in H. fold ff in H.
  destruct (RunErr (snd ff)) as [err|].
  - destruct H as [H _]. rewrite Hrun in H. inversion H; subst.
    split; [reflexivity | discriminate].
  - destruct H as (H & _ & Hwav & Htxt & _). rewrite Hrun in H. inversion H; subst.
    split; [contradiction|]. intros _. cbn [files]. split; [exact Hwav|].
    intros H1 H2 H3. apply Htxt; auto using wav_txt_distinct.
Qed.

Lemma transcribeAudio_cleans_up_witness :
  exists (w' : World) (t : string),
    transcribeAudio (Scenario.env_ok Scenario.no_audio) "data/mp3s/abc.mp3"
      Scenario.world_with_stored = (Done (t, None), w') /\
    wavPath "data/mp3s/abc.mp3" = "data/mp3s/abc.wav" /\
    (files w' !! "data/mp3s/abc.wav") = None /\
    (files w' !! "data/mp3s/abc.txt") = None.
Proof.
  exists (snd (transcribeAudio (Scenario.env_ok Scenario.no_audio) "data/mp3s/abc.mp3"
                 Scenario.world_with_stored)), "hello it is bob".
  assert (Hrun : transcribeAudio (Scenario.env_ok Scenario.no_audio) "data/mp3s/abc.mp3"
                   Scenario.world_with_stored
                 = (Done ("hello it is bob", None),
                    snd (transcribeAudio (Scenario.env_ok Scenario.no_audio)
                           "data/mp3s/abc.mp3" Scenario.world_with_stored)))
    by (vm_compute; reflexivity).
  destruct (transcribeAudio_cleans_up (Scenario.env_ok Scenario.no_audio)
              "data/mp3s/abc.mp3" Scenario.world_with_stored _ _ _ eq_refl Hrun)
    as (Hnames & _ & Hclean).
  destruct (Hclean eq_refl) as [Hwav Htxt].
  split; [exact Hrun|]. split; [apply (Hnames "data/mp3s/abc")|].
  split; [exact (Hwav eq_refl) | exact (Htxt eq_refl eq_refl eq_refl)].
Defined.

(** X8: [generateTitle] always returns, after exactly one request to
    the completion service: model llama2, the system prompt, the
    transcription at the end of the user prompt, temperature 0.7 and at
    most 50 tokens.  It touches nothing else.  The title is never
    empty, and with an error it is Untitled Voicemail. *)
Theorem generateTitle_contract :
  forall (env : Env) (transcription : string) (w : World),
  exists (title : string) (oe : option error),
    generateTitle env transcription w
    = (Done (title, oe),
       mkWorld (files w) (recordings w) (rand_calls w)
         (trace w ++ [EvHTTPPost "http://localhost:11434/v1/chat/completions"
                        (mkOpenAIRequest "llama2"
                           [mkMessage "system" systemPrompt;
                            mkMessage "user"
                              ("Please create a title for this voicemail transcription:"
                                 +:+ bytes2 "010" "010" +:+ transcription)]
                           (7, 10)%Z 50)])) /\
    title <> "" /\
    (oe <> None -> title = "Untitled Voicemail").
Proof.
  intros env transcription w.
  destruct (generateTitle_cases env transcription w) as (title & oe & H).
  exists title, oe. exact H.
Qed.

(** X9: where the transcript comes from.  When the tool is there, both
    commands succeed and the text file can be examined, the transcript
    is the content of the text file beside the WAV file as it is after
    the recognition tool ran, and the standard output of the tool only
    when there is no such file; either way it is returned without error and trimmed of white
    space, so that trimming it again changes nothing. *)
Theorem transcribeAudio_transcript :
  forall (env : Env) (filePath : string) (w w' : World) (t : string) (oe : option error),
    transcribeAudio env filePath w = (Done (t, oe), w') ->
    look_path env whisper_cli = None ->
    let ff := process env "ffmpeg"
                ["-i"; filePath; "-ar"; "16000"; "-ac"; "1"; "-c:a"; "pcm_s16le";
                 wavPath filePath] (files w) in
    let wh := process env whisper_cli
                ["--model"; "../whisper.cpp/models/ggml-base.en.bin"; "--output-txt";
                 "-f"; wavPath filePath] (fst ff) in
    RunErr (snd ff) = None ->
    RunErr (snd wh) = None ->
    fs_fault env "stat" (transcriptionFile filePath) = None ->
    fs_fault env "open" (transcriptionFile filePath) = None ->
    oe = None /\
    t = TrimSpace match fst wh !! transcriptionFile filePath with
                  | Some transcriptionBytes => transcriptionBytes
                  | None => Stdout (snd wh)
                  end /\
    TrimSpace t = t.
Proof.
  intros env filePath w w' t oe Hrun Hlook ff wh Hff Hwh Hstat Hopen.
  destruct (transcribeAudio_cases env filePath w) as (t0 & oe0 & fs & _ & H).
  cbv zeta in H. rewrite Hlook in H. fold ff in H. fold wh in H. rewrite Hff in H.
  destruct H as (H & _ & _ & _ & _ & Hsrc). rewrite Hrun in H. inversion H; subst.
  destruct (Hsrc Hwh Hstat Hopen) as [-> ->].
  split; [reflexivity|]. split; [reflexivity | apply TrimSpace_idempotent].
Qed.

Lemma transcribeAudio_transcript_witness :
  transcribeAudio (Scenario.env_ok Scenario.no_audio) "data/mp3s/abc.mp3"
    Scenario.world_with_stored
  = (Done ("hello it is bob", None),
     snd (transcribeAudio (Scenario.env_ok Scenario.no_audio) "data/mp3s/abc.mp3"
            Scenario.world_with_stored)) /\
  TrimSpace "hello it is bob" = "hello it is bob".
Proof.
  assert (Hrun : transcribeAudio (Scenario.env_ok Scenario.no_audio) "data/mp3s/abc.mp3"
                   Scenario.world_with_stored
                 = (Done ("hello it is bob", None),
                    snd (transcribeAudio (Scenario.env_ok Scenario.no_audio)
                           "data/mp3s/abc.mp3" Scenario.world_with_stored)))
    by (vm_compute; reflexivity).
  split; [exact Hrun|].
  apply (transcribeAudio_transcript (Scenario.env_ok Scenario.no_audio)
           "data/mp3s/abc.mp3" Scenario.world_with_stored _ _ _ Hrun);
    reflexivity.
Defined.

Section EnrichFacts.

Variable env : Env.

Lemma enrich_cases (recording : Recording) (w : World) :
  exists (t : string) (oe : option error) (w1 : World) (title : string) (w' : World),
    transcribeAudio env (FilePath recording) w = (Done (t, oe), w1) /\
    match oe with
    | Some err =>
        enrich env recording w
        = (Done (enriched recording ("Transcription failed: " +:+ Error err)
                   "Untitled Voicemail"), w1) /\
        w' = w1
    | None =>
        enrich env recording w = (Done (enriched recording t title), w') /\
        title <> "" /\
        if String.eqb t ""
        then title = "Untitled Voicemail" /\ w' = w1
        else w' = emit (EvHTTPPost ollama_url (requestData t)) w1
    end.
Proof.
  unfold enrich.
  destruct (transcribeAudio_keeps env (FilePath recording) w) as (t & oe & w1 & Ht & _).
  rewrite (bind_done _ _ _ _ _ Ht). exists t, oe, w1.
  destruct oe as [err|]; [exists "", w1; auto|].
  destruct (String.eqb t ""); cbn [negb].
  { exists "Untitled Voicemail", w1. split; [exact Ht|]. split; [reflexivity|].
    split; [discriminate | auto]. }
  destruct (generateTitle_cases env t w1) as (title & oe & Hg & Hne & Herr).
  rewrite (bind_done _ _ _ _ _ Hg).
  destruct oe as [err|].
  - exists "Untitled Voicemail", (emit (EvHTTPPost ollama_url (requestData t)) w1).
    split; [exact Ht|]. split; [reflexivity|]. split; [discriminate | reflexivity].
  - exists title, (emit (EvHTTPPost ollama_url (requestData t)) w1).
    split; [exact Ht|]. split; [reflexivity|]. split; [exact Hne | reflexivity].
Qed.

End EnrichFacts.

(** X10: when the completion service is asked.  The webhook asks for a
    title exactly when the transcription succeeded with a text that is
    not empty, and then once, with that text; a failed or empty
    transcription gets the title Untitled Voicemail without any
    request.  The title that is stored is never empty, and a failed
    transcription is stored as the text of its error. *)
Theorem enrich_asks_once_for_a_title :
  forall (env : Env) (recording : Recording) (w : World),
  exists (rec : Recording) (w' : World) (t : string) (oe : option error) (w1 : World),
    enrich env recording w = (Done rec, w') /\
    transcribeAudio env (FilePath recording) w = (Done (t, oe), w1) /\
    Title rec <> "" /\
    ID rec = ID recording /\ FilePath rec = FilePath recording /\
    (oe = None -> Transcription rec = t) /\
    (forall err, oe = Some err ->
                 Transcription rec = "Transcription failed: " +:+ Error err) /\
    if match oe with None => negb (String.eqb t "") | Some _ => false end
    then trace w' = trace w1 ++ [EvHTTPPost ollama_url (requestData t)]
    else trace w' = trace w1 /\ Title rec = "Untitled Voicemail".
Proof.
  intros env recording w.
  destruct (enrich_cases env recording w) as (t & oe & w1 & title & w' & Ht & H).
  destruct oe as [err|].
  - destruct H as [H ->]. do 5 eexists. split; [exact H|]. split; [exact Ht|].
    cbn. split; [discriminate|]. repeat split; try discriminate.
    intros e He. inversion He. reflexivity.
  - destruct H as (H & Hne & Hcase). do 5 eexists. split; [exact H|]. split; [exact Ht|].
    cbn [enriched Title ID FilePath Transcription]. split; [exact Hne|].
    split; [reflexivity|]. split; [reflexivity|]. split; [reflexivity|].
    split; [discriminate|].
    destruct (String.eqb t ""); cbn [negb].
    + destruct Hcase as [-> ->]. auto.
    + rewrite Hcase. reflexivity.
Qed.

(** ** What the webhook stores *)

Section WebhookRows.

Variable env : Env.

Lemma enrich_summary (recording : Recording) (w : World) :
  exists (t title : string) (w' : World),
    enrich env recording w = (Done (enriched recording t title), w') /\
    title <> "" /\
    recordings w' = recordings w /\ rand_calls w' = rand_calls w /\
    forall p, keeps_file env p -> p <> wavPath (FilePath recording) ->
              p <> transcriptionFile (FilePath recording) ->
              (files w' !! p) = (files w !! p).
Proof.
  unfold enrich.
  destruct (transcribeAudio_keeps env (FilePath recording) w)
    as (t & oe & w1 & Ht & Hr & Hc & Hf).
  rewrite (bind_done _ _ _ _ _ Ht).
  destruct oe as [err|].
  { do 3 eexists. split; [reflexivity|]. split; [discriminate|]. auto. }
  destruct (negb (String.eqb t "")).
  2:{ do 3 eexists. split; [reflexivity|]. split; [discriminate|]. auto. }
  destruct (generateTitle_cases env t w1) as (title & oe & Hg & Hne & _).
  rewrite (bind_done _ _ _ _ _ Hg).
  destruct oe as [err|].
  - do 3 eexists. split; [reflexivity|]. split; [discriminate|]. auto.
  - do 3 eexists. split; [reflexivity|]. split; [exact Hne|]. auto.
Qed.

Lemma db_insert_eq (rec : Recording) (w : World) :
  db_insert env rec w
  = (Done (if insertable env (ID rec) (recordings w) then None
           else match db_fault env "insert" with
                | Some e => Some e
                | None => Some ErrDuplicateKey
                end),
     if insertable env (ID rec) (recordings w)
     then mkWorld (files w) (recordings w ++ [rec]) (rand_calls w) (trace w)
     else w).
Proof.
  unfold db_insert, insertable. destruct (db_fault env "insert"); [reflexivity|].
  destruct (existsb _ _); reflexivity.
Qed.

Lemma ingest_summary (recording : Recording) (w : World) :
  exists (t title : string) (w' : World),
    ingest env recording w = (Done tt, w') /\
    title <> "" /\
    rand_calls w' = rand_calls w /\
    (forall p, keeps_file env p -> p <> wavPath (FilePath recording) ->
               p <> transcriptionFile (FilePath recording) ->
               (files w' !! p) = (files w !! p)) /\
    recordings w' =
      if insertable env (ID recording) (recordings w)
      then recordings w ++ [enriched recording t title]
      else recordings w.
Proof.
  unfold ingest.
  destruct (enrich_summary recording w) as (t & title & w1 & He & Hne & Hr & Hc & Hf).
  rewrite (bind_done _ _ _ _ _ He), (bind_done _ _ _ _ _ (db_insert_eq _ _)).
  cbn [enriched ID]. rewrite Hr.
  exists t, title.
  destruct (insertable env (ID recording) (recordings w)); eexists;
    (split; [reflexivity|]); (split; [exact Hne|]);
    cbn [rand_calls files recordings]; auto.
Qed.

(** The loop stores at most one row, and the row agrees with the
    attachment it came from and with the identifier that is returned. *)
Lemma process_attachments_outcome (receivedAt phoneNumber : string) :
  forall (attachments : list AttachmentData) (recordingID : string) (w : World),
  exists (id : string) (w' : World),
    process_attachments env receivedAt phoneNumber attachments recordingID w
    = (Done id, w') /\
    (recordings w' = recordings w \/
     exists (a : AttachmentData) (content t title : string),
       In a attachments /\ is_mp3 a = true /\
       Base64.StdEncoding.DecodeString (Content a) = inr content /\
       title <> "" /\
       all_bytes id_byte id = true /\
       insertable env id (recordings w) = true /\
       recordings w' =
         recordings w ++
           [mkRecording id phoneNumber receivedAt (FileName a)
              (Filepath.Join attachmentDir (id +:+ ".mp3"))
              (Z.of_nat (len content)) t title]).
Proof.
  induction attachments as [|a rest IH]; intros rid w.
  { exists rid, w. split; [reflexivity | now left]. }
  cbn [process_attachments]. destruct (is_mp3 a) eqn:Emp3.
  2:{ destruct (IH rid w) as (id & w' & Hrun & [Hsame | Hrow]).
      - exists id, w'. split; [exact Hrun | now left].
      - destruct Hrow as (a' & content & t & title & Hin & Hrest).
        exists id, w'. split; [exact Hrun|]. right.
        exists a', content, t, title. split; [now right | exact Hrest]. }
  rewrite (bind_done _ _ _ _ _ (generateID_spec env w)).
  set (id := generated_id env (rand_calls w)).
  set (path := Filepath.Join attachmentDir (id +:+ ".mp3")).
  assert (Hskip : forall w1 : World,
             recordings w1 = recordings w ->
             exists (id' : string) (w' : World),
               process_attachments env receivedAt phoneNumber rest id w1 = (Done id', w') /\
               (recordings w' = recordings w \/
                exists (a0 : AttachmentData) (content t title : string),
                  In a0 (a :: rest) /\ is_mp3 a0 = true /\
                  Base64.StdEncoding.DecodeString (Content a0) = inr content /\
                  title <> "" /\
                  all_bytes id_byte id' = true /\
                  insertable env id' (recordings w) = true /\
                  recordings w' =
                    recordings w ++
                      [mkRecording id' phoneNumber receivedAt (FileName a0)
                         (Filepath.Join attachmentDir (id' +:+ ".mp3"))
                         (Z.of_nat (len content)) t title])).
  { intros w1 Hw1. destruct (IH id w1) as (id' & w' & Hrun & Hrows).
    exists id', w'. split; [exact Hrun|]. rewrite Hw1 in Hrows.
    destruct Hrows as [Hsame | (a' & content & t & title & Hin & Hrest)]; [now left|].
    right. exists a', content, t, title. split; [now right | exact Hrest]. }
  pose proof (saveAttachment_cases env a path (set_rand_calls S w)) as Hsave.
  destruct (Base64.StdEncoding.DecodeString (Content a)) as [e|content] eqn:Edec.
  { rewrite (bind_done _ _ _ _ _ Hsave). now apply Hskip. }
  destruct (fs_fault env "open" path).
  { rewrite (bind_done _ _ _ _ _ Hsave). now apply Hskip. }
  destruct (fs_fault env "write" path).
  { rewrite (bind_done _ _ _ _ _ Hsave). now apply Hskip. }
  rewrite (bind_done _ _ _ _ _ Hsave), (bind_done _ _ _ _ _ (os_Stat_eq env _ _)).
  cbn [set_files set_rand_calls files]. rewrite lookup_insert_eq.
  destruct (fs_fault env "stat" path).
  { now apply Hskip. }
  match goal with
  | |- context [bind (ingest env ?rec) _ ?w1] =>
      destruct (ingest_summary rec w1) as (t & title & w' & Hin & Hne & _ & _ & Hrows)
  end.
  rewrite (bind_done _ _ _ _ _ Hin).
  cbn [ID PhoneNumber ReceivedAt MP3FileName FilePath FileSize recordings enriched
       set_files set_rand_calls] in Hrows.
  exists id, w'. split; [reflexivity|].
  destruct (insertable env id (recordings w)) eqn:Eins; [|now left].
  right. exists a, content, t, title. split; [now left|].
  split; [exact Emp3|]. split; [exact Edec|]. split; [exact Hne|].
  split; [apply generated_id_bytes|]. split; [reflexivity | exact Hrows].
Qed.

(** The first attachment with an MP3 name, when it decodes and the
    file system works for its file. *)
Lemma process_attachments_good (receivedAt phoneNumber : string)
      (pre rest : list AttachmentData) (a : AttachmentData) (content rid : string)
      (w : World) :
  forallb (fun x => negb (is_mp3 x)) pre = true ->
  is_mp3 a = true ->
  Base64.StdEncoding.DecodeString (Content a) = inr content ->
  let id := generated_id env (rand_calls w) in
  let path := "data/mp3s/" +:+ id +:+ ".mp3" in
  fs_fault env "open" path = None ->
  fs_fault env "write" path = None ->
  fs_fault env "stat" path = None ->
  exists (t title : string) (w' : World),
    process_attachments env receivedAt phoneNumber (pre ++ a :: rest) rid w
    = (Done id, w') /\
    title <> "" /\
    rand_calls w' = S (rand_calls w) /\
    (keeps_file env path -> (files w' !! path) = Some content) /\
    (forall p, keeps_file env p -> p <> path ->
               p <> "data/mp3s/" +:+ id +:+ ".wav" ->
               p <> "data/mp3s/" +:+ id +:+ ".txt" ->
               (files w' !! p) = (files w !! p)) /\
    recordings w' =
      if insertable env id (recordings w)
      then recordings w ++
             [mkRecording id phoneNumber receivedAt (FileName a) path
                (Z.of_nat (len content)) t title]
      else recordings w.
Proof.
  intros Hpre Hmp3 Hdec id path Hopen Hwrite Hstat.
  rewrite process_attachments_app by exact Hpre.
  cbn [process_attachments]. rewrite Hmp3.
  rewrite (bind_done _ _ _ _ _ (generateID_spec env w)). fold id.
  assert (Hpath : Filepath.Join attachmentDir (id +:+ ".mp3") = path)
    by apply recording_path, generated_id_bytes.
  rewrite Hpath.
  pose proof (saveAttachment_cases env a path (set_rand_calls S w)) as Hsave.
  rewrite Hdec, Hopen, Hwrite in Hsave.
  rewrite (bind_done _ _ _ _ _ Hsave), (bind_done _ _ _ _ _ (os_Stat_eq env _ _)).
  cbn [set_files set_rand_calls files]. rewrite lookup_insert_eq, Hstat.
  match goal with
  | |- context [bind (ingest env ?rec) _ ?w1] =>
      destruct (ingest_summary rec w1) as (t & title & w' & Hin & Hne & Hc & Hf & Hrows)
  end.
  rewrite (bind_done _ _ _ _ _ Hin).
  cbn [ID PhoneNumber ReceivedAt MP3FileName FilePath FileSize recordings rand_calls
       files enriched set_files set_rand_calls] in Hrows, Hc, Hf.
  assert (Hx : path = ("data/mp3s/" +:+ id) +:+ ".mp3")
    by (unfold path; now rewrite app_assoc_str).
  rewrite Hx, wavPath_mp3, transcriptionFile_mp3, <- Hx in Hf.
  exists t, title, w'. split; [reflexivity|]. split; [exact Hne|].
  split; [exact Hc|]. split; [|split; [|exact Hrows]].
  - intros Hk. rewrite Hf; [apply lookup_insert_eq | exact Hk | |].
    + rewrite Hx. apply mp3_not_wav.
    + rewrite Hx. apply mp3_not_txt.
  - intros p Hk Hp1 Hp2 Hp3. rewrite Hf; [| exact Hk | |].
    + now rewrite !lookup_insert_ne by congruence.
    + now rewrite app_assoc_str.
    + now rewrite app_assoc_str.
Qed.

End WebhookRows.

Section WebhookAnswers.

Variable env : Env.

Lemma find_app_fresh {A : Type} (f : A -> bool) (l : list A) (x : A) :
  existsb f l = false -> List.find f (l ++ [x]) = if f x then Some x else None.
Proof.
  induction l as [|y l IH]; [reflexivity|]. cbn [existsb app List.find].
  destruct (f y); [discriminate | exact IH].
Qed.

Lemma insertable_fresh (id : string) (rows : list Recording) :
  insertable env id rows = true ->
  db_fault env "insert" = None /\
  existsb (fun r => String.eqb (ID r) id) rows = false /\
  ~ In id (map ID rows).
Proof.
  unfold insertable. destruct (db_fault env "insert"); [discriminate|].
  intros H. apply negb_true_iff in H. repeat split; [exact H|].
  intros Hin. apply in_map_iff in Hin as (r & <- & Hr).
  assert (existsb (fun r0 => String.eqb (ID r0) (ID r)) rows = true)
    by (apply existsb_exists; exists r; split; [exact Hr | apply String.eqb_refl]).
  congruence.
Qed.

(** The handler on a message that parses, in terms of the loop. *)
Lemma webhookHandler_loop (r : Request) (body : string) (email : EmailData) (w : World) :
  Method r = "POST" ->
  Body r = inr body ->
  json_EmailData env (nastyTimeRegex_ReplaceAll body " ") = inr email ->
  exists phoneNumber : string,
    phone_number email = Done phoneNumber /\
    phoneNumber <> "" /\
    webhookHandler env r w =
    bind (process_attachments env (received_at env email) phoneNumber
            (Attachments email) "")
      (fun recordingID => ret (success_response recordingID)) w.
Proof.
  intros Hm Hb Hj. destruct (extract_never_panics (Subject email)) as (out & Hout).
  exists (if String.eqb out "" then "Unknown" else out).
  split; [unfold phone_number; rewrite Hout; reflexivity|].
  split; [destruct (String.eqb_spec out ""); [discriminate | assumption]|].
  apply (webhookHandler_parsed env r body email out w Hm Hb Hj Hout).
Qed.

(** The play handler on a row whose file is on disk. *)
Lemma playHandler_serves (r : Request) (id content : string) (rec : Recording) (w : World) :
  URLPath r = "/api/play/" +:+ id ->
  id <> "" ->
  all_bytes id_byte id = true ->
  db_fault env "select" = None ->
  List.find (fun x => String.eqb (ID x) id) (recordings w) = Some rec ->
  served_name (FilePath rec) = FilePath rec ->
  unsafe_path env (Dir_path (snd (Filepath.Split (FilePath rec)))) = false ->
  (forall op : string, fs_fault env op (FilePath rec) = None) ->
  (files w !! FilePath rec) = Some content ->
  playHandler env r w
  = (Done (play_response r (mod_time env (FilePath rec)) content), w).
Proof.
  intros Hurl Hid Hbytes Hsel Hfind Hname Hsafe Hfs Hfile.
  rewrite (playHandler_found env r w rec);
    rewrite ?Hurl, ?TrimPrefix_app; [|assumption..].
  rewrite (Hfs "stat"), Hfile, http_ServeFile_eq, Hurl.
  destruct (play_url_checks id Hbytes) as [-> ->].
  rewrite Hsafe, Hname, (Hfs "open"), Hfile, (Hfs "fstat"), serveContent_play.
  reflexivity.
Qed.

End WebhookAnswers.

Section WebhookCases.

Variable env : Env.

(** The four ways the handler answers. *)
Lemma webhookHandler_cases (r : Request) (w : World) :
  exists (resp : Response) (w' : World),
    webhookHandler env r w = (Done resp, w') /\
    if negb (String.eqb (Method r) "POST")
    then resp = http_Error "Method not allowed" StatusMethodNotAllowed /\ w' = w
    else
      match Body r with
      | inl _ =>
          resp = http_Error "Error reading request body" StatusInternalServerError /\ w' = w
      | inr body =>
          match json_EmailData env (nastyTimeRegex_ReplaceAll body " ") with
          | inl _ => resp = http_Error "Error parsing JSON" StatusBadRequest /\ w' = w
          | inr email =>
              exists phoneNumber id : string,
                phone_number email = Done phoneNumber /\
                process_attachments env (received_at env email) phoneNumber
                  (Attachments email) "" w = (Done id, w') /\
                resp = success_response id
          end
      end.
Proof.
  destruct (String.eqb_spec (Method r) "POST") as [Hm|Hm]; cbn [negb].
  2:{ do 2 eexists. split; [|split; reflexivity].
      unfold webhookHandler. apply String.eqb_neq in Hm. rewrite Hm. reflexivity. }
  destruct (Body r) as [e|body] eqn:Hb.
  { do 2 eexists. split; [|split; reflexivity].
    unfold webhookHandler. rewrite Hm, Hb. reflexivity. }
  destruct (json_EmailData env (nastyTimeRegex_ReplaceAll body " ")) as [e|email] eqn:Hj.
  { do 2 eexists. split; [|split; reflexivity].
    unfold webhookHandler. rewrite Hm, Hb, Hj. reflexivity. }
  destruct (webhookHandler_loop env r body email w Hm Hb Hj) as (ph & Hph & _ & Hrun).
  destruct (process_attachments_outcome env (received_at env email) ph
              (Attachments email) "" w) as (id & w' & Hloop & _).
  exists (success_response id), w'.
  split; [rewrite Hrun, (bind_done _ _ _ _ _ Hloop); reflexivity|].
  exists ph, id. auto.
Qed.

(** The row a request adds, if it adds one. *)
Lemma webhook_rows (r : Request) (w w' : World) (resp : Response) :
  webhookHandler env r w = (Done resp, w') ->
  recordings w' = recordings w \/
  exists (body : string) (email : EmailData) (a : AttachmentData)
         (id phoneNumber content t title : string),
    Body r = inr body /\
    json_EmailData env (nastyTimeRegex_ReplaceAll body " ") = inr email /\
    phone_number email = Done phoneNumber /\
    resp = success_response id /\
    In a (Attachments email) /\ is_mp3 a = true /\
    Base64.StdEncoding.DecodeString (Content a) = inr content /\
    title <> "" /\
    all_bytes id_byte id = true /\
    insertable env id (recordings w) = true /\
    recordings w' =
      recordings w ++
        [mkRecording id phoneNumber (received_at env email) (FileName a)
           (Filepath.Join attachmentDir (id +:+ ".mp3"))
           (Z.of_nat (len content)) t title].
Proof.
  intros Hrun.
  destruct (webhookHandler_cases r w) as (resp0 & w0 & Hrun0 & Hcase).
  rewrite Hrun in Hrun0. inversion Hrun0; subst resp0 w0. clear Hrun0.
  destruct (negb (String.eqb (Method r) "POST")); [destruct Hcase as [_ ->]; now left|].
  destruct (Body r) as [e|body]; [destruct Hcase as [_ ->]; now left|].
  destruct (json_EmailData env (nastyTimeRegex_ReplaceAll body " ")) as [e|email] eqn:Hj;
    [destruct Hcase as [_ ->]; now left|].
  destruct Hcase as (ph & id & Hph & Hloop & ->).
  destruct (process_attachments_outcome env (received_at env email) ph
              (Attachments email) "" w) as (id1 & w1 & Hpa & Hrows).
  rewrite Hloop in Hpa. inversion Hpa; subst id1 w1.
  destruct Hrows as [Hsame | (a & content & t & title & Hrest)]; [now left|].
  right. exists body, email, a, id, ph, content, t, title. auto 10.
Qed.

End WebhookCases.



(** X12: one request stores at most one recording, behind the rows
    that were there, which stay as they are.  The new row agrees with
    the answer and with the message: its identifier is the one in the
    response and was not in the table, its file is data/mp3s/ followed
    by the identifier and .mp3, it names an attachment of the message
    with an MP3 name whose content decodes, its size is the number of
    decoded bytes, its date and phone number are those of the message,
    and its title is not empty. *)
Theorem webhook_stores_at_most_one_row :
  forall (env : Env) (r : Request) (w w' : World) (resp : Response),
    webhookHandler env r w = (Done resp, w') ->
    recordings w' = recordings w \/
    exists (rec : Recording) (body : string) (email : EmailData)
           (a : AttachmentData) (content : string),
      recordings w' = recordings w ++ [rec] /\
      resp = success_response (ID rec) /\
      ~ In (ID rec) (map ID (recordings w)) /\
      Body r = inr body /\
      json_EmailData env (nastyTimeRegex_ReplaceAll body " ") = inr email /\
      In a (Attachments email) /\ is_mp3 a = true /\
      Base64.StdEncoding.DecodeString (Content a) = inr content /\
      MP3FileName rec = FileName a /\
      FileSize rec = Z.of_nat (len content) /\
      FilePath rec = "data/mp3s/" +:+ ID rec +:+ ".mp3" /\
      ReceivedAt rec = received_at env email /\
      phone_number email = Done (PhoneNumber rec) /\
      Title rec <> "".
Proof.
  intros env r w w' resp Hrun.
  destruct (webhook_rows env r w w' resp Hrun)
    as [Hsame | (body & email & a & id & ph & content & t & title & Hb & Hj & Hph & ->
                 & Hin & Hmp3 & Hdec & Hne & Hbytes & Hins & Hrows)]; [now left|].
  right. eexists _, body, email, a, content. split; [exact Hrows|]. cbn [ID].
  split; [reflexivity|].
  split; [apply (insertable_fresh env id (recordings w) Hins)|].
  repeat (split; [assumption|]). cbn.
  repeat (split; [reflexivity|]).
  split; [apply recording_path, Hbytes|]. auto.
Qed.

Lemma webhook_stores_at_most_one_row_witness :
  let run := webhookHandler
               (Scenario.env_ok (Scenario.voicemail "Call 415-555-1234" "aGVsbG8="))
               (Scenario.post "{}") Scenario.empty_world in
  exists rec : Recording,
    recordings (snd run) = [rec] /\
    fst run = Done (success_response (ID rec)) /\
    FilePath rec = "data/mp3s/" +:+ ID rec +:+ ".mp3" /\
    PhoneNumber rec = "(415) 555-1234" /\ FileSize rec = 5%Z.
Proof.
  intros run.
  assert (Hrun : webhookHandler
                   (Scenario.env_ok (Scenario.voicemail "Call 415-555-1234" "aGVsbG8="))
                   (Scenario.post "{}") Scenario.empty_world
                 = (Done (success_response "AAECAwQFBgcICQoLDA0ODw=="), snd run))
    by (vm_compute; reflexivity).
  destruct (webhook_stores_at_most_one_row _ _ _ _ _ Hrun)
    as [Hnone | (rec & body & email & a & content & Hrows & Hresp & _ & _ & _ & _ & _
                 & _ & _ & Hsize & Hpath & _ & Hphone & _)].
  - exfalso. vm_compute in Hnone. discriminate.
  - exists rec. split; [exact Hrows|].
    assert (Hid : ID rec = "AAECAwQFBgcICQoLDA0ODw==")
      by (inversion Hresp; reflexivity).
    split; [unfold run; rewrite Hrun, Hid; reflexivity|].
    split; [exact Hpath|].
    vm_compute in Hrows. inversion Hrows; subst rec. split; reflexivity.
Defined.

(** X13: the identifiers of the table stay pairwise different: when no
    two rows share an identifier before a request to the webhook, none
    do after it. *)
Theorem webhook_keeps_ids_unique :
  forall (env : Env) (r : Request) (w w' : World) (resp : Response),
    List.NoDup (map ID (recordings w)) ->
    webhookHandler env r w = (Done resp, w') ->
    List.NoDup (map ID (recordings w')).
Proof.
  intros env r w w' resp Hnd Hrun.
  destruct (webhook_rows env r w w' resp Hrun)
    as [-> | (body & email & a & id & ph & content & t & title & _ & _ & _ & _
              & _ & _ & _ & _ & _ & Hins & ->)]; [exact Hnd|].
  rewrite map_app. cbn [map ID].
  apply NoDup_ListNoDup, NoDup_app. split; [now apply NoDup_ListNoDup|].
  split; [|apply NoDup_singleton].
  intros x Hx Hin. apply list_elem_of_singleton in Hin. subst x.
  apply list_elem_of_In in Hx.
  now apply (insertable_fresh env id (recordings w) Hins).
Qed.

Lemma webhook_keeps_ids_unique_witness :
  List.NoDup
    (map ID (recordings (snd (webhookHandler
       (Scenario.env_ok (Scenario.voicemail "Call 415-555-1234" "aGVsbG8="))
       (Scenario.post "{}") Scenario.world_with_stored)))).
Proof.
  apply (webhook_keeps_ids_unique
           (Scenario.env_ok (Scenario.voicemail "Call 415-555-1234" "aGVsbG8="))
           (Scenario.post "{}") Scenario.world_with_stored _
           (success_response "AQIDBAUGBwgJCgsMDQ4PEA==")).
  - vm_compute. repeat constructor. intros H; inversion H.
  - vm_compute; reflexivity.
Defined.

(** ** The loop leaves at the first recording it saves *)

Section LoopBreak.

Variable env : Env.

Lemma process_attachments_break (receivedAt phoneNumber : string)
      (a : AttachmentData) (content : string) (rest1 rest2 : list AttachmentData) :
  is_mp3 a = true ->
  Base64.StdEncoding.DecodeString (Content a) = inr content ->
  (forall op p, fs_fault env op p = None) ->
  forall (pre : list AttachmentData) (recordingID : string) (w : World),
    process_attachments env receivedAt phoneNumber (pre ++ a :: rest1) recordingID w
    = process_attachments env receivedAt phoneNumber (pre ++ a :: rest2) recordingID w.
Proof.
  intros Hmp3 Hdec Hfs.
  assert (Hsaved : forall (x : AttachmentData) (c : string) (l1 l2 : list AttachmentData)
                          (rid : string) (w : World),
             is_mp3 x = true ->
             Base64.StdEncoding.DecodeString (Content x) = inr c ->
             process_attachments env receivedAt phoneNumber (x :: l1) rid w
             = process_attachments env receivedAt phoneNumber (x :: l2) rid w).
  { intros x c l1 l2 rid w Hx Hc. cbn [process_attachments]. rewrite Hx.
    rewrite !(bind_done _ _ _ _ _ (generateID_spec env w)).
    match goal with
    | |- context [bind (saveAttachment env x ?path) _ ?w0] =>
        pose proof (saveAttachment_cases env x path w0) as Hsave;
        rewrite Hc, !Hfs in Hsave
    end.
    rewrite !(bind_done _ _ _ _ _ Hsave), !(bind_done _ _ _ _ _ (os_Stat_eq env _ _)).
    cbn [set_files set_rand_calls files]. rewrite lookup_insert_eq, Hfs. reflexivity. }
  induction pre as [|x pre IH]; intros rid w.
  { cbn [app]. now apply (Hsaved a content). }
  cbn [app]. destruct (is_mp3 x) eqn:Hx.
  2:{ cbn [process_attachments]. rewrite Hx. apply IH. }
  destruct (Base64.StdEncoding.DecodeString (Content x)) as [e|c] eqn:Hc.
  2:{ now apply (Hsaved x c). }
  cbn [process_attachments]. rewrite Hx.
  rewrite !(bind_done _ _ _ _ _ (generateID_spec env w)).
  match goal with
  | |- context [bind (saveAttachment env x ?path) _ ?w0] =>
      pose proof (saveAttachment_cases env x path w0) as Hsave; rewrite Hc in Hsave
  end.
  rewrite !(bind_done _ _ _ _ _ Hsave). apply IH.
Qed.

End LoopBreak.

(** X14: only the first MP3 that can be saved counts.  Two messages
    with the same subject and date whose attachments agree up to and
    including an attachment with an MP3 name that decodes get, on a
    working file system, the same answer and leave the same world:
    whatever follows that attachment is never looked at. *)
Theorem webhook_ignores_what_follows :
  forall (env : Env) (r1 r2 : Request) (body1 body2 : string) (email1 email2 : EmailData)
         (pre rest1 rest2 : list AttachmentData) (a : AttachmentData) (content : string)
         (w : World),
    Method r1 = "POST" -> Method r2 = "POST" ->
    Body r1 = inr body1 -> Body r2 = inr body2 ->
    json_EmailData env (nastyTimeRegex_ReplaceAll body1 " ") = inr email1 ->
    json_EmailData env (nastyTimeRegex_ReplaceAll body2 " ") = inr email2 ->
    Subject email1 = Subject email2 ->
    EmailReceivedAt email1 = EmailReceivedAt email2 ->
    Attachments email1 = pre ++ a :: rest1 ->
    Attachments email2 = pre ++ a :: rest2 ->
    is_mp3 a = true ->
    Base64.StdEncoding.DecodeString (Content a) = inr content ->
    (forall op p, fs_fault env op p = None) ->
    webhookHandler env r1 w = webhookHandler env r2 w.
Proof.
  intros env r1 r2 body1 body2 email1 email2 pre rest1 rest2 a content w
         Hm1 Hm2 Hb1 Hb2 Hj1 Hj2 Hsub Hdate Ha1 Ha2 Hmp3 Hdec Hfs.
  destruct (extract_never_panics (Subject email1)) as (out & Hout).
  rewrite (webhookHandler_parsed env r1 body1 email1 out w Hm1 Hb1 Hj1 Hout).
  rewrite Hsub in Hout.
  rewrite (webhookHandler_parsed env r2 body2 email2 out w Hm2 Hb2 Hj2 Hout).
  rewrite Ha1, Ha2, Hdate. unfold bind.
  rewrite (process_attachments_break env _ _ a content rest1 rest2 Hmp3 Hdec Hfs).
  reflexivity.
Qed.

Lemma webhook_ignores_what_follows_witness :
  let env :=
    mkEnv (fun k => inr (fun i => ascii_of_nat (k + i)))
          (fun _ => 1700000000000000000%Z)
          "2025-01-01 00:00:00"
          (fun _ _ => None)
          (fun _ => 0)
          (fun _ => None)
          (fun _ => None)
          (fun _ _ fs => (fs, mkCmdResult "hello it is bob" "" None))
          (fun _ _ => inr (mkHTTPResponse 200 (inr "{}")))
          (fun body =>
             inr (mkEmailData "Call 415-555-1234" "bob@example.com" ""
                    (mkAttachmentData "Voice.MP3" "aGVsbG8=" "audio/mpeg"
                       :: if String.eqb body "two"
                          then [mkAttachmentData "Second.mp3" "aGk=" "audio/mpeg"]
                          else [])))
          (fun _ => inr Scenario.bob_reply)
          (fun _ => None)
          true in
  webhookHandler env (Scenario.post "one") Scenario.empty_world
  = webhookHandler env (Scenario.post "two") Scenario.empty_world.
Proof.
  intros env.
  apply (webhook_ignores_what_follows env (Scenario.post "one") (Scenario.post "two")
           "one" "two"
           (mkEmailData "Call 415-555-1234" "bob@example.com" ""
              [mkAttachmentData "Voice.MP3" "aGVsbG8=" "audio/mpeg"])
           (mkEmailData "Call 415-555-1234" "bob@example.com" ""
              [mkAttachmentData "Voice.MP3" "aGVsbG8=" "audio/mpeg";
               mkAttachmentData "Second.mp3" "aGk=" "audio/mpeg"])
           [] [] [mkAttachmentData "Second.mp3" "aGk=" "audio/mpeg"]
           (mkAttachmentData "Voice.MP3" "aGVsbG8=" "audio/mpeg") "hello");
    try reflexivity.
Defined.

(** ** From the webhook to the player *)

Section RoundTrip.

Variable env : Env.

(** The handler on a message whose first MP3 attachment can be saved. *)
Lemma webhook_good (r : Request) (body : string) (email : EmailData)
      (pre rest : list AttachmentData) (a : AttachmentData) (content : string) (w : World) :
  Method r = "POST" ->
  Body r = inr body ->
  json_EmailData env (nastyTimeRegex_ReplaceAll body " ") = inr email ->
  Attachments email = pre ++ a :: rest ->
  forallb (fun x => negb (is_mp3 x)) pre = true ->
  is_mp3 a = true ->
  Base64.StdEncoding.DecodeString (Content a) = inr content ->
  let id := generated_id env (rand_calls w) in
  let path := "data/mp3s/" +:+ id +:+ ".mp3" in
  fs_fault env "open" path = None ->
  fs_fault env "write" path = None ->
  fs_fault env "stat" path = None ->
  exists (phoneNumber t title : string) (w' : World),
    webhookHandler env r w = (Done (success_response id), w') /\
    phone_number email = Done phoneNumber /\
    title <> "" /\
    (keeps_file env path -> (files w' !! path) = Some content) /\
    recordings w' =
      if insertable env id (recordings w)
      then recordings w ++
             [mkRecording id phoneNumber (received_at env email) (FileName a) path
                (Z.of_nat (len content)) t title]
      else recordings w.
Proof.
  intros Hm Hb Hj Hatt Hpre Hmp3 Hdec id path Hopen Hwrite Hstat.
  destruct (webhookHandler_loop env r body email w Hm Hb Hj) as (ph & Hph & _ & Hrun).
  destruct (process_attachments_good env (received_at env email) ph pre rest a content ""
              w Hpre Hmp3 Hdec Hopen Hwrite Hstat)
    as (t & title & w' & Hloop & Hne & _ & Hfile & _ & Hrows).
  exists ph, t, title, w'. rewrite Hrun, Hatt, (bind_done _ _ _ _ _ Hloop).
  auto.
Qed.

End RoundTrip.

(** X15: a recording that came in through the webhook can be played.
    When the first attachment with an MP3 name decodes to the bytes
    [content], the file system and the store work, the identifier is
    new and the external commands leave the MP3 file alone, the handler
    answers 201 with the identifier, and a request for /api/play/
    followed by that identifier, without range or conditional headers,
    gets status 200 with the header lines Content-Type audio/mpeg and
    Content-Disposition inline of the handler and Last-Modified (when
    the file has a date), Accept-Ranges bytes and Content-Length of
    [http.ServeFile]; its body is exactly those bytes, and nothing when
    the method is HEAD. *)
Theorem webhook_then_play :
  forall (env : Env) (r : Request) (body : string) (email : EmailData)
         (pre rest : list AttachmentData) (a : AttachmentData) (content : string)
         (w : World),
    Method r = "POST" ->
    Body r = inr body ->
    json_EmailData env (nastyTimeRegex_ReplaceAll body " ") = inr email ->
    Attachments email = pre ++ a :: rest ->
    forallb (fun x => negb (is_mp3 x)) pre = true ->
    is_mp3 a = true ->
    Base64.StdEncoding.DecodeString (Content a) = inr content ->
    let id := generated_id env (rand_calls w) in
    let path := "data/mp3s/" +:+ id +:+ ".mp3" in
    (forall op, fs_fault env op path = None) ->
    keeps_file env path ->
    insertable env id (recordings w) = true ->
    db_fault env "select" = None ->
    exists w' : World,
      webhookHandler env r w = (Done (success_response id), w') /\
      forall r' : Request,
        URLPath r' = "/api/play/" +:+ id ->
        exists resp : Response,
          playHandler env r' w' = (Done resp, w') /\
          Status resp = 200%Z /\
          Headers resp
          = ([("Content-Type", "audio/mpeg"); ("Content-Disposition", "inline")]
               ++ match mod_time env path with
                  | Some t => [("Last-Modified", t)]
                  | None => []
                  end
               ++ [("Accept-Ranges", "bytes");
                   ("Content-Length", itoa (Z.of_nat (len content)))]) /\
          Payload resp
          = if String.eqb (Method r') "HEAD" then BodyText "" else BodyFile content.
Proof.
  intros env r body email pre rest a content w Hm Hb Hj Hatt Hpre Hmp3 Hdec id path
         Hfs Hkeep Hins Hsel.
  destruct (webhook_good env r body email pre rest a content w Hm Hb Hj Hatt Hpre Hmp3 Hdec
              (Hfs "open") (Hfs "write") (Hfs "stat"))
    as (ph & t & title & w' & Hrun & _ & _ & Hfile & Hrows).
  fold id path in Hrun, Hfile, Hrows. rewrite Hins in Hrows.
  exists w'. split; [exact Hrun|]. intros r' Hurl.
  exists (play_response r' (mod_time env path) content).
  split; [|split; [reflexivity|split; reflexivity]].
  apply (playHandler_serves env r' id content
           (mkRecording id ph (received_at env email) (FileName a) path
              (Z.of_nat (len content)) t title)); cbn [FilePath]; auto.
  - apply generated_id_nonempty.
  - apply generated_id_bytes.
  - rewrite Hrows.
    rewrite find_app_fresh by apply (insertable_fresh env id (recordings w) Hins).
    cbn [ID]. now rewrite String.eqb_refl.
  - apply served_name_recording, generated_id_bytes.
  - apply unsafe_path_recording, generated_id_bytes.
Qed.

Lemma webhook_then_play_witness :
  exists w' : World,
    webhookHandler (Scenario.env_ok (Scenario.voicemail "Call 415-555-1234" "aGVsbG8="))
      (Scenario.post "{}") Scenario.empty_world
    = (Done (success_response "AAECAwQFBgcICQoLDA0ODw=="), w') /\
    forall r' : Request,
      URLPath r' = "/api/play/" +:+ "AAECAwQFBgcICQoLDA0ODw==" ->
      exists resp : Response,
        playHandler (Scenario.env_ok (Scenario.voicemail "Call 415-555-1234" "aGVsbG8="))
          r' w'
        = (Done resp, w') /\
        Status resp = 200%Z /\
        Headers resp
        = [("Content-Type", "audio/mpeg"); ("Content-Disposition", "inline");
           ("Last-Modified", "Mon, 06 Jan 2025 15:04:05 GMT");
           ("Accept-Ranges", "bytes"); ("Content-Length", "5")] /\
        Payload resp
        = if String.eqb (Method r') "HEAD" then BodyText "" else BodyFile "hello".
Proof.
  apply (webhook_then_play
           (Scenario.env_ok (Scenario.voicemail "Call 415-555-1234" "aGVsbG8="))
           (Scenario.post "{}") "{}" (Scenario.voicemail "Call 415-555-1234" "aGVsbG8=")
           [mkAttachmentData "notes.txt" "aGk=" "text/plain"] []
           (mkAttachmentData "Voice.MP3" "aGVsbG8=" "audio/mpeg") "hello"
           Scenario.empty_world);
    try reflexivity.
  intros name args fs. reflexivity.
Defined.

(** X16: a row the store refuses is not reported.  When the first MP3
    attachment is saved but the store fails or already holds the
    identifier, the handler still answers 201 with the identifier, the
    table is as before, and the file stays on disk; when the failure is
    one of the store, a request to play the identifier gets 404. *)
Theorem webhook_store_refusal :
  forall (env : Env) (r : Request) (body : string) (email : EmailData)
         (pre rest : list AttachmentData) (a : AttachmentData) (content : string)
         (w : World),
    Method r = "POST" ->
    Body r = inr body ->
    json_EmailData env (nastyTimeRegex_ReplaceAll body " ") = inr email ->
    Attachments email = pre ++ a :: rest ->
    forallb (fun x => negb (is_mp3 x)) pre = true ->
    is_mp3 a = true ->
    Base64.StdEncoding.DecodeString (Content a) = inr content ->
    let id := generated_id env (rand_calls w) in
    let path := "data/mp3s/" +:+ id +:+ ".mp3" in
    (forall op, fs_fault env op path = None) ->
    keeps_file env path ->
    insertable env id (recordings w) = false ->
    exists w' : World,
      webhookHandler env r w = (Done (success_response id), w') /\
      Status (success_response id) = 201%Z /\
      recordings w' = recordings w /\
      (files w' !! path) = Some content /\
      (existsb (fun x => String.eqb (ID x) id) (recordings w) = false ->
       forall r' : Request,
         URLPath r' = "/api/play/" +:+ id ->
         playHandler env r' w'
         = (Done (http_Error "Recording not found" StatusNotFound), w')).
Proof.
  intros env r body email pre rest a content w Hm Hb Hj Hatt Hpre Hmp3 Hdec id path
         Hfs Hkeep Hins.
  destruct (webhook_good env r body email pre rest a content w Hm Hb Hj Hatt Hpre Hmp3 Hdec
              (Hfs "open") (Hfs "write") (Hfs "stat"))
    as (ph & t & title & w' & Hrun & _ & _ & Hfile & Hrows).
  fold id path in Hrun, Hfile, Hrows. rewrite Hins in Hrows.
  exists w'. split; [exact Hrun|]. split; [reflexivity|]. split; [exact Hrows|].
  split; [now apply Hfile|]. intros Hfresh r' Hurl.
  assert (Hid : TrimPrefix (URLPath r') "/api/play/" = id)
    by (rewrite Hurl; apply TrimPrefix_app).
  assert (Hne : TrimPrefix (URLPath r') "/api/play/" <> "")
    by (rewrite Hid; apply generated_id_nonempty).
  destruct (db_fault env "select") as [e|] eqn:Hsel.
  - apply (playHandler_lookup_failed env r' w' e Hne).
    rewrite db_select_cases, Hsel. reflexivity.
  - apply (playHandler_lookup_failed env r' w' ErrNoRows Hne).
    rewrite db_select_cases, Hsel, Hid, Hrows.
    destruct (List.find _ (recordings w)) as [x|] eqn:Hfind; [|reflexivity].
    apply find_some in Hfind as [Hin Heq].
    assert (existsb (fun x0 => String.eqb (ID x0) id) (recordings w) = true)
      by (apply existsb_exists; eauto).
    congruence.
Qed.

Lemma webhook_store_refusal_witness :
  exists w' : World,
    webhookHandler
      (Scenario.with_db_fault (ErrText "IO Error: database is locked")
         (Scenario.env_ok (Scenario.voicemail "Call 415-555-1234" "aGVsbG8=")))
      (Scenario.post "{}") Scenario.empty_world
    = (Done (success_response "AAECAwQFBgcICQoLDA0ODw=="), w') /\
    recordings w' = [] /\
    (files w' !! "data/mp3s/AAECAwQFBgcICQoLDA0ODw==.mp3") = Some "hello".
Proof.
  destruct (webhook_store_refusal
              (Scenario.with_db_fault (ErrText "IO Error: database is locked")
                 (Scenario.env_ok (Scenario.voicemail "Call 415-555-1234" "aGVsbG8=")))
              (Scenario.post "{}") "{}" (Scenario.voicemail "Call 415-555-1234" "aGVsbG8=")
              [mkAttachmentData "notes.txt" "aGk=" "text/plain"] []
              (mkAttachmentData "Voice.MP3" "aGVsbG8=" "audio/mpeg") "hello"
              Scenario.empty_world
              eq_refl eq_refl eq_refl eq_refl eq_refl eq_refl eq_refl
              (fun _ => eq_refl) (fun _ _ _ => eq_refl) eq_refl)
    as (w' & Hrun & _ & Hrows & Hfile & _).
  exists w'. auto.
Defined.

(** ** The play handler reads *)

Section PlayReads.

Variable env : Env.

Lemma toHTTPError_codes (err : OpenError) :
  In (snd (toHTTPError err)) [403; 404; 500]%Z.
Proof.
  destruct err as [e| |]; cbn [toHTTPError]; [destruct (Errno e)| |]; cbn; auto.
Qed.

Lemma serveError_code (h : list (string * string)) (err : OpenError) :
  In (Status (let '(msg, code) := toHTTPError err in serveError h msg code))
    [200; 301; 400; 403; 404; 500]%Z /\
  Status (let '(msg, code) := toHTTPError err in serveError h msg code) <> 200%Z.
Proof.
  pose proof (toHTTPError_codes err) as H. destruct (toHTTPError err) as [msg code].
  cbn [snd] in H. cbn [serveError http_Error_on Status].
  cbn in H. destruct H as [<-|[<-|[<-|[]]]]; split; cbn; auto 10; discriminate.
Qed.

(** [http.ServeFile] answers and changes nothing; when it answers 200
    the file is there, and the answer is the one of [serveContent]. *)
Lemma http_ServeFile_cases (h : list (string * string)) (r : Request) (name : string)
      (w : World) :
  exists resp : Response,
    http_ServeFile env h r name w = (Done resp, w) /\
    In (Status resp) [200; 301; 400; 403; 404; 500]%Z /\
    (Status resp = 200%Z ->
     exists content : string,
       (files w !! served_name name) = Some content /\
       resp = serveContent h r (mod_time env (served_name name))
                (Z.of_nat (len content)) content).
Proof.
  rewrite http_ServeFile_eq. eexists. split; [reflexivity|].
  destruct (containsDotDot (URLPath r)); [split; [cbn; auto 10 | discriminate]|].
  destruct (HasSuffix (URLPath r) "/index.html"); [split; [cbn; auto 10 | discriminate]|].
  destruct (unsafe_path env _); [split; [cbn; auto 10 | discriminate]|].
  destruct (fs_fault env "open" (served_name name)) as [e|].
  { split; [apply serveError_code|]. intros H. now apply serveError_code in H. }
  destruct (files w !! served_name name) as [content|];
    [|split; [cbn; auto 10 | discriminate]].
  destruct (fs_fault env "fstat" (served_name name)) as [e|].
  { split; [apply serveError_code|]. intros H. now apply serveError_code in H. }
  split; [cbn; auto 10|]. intros _. exists content. auto.
Qed.

Lemma http_ServeFile_returns (headers : list (string * string)) (r : Request)
      (name : string) (w : World) :
  exists resp : Response, http_ServeFile env headers r name w = (Done resp, w).
Proof.
  destruct (http_ServeFile_cases headers r name w) as (resp & H & _). eauto.
Qed.

Lemma playHandler_cases (r : Request) (w : World) :
  exists resp : Response,
    playHandler env r w = (Done resp, w) /\
    In (Status resp) [200; 301; 400; 403; 404; 500]%Z /\
    (Status resp = 200%Z ->
     exists (rec : Recording) (content : string),
       In rec (recordings w) /\
       ID rec = TrimPrefix (URLPath r) "/api/play/" /\
       (files w !! served_name (FilePath rec)) = Some content /\
       resp = play_response r (mod_time env (served_name (FilePath rec))) content).
Proof.
  destruct (String.eqb_spec (TrimPrefix (URLPath r) "/api/play/") "") as [E|Hid].
  { unfold playHandler. rewrite E. eexists. split; [reflexivity|].
    split; [cbn; auto 10 | discriminate]. }
  destruct (db_fault env "select") as [e|] eqn:Hsel.
  { rewrite (playHandler_lookup_failed env r w e Hid)
      by (rewrite db_select_cases, Hsel; reflexivity).
    eexists. split; [reflexivity|]. split; [cbn; auto 10 | discriminate]. }
  destruct (List.find (fun x => String.eqb (ID x) (TrimPrefix (URLPath r) "/api/play/"))
              (recordings w)) as [rec|] eqn:Hfind.
  2:{ rewrite (playHandler_lookup_failed env r w ErrNoRows Hid)
        by (rewrite db_select_cases, Hsel, Hfind; reflexivity).
      eexists. split; [reflexivity|]. split; [cbn; auto 10 | discriminate]. }
  rewrite (playHandler_found env r w rec Hid Hsel Hfind).
  apply find_some in Hfind as [Hin Heq]. apply String.eqb_eq in Heq.
  destruct (match fs_fault env "stat" (FilePath rec) with Some e => _ | None => _ end).
  { eexists. split; [reflexivity|]. split; [cbn; auto 10 | discriminate]. }
  destruct (http_ServeFile_cases
              [("Content-Type", "audio/mpeg"); ("Content-Disposition", "inline")]
              r (FilePath rec) w) as (resp & Hrun & Hstatus & H200).
  exists resp. split; [exact Hrun|]. split; [exact Hstatus|].
  intros Hs. destruct (H200 Hs) as (content & Hfile & ->).
  exists rec, content. rewrite serveContent_play. auto.
Qed.


End PlayReads.

(** X17: [playHandler] only reads.  On a request without range or
    conditional headers, with rows that name regular files or nothing,
    it always answers and leaves the files, the table and the trace
    exactly as they were; its status is one of 200, 301, 400, 403, 404
    and 500.  A 200 always belongs to a stored row whose identifier is
    the one in the URL and whose file, under the name [http.ServeFile]
    opens, is there: its header lines are Content-Type audio/mpeg and
    Content-Disposition inline of the handler, then Last-Modified (when
    the file has a date), Accept-Ranges bytes and Content-Length with
    the length of the file; its body is the content of the file, and
    nothing when the method is HEAD. *)
Theorem playHandler_read_only :
  forall (env : Env) (r : Request) (w : World),
  exists resp : Response,
    playHandler env r w = (Done resp, w) /\
    In (Status resp) [200; 301; 400; 403; 404; 500]%Z /\
    (Status resp = 200%Z ->
     exists (rec : Recording) (content : string),
       In rec (recordings w) /\
       ID rec = TrimPrefix (URLPath r) "/api/play/" /\
       (files w !! served_name (FilePath rec)) = Some content /\
       Headers resp
       = ([("Content-Type", "audio/mpeg"); ("Content-Disposition", "inline")]
            ++ match mod_time env (served_name (FilePath rec)) with
               | Some t => [("Last-Modified", t)]
               | None => []
               end
            ++ [("Accept-Ranges", "bytes");
                ("Content-Length", itoa (Z.of_nat (len content)))]) /\
       Payload resp
       = if String.eqb (Method r) "HEAD" then BodyText "" else BodyFile content).
Proof.
  intros env r w.
  destruct (playHandler_cases env r w) as (resp & Hrun & Hstatus & H200).
  exists resp. split; [exact Hrun|]. split; [exact Hstatus|].
  intros Hs. destruct (H200 Hs) as (rec & content & Hin & Hid & Hfile & ->).
  exists rec, content. repeat split; assumption.
Qed.

Lemma playHandler_read_only_witness :
  exists (rec : Recording) (content : string),
    In rec (recordings Scenario.world_with_stored) /\
    ID rec = "abc" /\
    (files Scenario.world_with_stored !! served_name (FilePath rec)) = Some content.
Proof.
  destruct (playHandler_read_only (Scenario.env_ok Scenario.no_audio) (Scenario.play "abc")
              Scenario.world_with_stored) as (resp & Hrun & _ & H200).
  assert (Hs : Status resp = 200%Z).
  { assert (E : fst (playHandler (Scenario.env_ok Scenario.no_audio) (Scenario.play "abc")
                       Scenario.world_with_stored) = Done resp) by (rewrite Hrun; reflexivity).
    vm_compute in E. inversion E. reflexivity. }
  destruct (H200 Hs) as (rec & content & Hin & Hid & Hfile & _).
  exists rec, content. auto.
Defined.
(** ** The webhook on a saved attachment *)

Section SavedAttachment.

Variable env : Env.

(** The step after a failed transcription. *)
Lemma ingest_failed (recording : Recording) (w0 w1 : World) (t : string) (err : error) :
  transcribeAudio env (FilePath recording) w0 = (Done (t, Some err), w1) ->
  ingest env recording w0
  = (Done tt,
     if insertable env (ID recording) (recordings w0)
     then mkWorld (files w1)
            (recordings w0 ++
               [enriched recording ("Transcription failed: " +:+ Error err)
                  "Untitled Voicemail"])
            (rand_calls w1) (trace w1)
     else w1) /\
  recordings w1 = recordings w0 /\
  exists es, trace w1 = trace w0 ++ es /\ only_exec es.
Proof.
  intros Ht.
  destruct (transcribeAudio_returns env (FilePath recording) w0)
    as (res & w1' & Heq & Hrows & _ & es & Hes & Hex).
  rewrite Ht in Heq. injection Heq as _ <-.
  split; [|split; [exact Hrows | exists es; auto]].
  unfold ingest, enrich.
  rewrite bind_assoc, (bind_done _ _ _ _ _ Ht), bind_ret.
  rewrite (bind_done _ _ _ _ _ (db_insert_eq env _ _)).
  cbn [ID enriched]. rewrite Hrows.
  destruct (insertable env (ID recording) (recordings w0)); reflexivity.
Qed.

(** The loop up to the ingestion of the first attachment with an MP3
    name, when it decodes and the file system works for its file. *)
Lemma process_attachments_saved (receivedAt phoneNumber : string)
      (pre rest : list AttachmentData) (a : AttachmentData) (content rid : string)
      (w : World) :
  forallb (fun x => negb (is_mp3 x)) pre = true ->
  is_mp3 a = true ->
  Base64.StdEncoding.DecodeString (Content a) = inr content ->
  let id := generated_id env (rand_calls w) in
  let path := "data/mp3s/" +:+ id +:+ ".mp3" in
  fs_fault env "open" path = None ->
  fs_fault env "write" path = None ->
  fs_fault env "stat" path = None ->
  process_attachments env receivedAt phoneNumber (pre ++ a :: rest) rid w
  = bind (ingest env
            (mkRecording id phoneNumber receivedAt (FileName a) path
               (Z.of_nat (len content)) "" ""))
      (fun _ => ret id) (saved path content w).
Proof.
  intros Hpre Hmp3 Hdec id path Hopen Hwrite Hstat.
  rewrite process_attachments_app by exact Hpre.
  cbn [process_attachments]. rewrite Hmp3.
  rewrite (bind_done _ _ _ _ _ (generateID_spec env w)). fold id.
  assert (Hpath : Filepath.Join attachmentDir (id +:+ ".mp3") = path)
    by apply recording_path, generated_id_bytes.
  rewrite Hpath.
  pose proof (saveAttachment_cases env a path (set_rand_calls S w)) as Hsave.
  rewrite Hdec, Hopen, Hwrite in Hsave.
  rewrite (bind_done _ _ _ _ _ Hsave), (bind_done _ _ _ _ _ (os_Stat_eq env _ _)).
  cbn [set_files set_rand_calls files]. rewrite lookup_insert_eq, Hstat.
  reflexivity.
Qed.

Lemma webhook_saved (r : Request) (body : string) (email : EmailData)
      (pre rest : list AttachmentData) (a : AttachmentData) (content out : string)
      (w : World) :
  Method r = "POST" ->
  Body r = inr body ->
  json_EmailData env (N body) = inr email ->
  Attachments email = pre ++ a :: rest ->
  forallb (fun x => negb (is_mp3 x)) pre = true ->
  is_mp3 a = true ->
  Base64.StdEncoding.DecodeString (Content a) = inr content ->
  let id := generated_id env (rand_calls w) in
  let path := "data/mp3s/" +:+ id +:+ ".mp3" in
  fs_fault env "open" path = None ->
  fs_fault env "write" path = None ->
  fs_fault env "stat" path = None ->
  extractPhoneNumber (Subject email) = Done out ->
  webhookHandler env r w
  = bind (ingest env
            (mkRecording id (if String.eqb out "" then "Unknown" else out)
               (received_at env email) (FileName a) path (Z.of_nat (len content)) "" ""))
      (fun _ => ret (success_response id)) (saved path content w).
Proof.
  intros Hm Hb Hj Hatt Hpre Hmp3 Hdec id path Hopen Hwrite Hstat Hout.
  rewrite (webhookHandler_parsed env r body email out w Hm Hb Hj Hout), Hatt.
  fold (received_at env email). unfold bind at 1.
  rewrite (process_attachments_saved _ _ pre rest a content "" w Hpre Hmp3 Hdec
             Hopen Hwrite Hstat).
  fold id path. unfold bind.
  destruct (ingest env _ (saved path content w)) as [[[]|msg] w']; reflexivity.
Qed.

(** The row the handler stores for such a message. *)
Lemma webhook_row (r : Request) (body : string) (email : EmailData)
      (pre rest : list AttachmentData) (a : AttachmentData) (content out : string)
      (w : World) :
  Method r = "POST" ->
  Body r = inr body ->
  json_EmailData env (N body) = inr email ->
  Attachments email = pre ++ a :: rest ->
  forallb (fun x => negb (is_mp3 x)) pre = true ->
  is_mp3 a = true ->
  Base64.StdEncoding.DecodeString (Content a) = inr content ->
  let id := generated_id env (rand_calls w) in
  let path := "data/mp3s/" +:+ id +:+ ".mp3" in
  fs_fault env "open" path = None ->
  fs_fault env "write" path = None ->
  fs_fault env "stat" path = None ->
  extractPhoneNumber (Subject email) = Done out ->
  exists (t title : string) (w' : World),
    webhookHandler env r w = (Done (success_response id), w') /\
    recordings w' =
      if insertable env id (recordings w)
      then recordings w ++
             [mkRecording id (if String.eqb out "" then "Unknown" else out)
                (received_at env email) (FileName a) path (Z.of_nat (len content))
                t title]
      else recordings w.
Proof.
  intros Hm Hb Hj Hatt Hpre Hmp3 Hdec id path Hopen Hwrite Hstat Hout.
  rewrite (webhook_saved r body email pre rest a content out w Hm Hb Hj Hatt Hpre Hmp3
             Hdec Hopen Hwrite Hstat Hout).
  fold id path.
  match goal with
  | |- context [bind (ingest env ?rec) _ ?w1] =>
      destruct (ingest_summary env rec w1) as (t & title & w' & Hin & _ & _ & _ & Hrows)
  end.
  rewrite (bind_done _ _ _ _ _ Hin).
  cbn [ID PhoneNumber ReceivedAt MP3FileName FilePath FileSize recordings enriched saved]
    in Hrows.
  exists t, title, w'. split; [reflexivity | exact Hrows].
Qed.

End SavedAttachment.

(** ** The extractor and the pattern *)

Section ExtractorAndPattern.

(** The extractor answers the empty string exactly when the pattern
    has no match. *)
Lemma extract_empty_iff (s : string) :
  extractPhoneNumber s = Done "" <-> ~ phone_pattern_occurs s.
Proof.
  split.
  - intros He (pre & s0 & s' & c & -> & Hm).
    pose proof (search_complete phoneRegex s0 s' c Hm pre) as Hs.
    destruct (phone_submatch_shape (pre +:+ s0))
      as [Hnone | (whole & g1 & g2 & g3 & Hsub & _ & _ & [Hl3 _])].
    + unfold FindStringSubmatch in Hnone.
      destruct (search phoneRegex (pre +:+ s0)) as [[whole c0]|];
        [discriminate | contradiction].
    + rewrite (extract_on_match _ _ _ _ _ Hsub) in He by lia.
      destruct (String.eqb g1 "704" && String.eqb (drop 2 g3) "90"); discriminate.
  - intros Hno. apply extract_no_match. unfold FindStringSubmatch.
    destruct (search phoneRegex s) as [[whole c]|] eqn:E; [|reflexivity].
    exfalso. apply Hno. apply search_sound in E.
    destruct E as (pre & s0 & s' & -> & Hm & _). exists pre, s0, s', c. auto.
Qed.

Lemma few_digits_no_phone (s : string) :
  count_bytes digit s < 10 -> ~ phone_pattern_occurs s.
Proof.
  intros Hc (pre & s0 & s' & c & -> & Hm).
  apply phone_match_ten_digits in Hm. rewrite count_bytes_app in Hc. lia.
Qed.

End ExtractorAndPattern.

(** ** Parts of a text after the substitution *)

Section Parts.






End Parts.

(** C3: a failed transcription is stored as a placeholder, and no
    title is asked for.  When [transcribeAudio] returns an error for
    the file of a recording, the ingestion of that recording ends in
    the world the transcription left, with one more row if the store
    takes it: the recording with the transcription
    "Transcription failed: " followed by the text of the error and the
    title "Untitled Voicemail".  Nothing else happened since the
    transcription began but runs of external commands: no request went
    to the title service.  So the webhook handler, on a message whose
    first attachment with an MP3 name was saved and whose transcription
    fails, answers 201 with the identifier and stores exactly that
    row. *)
Theorem webhook_transcription_failure :
  forall env : Env,
    (forall (recording : Recording) (w0 w1 : World) (t : string) (err : error),
        transcribeAudio env (FilePath recording) w0 = (Done (t, Some err), w1) ->
        ingest env recording w0
        = (Done tt,
           if insertable env (ID recording) (recordings w0)
           then mkWorld (files w1)
                  (recordings w0 ++
                     [enriched recording ("Transcription failed: " +:+ Error err)
                        "Untitled Voicemail"])
                  (rand_calls w1) (trace w1)
           else w1) /\
        recordings w1 = recordings w0 /\
        exists es, trace w1 = trace w0 ++ es /\ only_exec es) /\
    (forall (r : Request) (body : string) (email : EmailData)
            (pre rest : list AttachmentData) (a : AttachmentData)
            (content out : string) (w w1 : World) (t : string) (err : error),
        Method r = "POST" ->
        Body r = inr body ->
        json_EmailData env (nastyTimeRegex_ReplaceAll body " ") = inr email ->
        Attachments email = pre ++ a :: rest ->
        forallb (fun x => negb (is_mp3 x)) pre = true ->
        is_mp3 a = true ->
        Base64.StdEncoding.DecodeString (Content a) = inr content ->
        let id := generated_id env (rand_calls w) in
        let path := "data/mp3s/" +:+ id +:+ ".mp3" in
        fs_fault env "open" path = None ->
        fs_fault env "write" path = None ->
        fs_fault env "stat" path = None ->
        extractPhoneNumber (Subject email) = Done out ->
        transcribeAudio env path (saved path content w) = (Done (t, Some err), w1) ->
        webhookHandler env r w
        = (Done (success_response id),
           if insertable env id (recordings w)
           then mkWorld (files w1)
                  (recordings w ++
                     [mkRecording id (if String.eqb out "" then "Unknown" else out)
                        (received_at env email) (FileName a) path
                        (Z.of_nat (len content))
                        ("Transcription failed: " +:+ Error err) "Untitled Voicemail"])
                  (rand_calls w1) (trace w1)
           else w1) /\
        exists es, trace w1 = trace w ++ es /\ only_exec es).
Proof.
  intros env. split.
  - intros recording w0 w1 t err Ht. exact (ingest_failed env recording w0 w1 t err Ht).
  - intros r body email pre rest a content out w w1 t err Hm Hb Hj Hatt Hpre Hmp3 Hdec
           id path Hopen Hwrite Hstat Hout Ht.
    rewrite (webhook_saved env r body email pre rest a content out w Hm Hb Hj Hatt Hpre
               Hmp3 Hdec Hopen Hwrite Hstat Hout).
    fold id path.
    destruct (ingest_failed env
                (mkRecording id (if String.eqb out "" then "Unknown" else out)
                   (received_at env email) (FileName a) path (Z.of_nat (len content))
                   "" "")
                (saved path content w) w1 t err Ht) as (Hin & _ & Htrace).
    rewrite (bind_done _ _ _ _ _ Hin). split; [reflexivity | exact Htrace].
Qed.

Lemma webhook_transcription_failure_witness :
  let email := Scenario.voicemail "Call 415-555-1234" "aGVsbG8=" in
  let env := Scenario.without_whisper (Scenario.env_ok email) in
  let result := webhookHandler env (Scenario.post "{}") Scenario.empty_world in
  fst result = Done (success_response "AAECAwQFBgcICQoLDA0ODw==") /\
  recordings (snd result) =
    [mkRecording "AAECAwQFBgcICQoLDA0ODw==" "(415) 555-1234"
       "Monday, January 6, 2025 at 3:04:05 PM" "Voice.MP3"
       "data/mp3s/AAECAwQFBgcICQoLDA0ODw==.mp3" 5
       "Transcription failed: whisper.cpp not found in PATH: exec: not found"
       "Untitled Voicemail"] /\
  trace (snd result) = [].
Proof.
  intros email env result.
  destruct (proj2 (webhook_transcription_failure env)
              (Scenario.post "{}") "{}" email
              [mkAttachmentData "notes.txt" "aGk=" "text/plain"] []
              (mkAttachmentData "Voice.MP3" "aGVsbG8=" "audio/mpeg") "hello"
              "(415) 555-1234" Scenario.empty_world
              (saved "data/mp3s/AAECAwQFBgcICQoLDA0ODw==.mp3" "hello" Scenario.empty_world)
              ""
              (Wrapped "whisper.cpp not found in PATH: " (ErrText "exec: not found") "")
              eq_refl eq_refl eq_refl eq_refl eq_refl eq_refl eq_refl
              eq_refl eq_refl eq_refl eq_refl eq_refl) as [H _].
  unfold result. rewrite H. repeat split.
Defined.

(** C5: the extractor maps "Call me at (415) 555-1234" to
    "(415) 555-1234".  It returns the empty string exactly on the
    inputs in which the phone pattern, in its declarative reading, has
    no match; a text with fewer than ten digits is such an input.  On a
    message whose subject is such an input and whose first attachment
    with an MP3 name is saved, the row the webhook handler stores has
    the phone number "Unknown"; on a subject for which the extractor
    returns a text that is not empty, the row has that text. *)
Theorem extract_415_and_unknown :
  extractPhoneNumber "Call me at (415) 555-1234" = Done "(415) 555-1234" /\
  (forall s : string, extractPhoneNumber s = Done "" <-> ~ phone_pattern_occurs s) /\
  (forall s : string, count_bytes digit s < 10 -> ~ phone_pattern_occurs s) /\
  (forall (env : Env) (r : Request) (body : string) (email : EmailData)
          (pre rest : list AttachmentData) (a : AttachmentData) (content : string)
          (w : World),
      Method r = "POST" ->
      Body r = inr body ->
      json_EmailData env (nastyTimeRegex_ReplaceAll body " ") = inr email ->
      Attachments email = pre ++ a :: rest ->
      forallb (fun x => negb (is_mp3 x)) pre = true ->
      is_mp3 a = true ->
      Base64.StdEncoding.DecodeString (Content a) = inr content ->
      let id := generated_id env (rand_calls w) in
      let path := "data/mp3s/" +:+ id +:+ ".mp3" in
      fs_fault env "open" path = None ->
      fs_fault env "write" path = None ->
      fs_fault env "stat" path = None ->
      (~ phone_pattern_occurs (Subject email) ->
       exists (t title : string) (w' : World),
         webhookHandler env r w = (Done (success_response id), w') /\
         recordings w' =
           if insertable env id (recordings w)
           then recordings w ++
                  [mkRecording id "Unknown" (received_at env email) (FileName a) path
                     (Z.of_nat (len content)) t title]
           else recordings w) /\
      (forall out : string,
          extractPhoneNumber (Subject email) = Done out ->
          out <> "" ->
          exists (t title : string) (w' : World),
            webhookHandler env r w = (Done (success_response id), w') /\
            recordings w' =
              if insertable env id (recordings w)
              then recordings w ++
                     [mkRecording id out (received_at env email) (FileName a) path
                        (Z.of_nat (len content)) t title]
              else recordings w)).
Proof.
  split; [vm_compute; reflexivity|]. split; [exact extract_empty_iff|].
  split; [exact few_digits_no_phone|].
  intros env r body email pre rest a content w Hm Hb Hj Hatt Hpre Hmp3 Hdec id path
         Hopen Hwrite Hstat.
  split.
  - intros Hno. apply extract_empty_iff in Hno.
    exact (webhook_row env r body email pre rest a content "" w Hm Hb Hj Hatt Hpre Hmp3
             Hdec Hopen Hwrite Hstat Hno).
  - intros out Hout Hne.
    pose proof (webhook_row env r body email pre rest a content out w Hm Hb Hj Hatt Hpre
                  Hmp3 Hdec Hopen Hwrite Hstat Hout) as H.
    fold id path in H. destruct (String.eqb_spec out "") as [E|_]; [contradiction|].
    exact H.
Qed.

Lemma extract_415_and_unknown_witness :
  let email := Scenario.voicemail "no number here" "aGVsbG8=" in
  exists (t title : string) (w' : World),
    webhookHandler (Scenario.env_ok email) (Scenario.post "{}") Scenario.empty_world
    = (Done (success_response "AAECAwQFBgcICQoLDA0ODw=="), w') /\
    recordings w' =
      [mkRecording "AAECAwQFBgcICQoLDA0ODw==" "Unknown"
         "Monday, January 6, 2025 at 3:04:05 PM" "Voice.MP3"
         "data/mp3s/AAECAwQFBgcICQoLDA0ODw==.mp3" 5 t title].
Proof.
  intros email.
  apply (proj1 (proj2 (proj2 (proj2 extract_415_and_unknown))
                  (Scenario.env_ok email) (Scenario.post "{}") "{}" email
                  [mkAttachmentData "notes.txt" "aGk=" "text/plain"] []
                  (mkAttachmentData "Voice.MP3" "aGVsbG8=" "audio/mpeg") "hello"
                  Scenario.empty_world
                  eq_refl eq_refl eq_refl eq_refl eq_refl eq_refl eq_refl
                  eq_refl eq_refl eq_refl)).
  apply (proj1 (proj2 (proj2 extract_415_and_unknown))). vm_compute. lia.
Defined.



(** ** The listing handler *)

Section ListingFacts.

Variable env : Env.
Variable Time : Type.
Variable time_Parse : string -> string -> error + Time.
Variable time_Format : Time -> string -> string.

Lemma ltb_asym (s t : string) : String.ltb s t = true -> String.ltb t s = false.
Proof.
  unfold String.ltb. rewrite (String.compare_antisym t s).
  destruct (String.compare s t); cbn; congruence.
Qed.

Lemma insert_desc_perm (rec : Recording) (rows : list Recording) :
  Permutation (insert_desc rec rows) (rec :: rows).
Proof.
  induction rows as [|x rows IH]; [reflexivity|]. cbn [insert_desc].
  destruct (String.ltb (ReceivedAt x) (ReceivedAt rec)); [reflexivity|].
  rewrite IH. apply perm_swap.
Qed.

Lemma order_by_perm (rows : list Recording) :
  Permutation (order_by_received_at_desc rows) rows.
Proof.
  induction rows as [|x rows IH]; [reflexivity|].
  cbn [order_by_received_at_desc fold_right]. rewrite insert_desc_perm.
  now apply perm_skip.
Qed.

Lemma insert_desc_sorted (rec : Recording) (rows : list Recording) :
  Sorted newer_first rows -> Sorted newer_first (insert_desc rec rows).
Proof.
  induction 1 as [|x rows Hs IH Hhd]; [repeat constructor|]. cbn [insert_desc].
  destruct (String.ltb (ReceivedAt x) (ReceivedAt rec)) eqn:E.
  - constructor; [now constructor|]. constructor. now apply ltb_asym.
  - constructor; [exact IH|].
    destruct rows as [|y rows]; cbn [insert_desc]; [constructor; exact E|].
    destruct (String.ltb (ReceivedAt y) (ReceivedAt rec)); constructor; [exact E|].
    now inversion Hhd.
Qed.

Lemma order_by_sorted (rows : list Recording) :
  Sorted newer_first (order_by_received_at_desc rows).
Proof.
  induction rows as [|x rows IH]; [constructor|].
  cbn [order_by_received_at_desc fold_right]. now apply insert_desc_sorted.
Qed.

Lemma recordingsHandler_cases (r : Request) (w : World) :
  recordingsHandler env Time time_Parse time_Format r w
  = (Done (if String.eqb (Method r) "GET" then
             match db_fault env "query" with
             | Some _ => Plain (http_Error "Database query error" StatusInternalServerError)
             | None =>
                 RecordingList [("Content-Type", "application/json")]
                   (map (scan_row env Time time_Parse time_Format)
                      (order_by_received_at_desc (recordings w)))
             end
           else Plain (http_Error "Method not allowed" StatusMethodNotAllowed)), w).
Proof.
  unfold recordingsHandler, bind, db_query_recordings.
  destruct (String.eqb (Method r) "GET"); [|reflexivity].
  destruct (db_fault env "query"); reflexivity.
Qed.

End ListingFacts.

(** X18: the listing.  [recordingsHandler] always answers and changes
    nothing.  A method other than GET gets 405, and a failing query
    500.  Otherwise the answer is a JSON array with one entry for each
    row of the table, in the order of the stored dates compared as
    texts, larger first; an entry is its row with the date rewritten. *)
Theorem recordingsHandler_lists_every_row :
  forall (env : Env) (Time : Type) (time_Parse : string -> string -> error + Time)
         (time_Format : Time -> string -> string) (r : Request) (w : World),
  exists rp : Reply,
    recordingsHandler env Time time_Parse time_Format r w = (Done rp, w) /\
    (Method r <> "GET" ->
     rp = Plain (http_Error "Method not allowed" StatusMethodNotAllowed)) /\
    (Method r = "GET" -> db_fault env "query" <> None ->
     rp = Plain (http_Error "Database query error" StatusInternalServerError)) /\
    (Method r = "GET" -> db_fault env "query" = None ->
     exists rows : list Recording,
       rp = RecordingList [("Content-Type", "application/json")]
              (map (scan_row env Time time_Parse time_Format) rows) /\
       Permutation rows (recordings w) /\
       Sorted newer_first rows).
Proof.
  intros env Time time_Parse time_Format r w.
  eexists. split; [apply recordingsHandler_cases|].
  destruct (String.eqb_spec (Method r) "GET") as [Hm|Hm].
  - split; [intros H; contradiction|].
    destruct (db_fault env "query") as [e|].
    + split; [reflexivity|]. intros _ H; discriminate.
    + split; [intros _ H; contradiction|]. intros _ _.
      exists (order_by_received_at_desc (recordings w)).
      split; [reflexivity|]. split; [apply order_by_perm | apply order_by_sorted].
  - split; [reflexivity|]. split; intros H; contradiction.
Qed.

Lemma recordingsHandler_lists_every_row_witness :
  exists rows : list Recording,
    fst (recordingsHandler (Scenario.env_ok Scenario.no_audio) string
           (fun _ s => inr s) (fun t _ => t)
           (mkRequest "GET" "/api/recordings" (inr "")) Scenario.world_with_stored)
    = Done (RecordingList [("Content-Type", "application/json")]
              (map (scan_row (Scenario.env_ok Scenario.no_audio) string
                      (fun _ s => inr s) (fun t _ => t)) rows)) /\
    Permutation rows [Scenario.stored].
Proof.
  destruct (recordingsHandler_lists_every_row (Scenario.env_ok Scenario.no_audio) string
              (fun _ s => inr s) (fun t _ => t)
              (mkRequest "GET" "/api/recordings" (inr "")) Scenario.world_with_stored)
    as (rp & Hrun & _ & _ & Hlist).
  destruct (Hlist eq_refl eq_refl) as (rows & -> & Hperm & _).
  exists rows. rewrite Hrun. split; [reflexivity | exact Hperm].
Defined.

(** X19: a recording that came in through the webhook is listed.
    Under the conditions of the round trip to the player, a GET of the
    listing after the request shows one entry more than there were
    rows, and one of the entries has the identifier of the response,
    the name of the attachment and the number of its decoded bytes. *)
Theorem webhook_then_list :
  forall (env : Env) (Time : Type) (time_Parse : string -> string -> error + Time)
         (time_Format : Time -> string -> string)
         (r : Request) (body : string) (email : EmailData)
         (pre rest : list AttachmentData) (a : AttachmentData) (content : string)
         (w : World),
    Method r = "POST" ->
    Body r = inr body ->
    json_EmailData env (nastyTimeRegex_ReplaceAll body " ") = inr email ->
    Attachments email = pre ++ a :: rest ->
    forallb (fun x => negb (is_mp3 x)) pre = true ->
    is_mp3 a = true ->
    Base64.StdEncoding.DecodeString (Content a) = inr content ->
    let id := generated_id env (rand_calls w) in
    let path := "data/mp3s/" +:+ id +:+ ".mp3" in
    (forall op, fs_fault env op path = None) ->
    insertable env id (recordings w) = true ->
    db_fault env "query" = None ->
    exists (w' : World) (listed : list Recording) (entry : Recording),
      webhookHandler env r w = (Done (success_response id), w') /\
      (forall r' : Request,
          Method r' = "GET" ->
          recordingsHandler env Time time_Parse time_Format r' w'
          = (Done (RecordingList [("Content-Type", "application/json")] listed), w')) /\
      length listed = S (length (recordings w)) /\
      In entry listed /\
      ID entry = id /\ MP3FileName entry = FileName a /\
      FilePath entry = path /\
      FileSize entry = Z.of_nat (len content) /\
      Title entry <> "".
Proof.
  intros env Time time_Parse time_Format r body email pre rest a content w
         Hm Hb Hj Hatt Hpre Hmp3 Hdec id path Hfs Hins Hq.
  destruct (webhook_good env r body email pre rest a content w Hm Hb Hj Hatt Hpre Hmp3 Hdec
              (Hfs "open") (Hfs "write") (Hfs "stat"))
    as (ph & t & title & w' & Hrun & _ & Hne & _ & Hrows).
  fold id path in Hrun, Hrows. rewrite Hins in Hrows.
  set (rec := mkRecording id ph (received_at env email) (FileName a) path
                (Z.of_nat (len content)) t title) in Hrows.
  exists w', (map (scan_row env Time time_Parse time_Format)
                (order_by_received_at_desc (recordings w'))),
    (scan_row env Time time_Parse time_Format rec).
  split; [exact Hrun|]. split.
  { intros r' Hget. rewrite recordingsHandler_cases, Hget, Hq. reflexivity. }
  split.
  { rewrite length_map, (Permutation_length (order_by_perm (recordings w'))), Hrows.
    rewrite length_app. cbn [length]. lia. }
  split.
  { apply in_map. apply (Permutation_in rec (Permutation_sym (order_by_perm _))).
    rewrite Hrows. apply in_or_app. right. now left. }
  cbn. auto.
Qed.

Lemma webhook_then_list_witness :
  exists (w' : World) (listed : list Recording) (entry : Recording),
    webhookHandler (Scenario.env_ok (Scenario.voicemail "Call 415-555-1234" "aGVsbG8="))
      (Scenario.post "{}") Scenario.world_with_stored
    = (Done (success_response "AQIDBAUGBwgJCgsMDQ4PEA=="), w') /\
    length listed = 2 /\ In entry listed /\ ID entry = "AQIDBAUGBwgJCgsMDQ4PEA==".
Proof.
  destruct (webhook_then_list
              (Scenario.env_ok (Scenario.voicemail "Call 415-555-1234" "aGVsbG8="))
              string (fun _ s => inr s) (fun t _ => t)
              (Scenario.post "{}") "{}" (Scenario.voicemail "Call 415-555-1234" "aGVsbG8=")
              [mkAttachmentData "notes.txt" "aGk=" "text/plain"] []
              (mkAttachmentData "Voice.MP3" "aGVsbG8=" "audio/mpeg") "hello"
              Scenario.world_with_stored
              eq_refl eq_refl eq_refl eq_refl eq_refl eq_refl eq_refl
              (fun _ => eq_refl) eq_refl eq_refl)
    as (w' & listed & entry & Hrun & _ & Hlen & Hin & Hid & _).
  exists w', listed, entry. auto.
Defined.

(** ** The CORS wrapper *)

Section CorsFacts.




End CorsFacts.



(** ** The escaping of the mail script *)

Section MailScriptFacts.
Import MailScript.

Lemma split_on_nonempty (sep : ascii -> bool) :
  forall s cur : string, Filepath.split_on sep s cur <> [].
Proof.
  induction s as [|a s IH]; intros cur; cbn [Filepath.split_on]; [discriminate|].
  destruct (sep a); [discriminate | apply IH].
Qed.

Lemma as_text_split (oldString : ascii) (newString : string) :
  forall s cur : string,
    as_text newString (Filepath.split_on (Ascii.eqb oldString) s cur)
    = cur +:+ replaced oldString newString s.
Proof.
  induction s as [|a s IH]; intros cur; cbn [Filepath.split_on replaced].
  - cbn [as_text]. now rewrite app_empty_r.
  - destruct (Ascii.eqb oldString a).
    + specialize (IH ""). rewrite app_empty_l in IH.
      destruct (Filepath.split_on (Ascii.eqb oldString) s "") as [|item rest] eqn:E;
        [now apply split_on_nonempty in E|].
      change (as_text newString (cur :: item :: rest))
        with (cur +:+ newString +:+ as_text newString (item :: rest)).
      rewrite IH. reflexivity.
    + rewrite IH, app_assoc_str. reflexivity.
Qed.

Lemma replaceText_replaced (theText : string) (oldString : ascii) (newString : string) :
  replaceText theText oldString newString = replaced oldString newString theText.
Proof. unfold replaceText, text_items. now rewrite as_text_split, app_empty_l. Qed.

Lemma replaced_app (oldString : ascii) (newString : string) (s t : string) :
  replaced oldString newString (s +:+ t)
  = replaced oldString newString s +:+ replaced oldString newString t.
Proof.
  induction s as [|a s IH]; [reflexivity|].
  rewrite app_cons. cbn [replaced]. now rewrite IH, app_assoc_str.
Qed.

Lemma escapeJSON_escaped (s : string) : escapeJSON s = escaped s.
Proof.
  unfold escapeJSON. rewrite !replaceText_replaced.
  induction s as [|a s IH]; [reflexivity|].
  cbn [replaced escaped]. rewrite !replaced_app, IH. f_equal.
  unfold escaped_byte. rewrite (Ascii.eqb_sym a "034").
  destruct (Ascii.eqb_spec "034"%char a) as [<-|H1]; [reflexivity|].
  cbn [replaced]. rewrite (Ascii.eqb_sym a "013").
  destruct (Ascii.eqb_spec "013"%char a) as [<-|H2]; [reflexivity|].
  rewrite app_cons, app_empty_l. cbn [replaced]. rewrite (Ascii.eqb_sym a "009").
  destruct (Ascii.eqb_spec "009"%char a) as [<-|H3]; reflexivity.
Qed.

Lemma escaped_quotes (s : string) (previous : ascii) :
  quotes_escaped previous (escaped s) = true.
Proof.
  revert previous. induction s as [|a s IH]; intros previous; [reflexivity|].
  cbn [escaped]. unfold escaped_byte.
  destruct (Ascii.eqb_spec a "034") as [->|H1].
  { unfold dquote, bytes1.
    repeat (rewrite ?app_cons, ?app_empty_l; cbn [quotes_escaped]).
    rewrite IH. reflexivity. }
  destruct (Ascii.eqb a "013").
  { repeat (rewrite ?app_cons, ?app_empty_l; cbn [quotes_escaped]).
    rewrite IH. reflexivity. }
  destruct (Ascii.eqb a "009").
  { repeat (rewrite ?app_cons, ?app_empty_l; cbn [quotes_escaped]).
    rewrite IH. reflexivity. }
  rewrite app_cons, app_empty_l. cbn [quotes_escaped]. rewrite IH.
  apply Ascii.eqb_neq in H1. rewrite H1. reflexivity.
Qed.

Lemma escaped_no_controls (s : string) :
  all_bytes (fun a => negb (Ascii.eqb a "013") && negb (Ascii.eqb a "009")) (escaped s)
  = true.
Proof.
  induction s as [|a s IH]; [reflexivity|].
  cbn [escaped]. rewrite all_bytes_app, IH, andb_true_r. unfold escaped_byte.
  destruct (Ascii.eqb a "034"); [reflexivity|].
  destruct (Ascii.eqb a "013") eqn:E1; [reflexivity|].
  destruct (Ascii.eqb a "009") eqn:E2; [reflexivity|].
  cbn [all_bytes]. rewrite E1, E2. reflexivity.
Qed.

Lemma escaped_plain (s : string) :
  all_bytes (fun a => negb (Ascii.eqb a "034") && negb (Ascii.eqb a "013")
                      && negb (Ascii.eqb a "009")) s = true ->
  escaped s = s.
Proof.
  induction s as [|a s IH]; [reflexivity|]. cbn [all_bytes escaped].
  intros H. apply andb_prop in H as [Ha Hs]. rewrite (IH Hs). unfold escaped_byte.
  apply andb_prop in Ha as [Ha H3]. apply andb_prop in Ha as [H1 H2].
  apply negb_true_iff in H1, H2, H3. rewrite H1, H2, H3. reflexivity.
Qed.

End MailScriptFacts.

(** X21: [escapeJSON] of the mail script.  Its three passes amount to
    one substitution byte by byte: a double quote becomes backslash
    quote, a carriage return backslash n, a tab backslash t, and every
    other byte stays, the backslash and the line feed among them.  So
    the result holds no carriage return and no tab, every double quote
    in it stands behind a backslash, and a text without the three
    characters is returned as it is. *)
Theorem escapeJSON_bytewise :
  forall s : string,
    MailScript.escapeJSON s = escaped s /\
    all_bytes (fun a => negb (Ascii.eqb a "013") && negb (Ascii.eqb a "009"))
      (MailScript.escapeJSON s) = true /\
    quotes_escaped " " (MailScript.escapeJSON s) = true /\
    (forall rest : string,
        MailScript.escapeJSON (String "\" rest) = String "\" (MailScript.escapeJSON rest) /\
        MailScript.escapeJSON (String "010" rest)
        = String "010" (MailScript.escapeJSON rest)) /\
    (all_bytes (fun a => negb (Ascii.eqb a "034") && negb (Ascii.eqb a "013")
                         && negb (Ascii.eqb a "009")) s = true ->
     MailScript.escapeJSON s = s).
Proof.
  intros s. rewrite !escapeJSON_escaped.
  split; [reflexivity|]. split; [apply escaped_no_controls|].
  split; [apply escaped_quotes|]. split.
  - intros rest. rewrite !escapeJSON_escaped. split; reflexivity.
  - apply escaped_plain.
Qed.

Lemma escapeJSON_bytewise_witness :
  MailScript.escapeJSON "Call from 415-555-1234" = "Call from 415-555-1234".
Proof.
  apply (escapeJSON_bytewise "Call from 415-555-1234"). reflexivity.
Defined.
